(** * Dataset downloader scripts: a shallow embedding and its verification

    The repository holds two command-line scripts,
    [notebooks/download_datasets_hf.py] (the combined script) and
    [notebooks/download_dataset.py] (the selector script).  Both are
    sequences of console writes, file-system operations and network
    requests.  They are embedded here as functions of an explicit world
    (file system, standard input, standard output, a log of effects); the
    outcomes of network requests and of parsing an archive are given by
    oracles, which the theorems quantify over. *)

From Stdlib Require Import ZArith Lia.
From stdpp Require Import base tactics option list strings gmap pretty.

Set Warnings "-register-all".

Local Open Scope string_scope.
Local Open Scope list_scope.
Local Open Scope Z_scope.

(* ================================================================== *)
(** * The Python runtime: exceptions, outcomes, the world              *)
(* ================================================================== *)

Module Py.

(** An exception of class [Exception]: the class name and [str(e)].
    [KeyboardInterrupt] is a signal of the environment and is not
    modelled; [SystemExit] is the outcome [Exit]. *)
Record exn := PyExn { exn_class : string; exn_str : string }.

(** A path is the list of its components, outermost first; paths are
    relative to the working directory, which is the empty path. *)
Abbreviation path := (list string).

(** What a run has done to the outside, oldest first. *)
Inductive request :=
  | HttpGet (url : string)
  | HubLoad (name : string) (config : option string) (split : string).

Inductive event :=
  | EvRequest (r : request)
  | EvMkdir (p : path)
  | EvWrite (p : path)
  | EvUnlink (p : path).

Inductive node :=
  | File (content : string)
  | Dir.

Record world := World {
  fs : gmap path node;
  stdin : list string;
  stdout : list string;
  events : list event
}.

Inductive outcome (A : Type) :=
  | Return (a : A)
  | Raise (e : exn)
  | Exit (code : Z).
Arguments Return {A} a.
Arguments Raise {A} e.
Arguments Exit {A} code.

Definition M (A : Type) : Type := world -> outcome A * world.

Definition ret {A} (a : A) : M A := fun w => (Return a, w).

Definition bind {A B} (m : M A) (k : A -> M B) : M B :=
  fun w =>
    match m w with
    | (Return a, w') => k a w'
    | (Raise e, w') => (Raise e, w')
    | (Exit c, w') => (Exit c, w')
    end.

Definition raise {A} (e : exn) : M A := fun w => (Raise e, w).

(** [sys.exit(code)] *)
Definition sys_exit {A} (code : Z) : M A := fun w => (Exit code, w).

(** [try: m except Exception as e: handler e].  [SystemExit] is not an
    [Exception] and passes through. *)
Definition try_except {A} (m : M A) (handler : exn -> M A) : M A :=
  fun w =>
    match m w with
    | (Raise e, w') => handler e w'
    | r => r
    end.

Definition nl : string := "
".

Definition write_stdout (s : string) : M unit :=
  fun w => (Return tt,
            {| fs := fs w; stdin := stdin w;
               stdout := stdout w ++ [s]; events := events w |}).

(** [print(s)]: the text and a newline. *)
Definition print (s : string) : M unit := write_stdout (s +:+ nl).

Definition log (ev : event) : M unit :=
  fun w => (Return tt,
            {| fs := fs w; stdin := stdin w;
               stdout := stdout w; events := events w ++ [ev] |}).

Definition get_fs : M (gmap path node) := fun w => (Return (fs w), w).

Definition put_fs (f : gmap path node) : M unit :=
  fun w => (Return tt,
            {| fs := f; stdin := stdin w;
               stdout := stdout w; events := events w |}).

(** [input(prompt)]: writes the prompt, reads one line (without its
    newline); at end of input it raises [EOFError]. *)
Definition input (prompt : string) : M string :=
  bind (write_stdout prompt) (fun _ w =>
    match stdin w with
    | [] => (Raise (PyExn "EOFError" "EOF when reading a line"), w)
    | l :: rest =>
        (Return l,
         {| fs := fs w; stdin := rest;
            stdout := stdout w; events := events w |})
    end).

(** [s * n] on strings *)
Fixpoint str_mul (s : string) (n : nat) : string :=
  match n with
  | O => ""
  | S k => s +:+ str_mul s k
  end.

(** The whitespace [str.strip] removes, as UTF-8 byte sequences:
    U+0009..U+000D, U+001C..U+001F, U+0020, U+0085, U+00A0, U+1680,
    U+2000..U+200A, U+2028, U+2029, U+202F, U+205F, U+3000. *)
Definition chr (n : nat) : string := String (Ascii.ascii_of_nat n) EmptyString.

Definition utf8 (l : list nat) : string :=
  fold_right (fun n s => String (Ascii.ascii_of_nat n) s) EmptyString l.

Definition whitespace : list string :=
  (utf8 <$> [ [9%nat]; [10%nat]; [11%nat]; [12%nat]; [13%nat];
              [28%nat]; [29%nat]; [30%nat]; [31%nat]; [32%nat];
              [194; 133]%nat; [194; 160]%nat; [225; 154; 128]%nat;
              [226; 128; 128]%nat; [226; 128; 129]%nat; [226; 128; 130]%nat;
              [226; 128; 131]%nat; [226; 128; 132]%nat; [226; 128; 133]%nat;
              [226; 128; 134]%nat; [226; 128; 135]%nat; [226; 128; 136]%nat;
              [226; 128; 137]%nat; [226; 128; 138]%nat;
              [226; 128; 168]%nat; [226; 128; 169]%nat; [226; 128; 175]%nat;
              [226; 129; 159]%nat; [227; 128; 128]%nat ]).

Fixpoint drop_prefix (pre s : string) : option string :=
  match pre, s with
  | EmptyString, _ => Some s
  | String a pre', String b s' =>
      if Ascii.eqb a b then drop_prefix pre' s' else None
  | String _ _, EmptyString => None
  end.

Fixpoint first_some {A} (l : list (option A)) : option A :=
  match l with
  | [] => None
  | Some a :: _ => Some a
  | None :: l' => first_some l'
  end.

Fixpoint lstrip_fuel (n : nat) (s : string) : string :=
  match n with
  | O => s
  | S k =>
      match first_some ((fun ws => drop_prefix ws s) <$> whitespace) with
      | Some s' => lstrip_fuel k s'
      | None => s
      end
  end.

Definition lstrip (s : string) : string := lstrip_fuel (String.length s) s.

Definition str_rev (s : string) : string :=
  String.string_of_list_ascii (rev (String.list_ascii_of_string s)).

Fixpoint rstrip_fuel (n : nat) (r : string) : string :=
  match n with
  | O => r
  | S k =>
      match first_some ((fun ws => drop_prefix (str_rev ws) r) <$> whitespace) with
      | Some r' => rstrip_fuel k r'
      | None => r
      end
  end.

(** [s.strip()] *)
Definition strip (s : string) : string :=
  let l := lstrip s in
  str_rev (rstrip_fuel (String.length l) (str_rev l)).

(** [len(s.encode())]: the size of a text in bytes. *)
Fixpoint byte_size (s : string) : Z :=
  match s with
  | EmptyString => 0
  | String _ s' => 1 + byte_size s'
  end.

(** [s[:n]] counts code points: a byte [10xxxxxx] continues the code
    point before it. *)
Definition is_continuation (a : Ascii.ascii) : bool :=
  let n := Ascii.nat_of_ascii a in (128 <=? n)%nat && (n <? 192)%nat.

Fixpoint str_take (n : nat) (s : string) : string :=
  match s with
  | EmptyString => ""
  | String a s' =>
      if is_continuation a then String a (str_take n s')
      else match n with
           | O => ""
           | S k => String a (str_take k s')
           end
  end.

(** [for x in l: state = body(state, x)] *)
Fixpoint for_each {A S} (body : S -> A -> M S) (l : list A) (s : S) : M S :=
  match l with
  | [] => ret s
  | x :: l' => bind (body s x) (for_each body l')
  end.

Definition pad_zeros (width : nat) (s : string) : string :=
  str_mul "0" (width - String.length s) +:+ s.

(** [f"{num / den:.{digits}f}"] for [0 <= num] and [0 < den], computed
    on the exact quotient and rounded half to even.  The float
    [num / den] is that quotient when [den] is a power of two and
    [num < 2^53], which covers the sizes this script divides. *)
Definition fmt_fixed (digits : nat) (num den : Z) : string :=
  let scale := 10 ^ Z.of_nat digits in
  let q := (num * scale) / den in
  let r := (num * scale) mod den in
  let rounded := if (den <? 2 * r) || ((den =? 2 * r) && Z.odd q) then q + 1 else q in
  pretty (rounded / scale) +:+ "." +:+ pad_zeros digits (pretty (rounded mod scale)).

(** [f"{z:,}"] for [0 <= z]: groups of three digits; [fuel] bounds the
    number of groups. *)
Fixpoint fmt_thousands_fuel (fuel : nat) (z : Z) : string :=
  match fuel with
  | O => pretty z
  | S k =>
      if z <? 1000 then pretty z
      else fmt_thousands_fuel k (z / 1000) +:+ "," +:+
           pad_zeros 3 (pretty (z mod 1000))
  end.

Definition fmt_thousands (z : Z) : string :=
  fmt_thousands_fuel (String.length (pretty z)) z.

End Py.

Declare Scope py_scope.
Delimit Scope py_scope with py.
Notation "x <- m ;; k" := (Py.bind m (fun x => k))
  (at level 100, m at next level, right associativity) : py_scope.
Notation "m ;; k" := (Py.bind m (fun _ => k))
  (at level 100, right associativity) : py_scope.
Local Open Scope py_scope.

(* ================================================================== *)
(** * The file system, as [pathlib] and [open] see it                  *)
(* ================================================================== *)

Module Fs.
Import Py.

(** [str(path)], with the POSIX separator. *)
Definition path_str (p : path) : string := String.concat "/" p.

Definition os_error (cls errno text : string) (p : path) : exn :=
  PyExn cls ("[Errno " +:+ errno +:+ "] " +:+ text +:+ ": '" +:+ path_str p +:+ "'").

Definition FileExistsError := os_error "FileExistsError" "17" "File exists".
Definition NotADirectoryError := os_error "NotADirectoryError" "20" "Not a directory".
Definition FileNotFoundError := os_error "FileNotFoundError" "2" "No such file or directory".
Definition IsADirectoryError := os_error "IsADirectoryError" "21" "Is a directory".

Definition parent (p : path) : option path :=
  match reverse p with
  | [] => None
  | _ :: r => Some (reverse r)
  end.

Definition name (p : path) : string :=
  match reverse p with
  | [] => ""
  | x :: _ => x
  end.

(** [path.exists()] *)
Definition path_exists (p : path) : M bool :=
  f <- get_fs ;; ret (bool_decide (is_Some (f !! p))).

Definition entries (f : gmap path node) : list (path * node) := map_to_list f.

(** The entries of directory [p]. *)
Definition children (f : gmap path node) (p : path) : list path :=
  filter (fun q => parent q = Some p) (entries f).*1.

(** [path.iterdir()], consumed. *)
Definition iterdir (p : path) : M (list path) :=
  f <- get_fs ;;
  match f !! p with
  | Some Dir => ret (children f p)
  | Some (File _) => raise (NotADirectoryError p)
  | None => raise (FileNotFoundError p)
  end.

(** [any(path.iterdir())]: a path object is truthy. *)
Definition any_iterdir (p : path) : M bool :=
  l <- iterdir p ;; ret (match l with [] => false | _ :: _ => true end).

(** [path.exists() and any(path.iterdir())] *)
Definition exists_and_nonempty (p : path) : M bool :=
  e <- path_exists p ;;
  if e : bool then any_iterdir p else ret false.

(** Everything strictly below [p]: what [p.rglob('*')] yields. *)
Definition below (p q : path) : bool :=
  bool_decide (p `prefix_of` q) && negb (bool_decide (p = q)).

Definition rglob_all (f : gmap path node) (p : path) : list (path * node) :=
  filter (fun e => below p e.1 = true) (entries f).

Definition st_size (n : node) : Z :=
  match n with
  | File c => byte_size c
  | Dir => 0
  end.

Definition is_file (n : node) : bool :=
  match n with
  | File _ => true
  | Dir => false
  end.

(** [sum(f.stat().st_size for f in p.rglob('*') if f.is_file())] *)
Definition tree_size (f : gmap path node) (p : path) : Z :=
  foldr Z.add 0
    ((fun e => st_size e.2) <$> filter (fun e => is_file e.2 = true) (rglob_all f p)).

Definition ends_with (suffix s : string) : bool :=
  match drop_prefix (str_rev suffix) (str_rev s) with
  | Some _ => true
  | None => false
  end.

(** [len(list(p.rglob(pattern)))] for a pattern [*suffix]. *)
Definition rglob_suffix_count (f : gmap path node) (p : path) (suffix : string) : Z :=
  Z.of_nat (length (filter (fun e => ends_with suffix (name e.1) = true) (rglob_all f p))).

(** [path.mkdir(parents=True, exist_ok=True)]: walks the components
    of [todo] below [done]; a regular file on the way is an error,
    [FileExistsError] at the path itself and [NotADirectoryError] above. *)
Fixpoint makedirs (done : path) (todo : list string) (full : path) : M unit :=
  match todo with
  | [] => ret tt
  | c :: rest =>
      let here := done ++ [c] in
      f <- get_fs ;;
      match f !! here with
      | Some Dir => makedirs here rest full
      | Some (File _) =>
          raise (match rest with
                 | [] => FileExistsError full
                 | _ :: _ => NotADirectoryError full
                 end)
      | None =>
          put_fs (<[here := Dir]> f) ;;
          log (EvMkdir here) ;;
          makedirs here rest full
      end
  end.

Definition mkdir_parents_exist_ok (p : path) : M unit := makedirs [] p p.

(** Resolving the directory part of a path that is opened. *)
Fixpoint resolve_dir (f : gmap path node) (done : path) (todo : list string)
    (full : path) : option exn :=
  match todo with
  | [] => None
  | c :: rest =>
      let here := done ++ [c] in
      match f !! here with
      | Some Dir => resolve_dir f here rest full
      | Some (File _) => Some (NotADirectoryError full)
      | None => Some (FileNotFoundError full)
      end
  end.

(** [with open(p, 'w') as f: f.write(content)] (also mode ['wb']):
    creates or truncates the file. *)
Definition open_write (p : path) (content : string) : M unit :=
  f <- get_fs ;;
  match parent p with
  | None => raise (IsADirectoryError p)
  | Some d =>
      match resolve_dir f [] d p with
      | Some e => raise e
      | None =>
          match f !! p with
          | Some Dir => raise (IsADirectoryError p)
          | _ => put_fs (<[p := File content]> f) ;; log (EvWrite p)
          end
      end
  end.

(** Reading a whole file. *)
Definition read_file (p : path) : M string :=
  f <- get_fs ;;
  match f !! p with
  | Some (File c) => ret c
  | Some Dir => raise (IsADirectoryError p)
  | None => raise (FileNotFoundError p)
  end.

(** [path.unlink()] *)
Definition unlink (p : path) : M unit :=
  f <- get_fs ;;
  match f !! p with
  | Some (File _) => put_fs (delete p f) ;; log (EvUnlink p)
  | Some Dir => raise (IsADirectoryError p)
  | None => raise (FileNotFoundError p)
  end.

End Fs.


(* ================================================================== *)
(** * [json.dump(obj, f, indent=2)]                                    *)
(* ================================================================== *)

Module Json.
Import Py.

Inductive json :=
  | JInt (z : Z)
  | JStr (s : string)
  | JArr (items : list json)
  | JObj (members : list (string * json)).

Definition hex_digit (n : nat) : string :=
  String.substring n 1 "0123456789abcdef".

(** One character inside a JSON string.  The texts this repository
    serialises are ASCII; a byte above 127 (part of a code point that
    [ensure_ascii] would write as a [\u] escape) is left as it is. *)
Definition escape_char (a : Ascii.ascii) : string :=
  let n := Ascii.nat_of_ascii a in
  if (n =? 34)%nat then "\" +:+ chr 34
  else if (n =? 92)%nat then "\\"
  else if (n =? 10)%nat then "\n"
  else if (n =? 13)%nat then "\r"
  else if (n =? 9)%nat then "\t"
  else if (n =? 12)%nat then "\f"
  else if (n =? 8)%nat then "\b"
  else if (n <? 32)%nat then
    "\u00" +:+ hex_digit (n / 16) +:+ hex_digit (n mod 16)
  else String a EmptyString.

Fixpoint escape (s : string) : string :=
  match s with
  | EmptyString => ""
  | String a s' => escape_char a +:+ escape s'
  end.

Definition encode_string (s : string) : string :=
  chr 34 +:+ escape s +:+ chr 34.

Definition newline_indent (level : nat) : string :=
  nl +:+ str_mul "  " level.

(** The encoder at nesting depth [level]. *)
Fixpoint encode (level : nat) (v : json) {struct v} : string :=
  match v with
  | JInt z => pretty z
  | JStr s => encode_string s
  | JArr [] => "[]"
  | JArr (x :: rest) =>
      "[" +:+ newline_indent (S level) +:+ encode (S level) x +:+
      (fix tail (l : list json) : string :=
         match l with
         | [] => ""
         | y :: l' =>
             "," +:+ newline_indent (S level) +:+ encode (S level) y +:+ tail l'
         end) rest +:+
      newline_indent level +:+ "]"
  | JObj [] => "{}"
  | JObj ((k, x) :: rest) =>
      "{" +:+ newline_indent (S level) +:+
      encode_string k +:+ ": " +:+ encode (S level) x +:+
      (fix tail (l : list (string * json)) : string :=
         match l with
         | [] => ""
         | (k', y) :: l' =>
             "," +:+ newline_indent (S level) +:+
             encode_string k' +:+ ": " +:+ encode (S level) y +:+ tail l'
         end) rest +:+
      newline_indent level +:+ "}"
  end.

Definition dumps_indent2 (v : json) : string := encode 0 v.

End Json.


(* ================================================================== *)
(** * [notebooks/download_datasets_hf.py]: the combined script         *)
(* ================================================================== *)

Module DownloadDatasetsHf.
Import Py Fs Json.

(** What [requests.get(url, stream=True, timeout=30)] and the reading
    of the response come to: an exception before the destination is
    opened (the request itself, [raise_for_status], the
    [content-length] header), or the chunks [iter_content] yields,
    after which the stream may break with an exception. *)
Inductive http_outcome :=
  | HttpError (e : exn)
  | HttpBody (chunks : list string) (broken : option exn).

(** A member of a zip archive: a directory entry or a file. *)
Inductive zip_member :=
  | ZipDir
  | ZipFile (data : string).

Definition BASE_DIR : path := ["data"; "raw"].

Definition rule : string := str_mul "=" 70.

Definition codesearchnet_readme : string := "CodeSearchNet Dataset

Due to access restrictions, we'll use alternative sources:

1. Python code from PyTorch tutorials (already downloaded)
2. Python standard library examples
3. Code snippets from CoNaLa dataset
4. Stack Overflow code examples

During preprocessing, we'll combine these into our training data.
This approach is BETTER for learning as we control data quality!
".

Definition stackoverflow_answer : string := "def binary_search(arr, target):
    left, right = 0, len(arr) - 1
    while left <= right:
        mid = (left + right) // 2
        if arr[mid] == target:
            return mid
        elif arr[mid] < target:
            left = mid + 1
        else:
            right = mid - 1
    return -1".

Definition stackoverflow_instructions : string := "Stack Overflow Dataset Options

RECOMMENDED: For this project, we'll use a combination approach:
1. Sample data provided (stackoverflow_sample.json) - 100 examples
2. During preprocessing, we'll augment with:
   - Python documentation examples
   - PyTorch tutorial code
   - CoNaLa dataset

OPTIONAL: For larger dataset, you can:
1. Kaggle: https://www.kaggle.com/datasets/stackoverflow/stackoverflow
   - Requires Kaggle account
   - Download Posts.xml
   - Extract Python questions

2. Use our sample + synthetic augmentation (RECOMMENDED for learning)

The sample dataset is sufficient for demonstrating the system!
".

Definition python_docs_readme : string := "Python Documentation

We can use Python's built-in documentation and source code:
- import inspect
- inspect.getsource(function)
- pydoc module

This provides real, working Python code examples.
".

Definition combined_readme : string := "# Combined Dataset for TechDoc-QA-CodeGen

## Strategy: Quality over Quantity

Instead of downloading massive datasets with authentication issues, 
we're creating a high-quality curated dataset from:

### Sources:
1. **PyTorch Tutorials** (✓ Downloaded)
   - Real, working Python code
   - Expert-written documentation
   - ~100MB of quality examples

2. **Python Standard Library**
   - Built-in Python modules
   - Official documentation
   - Can extract via inspect module

3. **Synthetic Code-Doc Pairs**
   - Generate from common programming patterns
   - Controlled quality
   - Targeted for our use cases

4. **Sample Datasets** (Already created)
   - Stack Overflow samples
   - CoNaLa-style examples

### Advantages:
✓ No authentication needed
✓ High quality, verified code
✓ Sufficient for demonstrating all NLP techniques
✓ Actually BETTER for learning (you understand the data)
✓ Can be extended later

### Next Steps:
Run the preprocessing script to combine all sources into
a unified training dataset.

This approach is RECOMMENDED for academic projects!
".

Section Oracles.

(** The network: the outcome of a GET of [url] made when [n] effects
    have been logged. *)
Variable http : nat -> string -> http_outcome.

(** [zipfile.ZipFile(bytes)]: an exception, or the members with the
    components of their names. *)
Variable unzip : string -> exn + list (path * zip_member).

Definition requests_get (url : string) : M http_outcome :=
  fun w =>
    (log (EvRequest (HttpGet url)) ;; ret (http (length (events w)) url)) w.

(** The progress bar goes to the standard error stream, which is not
    modelled. *)
Definition download_file_with_progress (url : string) (dest : path) : M bool :=
  try_except
    (response <- requests_get url ;;
     match response with
     | HttpError e => raise e
     | HttpBody chunks broken =>
         open_write dest (String.concat "" chunks) ;;
         match broken with
         | Some e => raise e
         | None => ret true
         end
     end)
    (fun e => print ("✗ Error: " +:+ exn_str e) ;; ret false).

Definition download_codesearchnet_github : M path :=
  print (nl +:+ rule) ;;
  print "1. DOWNLOADING CODESEARCHNET (Python)" ;;
  print rule ;;
  let output_dir := BASE_DIR ++ ["codesearchnet"] in
  mkdir_parents_exist_ok output_dir ;;
  print "Note: Downloading curated Python samples from GitHub" ;;
  print ("This is smaller than full dataset but sufficient for the project" +:+ nl) ;;
  print "For this project, we'll create a curated dataset from multiple sources." ;;
  print ("Creating placeholder structure..." +:+ nl) ;;
  let sample_file := output_dir ++ ["README.txt"] in
  open_write sample_file codesearchnet_readme ;;
  print "✓ CodeSearchNet structure created" ;;
  print "  We'll use alternative code sources (see README.txt)" ;;
  ret output_dir.

Definition sample_record : json :=
  JObj [ ("question", JStr "How to implement a binary search in Python?");
         ("answer", JStr stackoverflow_answer);
         ("tags", JArr [JStr "python"; JStr "algorithm"; JStr "search"]) ].

Definition sample_data : list json := (fun _ => sample_record) <$> seq 0 100.

Definition download_stackoverflow_csv : M path :=
  print (nl +:+ rule) ;;
  print "2. DOWNLOADING STACK OVERFLOW DATA" ;;
  print rule ;;
  let output_dir := BASE_DIR ++ ["stackoverflow"] in
  mkdir_parents_exist_ok output_dir ;;
  print "Attempting to download from public sources..." ;;
  let sample_file := output_dir ++ ["stackoverflow_sample.json"] in
  open_write sample_file (dumps_indent2 (JArr sample_data)) ;;
  let instructions := output_dir ++ ["DOWNLOAD_OPTIONS.txt"] in
  open_write instructions stackoverflow_instructions ;;
  print "✓ Sample Stack Overflow data created (100 examples)" ;;
  print ("✓ Instructions saved: " +:+ path_str instructions) ;;
  ret output_dir.

Definition conala_files : list (string * string) :=
  [ ("conala-train.json",
     "https://raw.githubusercontent.com/conala-corpus/conala-corpus/master/conala-train.json");
    ("conala-test.json",
     "https://raw.githubusercontent.com/conala-corpus/conala-corpus/master/conala-test.json");
    ("conala-mined.jsonl",
     "https://raw.githubusercontent.com/conala-corpus/conala-corpus/master/conala-mined.jsonl") ].

Definition alt_base : string :=
  "https://github.com/conala-corpus/conala-corpus/raw/master/".

Definition synthetic_record (i : Z) : json :=
  JObj [ ("question_id", JInt i);
         ("intent", JStr "Sort a list of numbers in ascending order");
         ("snippet", JStr "sorted_list = sorted(numbers)") ].

Definition synthetic_data : list json := synthetic_record <$> seqZ 0 50.

(** The body of the loop over [files.items()], with the counter
    [success] carried through. *)
Definition conala_loop_body (output_dir : path) (success : Z)
    (item : string * string) : M Z :=
  let '(filename, url) := item in
  let dest := output_dir ++ [filename] in
  present <- path_exists dest ;;
  if present : bool then
    print ("✓ Already exists: " +:+ filename) ;;
    ret (success + 1)
  else
    print (nl +:+ "Downloading " +:+ filename +:+ "...") ;;
    ok <- download_file_with_progress url dest ;;
    if ok : bool then ret (success + 1)
    else
      print "Trying alternative URL..." ;;
      let alt_url := alt_base +:+ filename in
      ok_alt <- download_file_with_progress alt_url dest ;;
      if ok_alt : bool then ret (success + 1)
      else
        print ("✗ Could not download " +:+ filename) ;;
        ret success.

Definition download_conala_correct_urls : M path :=
  print (nl +:+ rule) ;;
  print "3. DOWNLOADING CONALA DATASET" ;;
  print rule ;;
  let output_dir := BASE_DIR ++ ["conala"] in
  mkdir_parents_exist_ok output_dir ;;
  success <- for_each (conala_loop_body output_dir) conala_files 0 ;;
  (if success =? 0 then
     print (nl +:+ "Creating synthetic CoNaLa-style data for demo...") ;;
     let synthetic_file := output_dir ++ ["conala-synthetic.json"] in
     open_write synthetic_file (dumps_indent2 (JArr synthetic_data)) ;;
     print ("✓ Created synthetic dataset: " +:+ path_str synthetic_file)
   else
     print (nl +:+ "✓ Downloaded " +:+ pretty success +:+ "/3 CoNaLa files")) ;;
  ret output_dir.

Definition verify_pytorch_tutorials : M (option path) :=
  print (nl +:+ rule) ;;
  print "4. VERIFYING PYTORCH TUTORIALS" ;;
  print rule ;;
  let path := BASE_DIR ++ ["pytorch_docs"; "tutorials"] in
  found <- exists_and_nonempty path ;;
  if found : bool then
    print "✓ PyTorch tutorials already downloaded" ;;
    f <- get_fs ;;
    let file_count := rglob_suffix_count f path ".py" in
    print ("  Found " +:+ pretty file_count +:+ " Python files") ;;
    ret (Some path)
  else
    print "✗ PyTorch tutorials not found" ;;
    print "  Run: git clone https://github.com/pytorch/tutorials.git data/raw/pytorch_docs/tutorials" ;;
    ret None.

(** The names [zipfile] extracts to: empty, [.] and [..] components
    are dropped. *)
Definition sanitize (arcname : path) : path :=
  filter (fun x => x ≠ "" ∧ x ≠ "." ∧ x ≠ "..") arcname.

Definition extract_member (target_dir : path) (m : path * zip_member) : M unit :=
  let targetpath := target_dir ++ sanitize m.1 in
  match m.2 with
  | ZipDir => mkdir_parents_exist_ok targetpath
  | ZipFile data =>
      match parent targetpath with
      | Some upperdirs =>
          present <- path_exists upperdirs ;;
          if present : bool then ret tt else mkdir_parents_exist_ok upperdirs
      | None => ret tt
      end ;;
      open_write targetpath data
  end.

(** [with zipfile.ZipFile(zip_file, 'r') as zf: zf.extractall(extract_dir)] *)
Definition extractall (zip_file extract_dir : path) : M unit :=
  bytes <- read_file zip_file ;;
  match unzip bytes with
  | inl e => raise e
  | inr members =>
      for_each (fun _ m => extract_member extract_dir m) members tt
  end.

Definition version : string := "3.11".

Fixpoint remove_dots (s : string) : string :=
  match s with
  | EmptyString => ""
  | String a s' =>
      if Ascii.eqb a (Ascii.ascii_of_nat 46) then remove_dots s' else String a (remove_dots s')
  end.

Definition python_docs_url : string :=
  "https://docs.python.org/" +:+ version +:+ "/archives/python-" +:+
  remove_dots version +:+ "-docs-html.zip".

Definition download_python_docs_correct : M path :=
  print (nl +:+ rule) ;;
  print "5. DOWNLOADING PYTHON DOCUMENTATION" ;;
  print rule ;;
  let output_dir := BASE_DIR ++ ["python_docs"] in
  mkdir_parents_exist_ok output_dir ;;
  let url := python_docs_url in
  let zip_file := output_dir ++ ["python-docs.zip"] in
  let extract_dir := output_dir ++ ["python-" +:+ version] in
  present <- exists_and_nonempty extract_dir ;;
  if present : bool then
    print ("✓ Python " +:+ version +:+ " docs already exist") ;;
    ret output_dir
  else
    print ("Downloading Python " +:+ version +:+ " documentation...") ;;
    print ("URL: " +:+ url) ;;
    ok <- download_file_with_progress url zip_file ;;
    extracted <-
      (if ok : bool then
         print "Extracting..." ;;
         try_except
           (extractall zip_file extract_dir ;;
            unlink zip_file ;;
            print "✓ Python documentation extracted" ;;
            ret true)
           (fun e => print ("✗ Extraction error: " +:+ exn_str e) ;; ret false)
       else ret false) ;;
    if extracted : bool then ret output_dir
    else
      print (nl +:+ "Alternative: Using Python standard library source code") ;;
      print "This is actually BETTER for code examples!" ;;
      let alt_file := output_dir ++ ["README.txt"] in
      open_write alt_file python_docs_readme ;;
      ret output_dir.

Definition create_combined_dataset : M unit :=
  print (nl +:+ rule) ;;
  print "CREATING COMBINED DATASET" ;;
  print rule ;;
  let combined_dir := BASE_DIR ++ ["combined"] in
  mkdir_parents_exist_ok combined_dir ;;
  let readme := combined_dir ++ ["README.md"] in
  open_write readme combined_readme ;;
  print ("✓ Strategy document created: " +:+ path_str readme) ;;
  print (nl +:+ "This approach is actually BETTER for your project because:") ;;
  print "  1. You control the data quality" ;;
  print "  2. No authentication headaches" ;;
  print "  3. Sufficient for all NLP techniques" ;;
  print "  4. Great for presentations (you know your data!)".

Definition datasets : list (string * path) :=
  [ ("CodeSearchNet (Alternative)", BASE_DIR ++ ["codesearchnet"]);
    ("Stack Overflow (Sample)", BASE_DIR ++ ["stackoverflow"]);
    ("CoNaLa", BASE_DIR ++ ["conala"]);
    ("PyTorch Tutorials", BASE_DIR ++ ["pytorch_docs"; "tutorials"]);
    ("Python Docs", BASE_DIR ++ ["python_docs"]);
    ("Combined Strategy", BASE_DIR ++ ["combined"]) ].

(** The body of the loop over [datasets.items()]; the state is
    [(total_size, available)]. *)
Definition verification_loop_body (acc : Z * Z) (item : string * path) : M (Z * Z) :=
  let '(total_size, available) := acc in
  let '(name, path) := item in
  ok <- exists_and_nonempty path ;;
  if ok : bool then
    f <- get_fs ;;
    let size := tree_size f path in
    print ("✓ " +:+ name +:+ ": " +:+ fmt_fixed 1 size (1024 * 1024) +:+ " MB") ;;
    ret (total_size + size, available + 1)
  else
    print ("✗ " +:+ name +:+ ": Not available") ;;
    ret (total_size, available).

Definition final_verification : M bool :=
  print (nl +:+ rule) ;;
  print "FINAL VERIFICATION" ;;
  print rule ;;
  acc <- for_each verification_loop_body datasets (0, 0) ;;
  let '(total_size, available) := acc in
  print rule ;;
  print ("Total Available: " +:+ pretty available +:+ "/" +:+
         pretty (Z.of_nat (length datasets))) ;;
  print ("Total Size: " +:+ fmt_fixed 2 total_size (1024 ^ 3) +:+ " GB") ;;
  (if 3 <=? available then
     print (nl +:+ "✅ SUFFICIENT DATA FOR PROJECT!") ;;
     print (nl +:+ "You have enough to:") ;;
     print "  • Build retrieval system" ;;
     print "  • Train code generation models" ;;
     print "  • Demonstrate all NLP techniques" ;;
     print "  • Complete the project successfully"
   else ret tt) ;;
  ret (3 <=? available).

(** The six routines [main] calls in its [try] block, in order. *)
Definition acquisition_sequence : M unit :=
  download_codesearchnet_github ;;
  download_stackoverflow_csv ;;
  download_conala_correct_urls ;;
  verify_pytorch_tutorials ;;
  download_python_docs_correct ;;
  create_combined_dataset.

(** [main]; [traceback.print_exc()] writes to the standard error
    stream, which is not modelled. *)
Definition main : M unit :=
  print rule ;;
  print "TechDoc-QA-CodeGen - Smart Dataset Strategy" ;;
  print rule ;;
  print (nl +:+ "This version uses a BETTER approach:") ;;
  print "  • Curated, high-quality data" ;;
  print "  • No authentication issues" ;;
  print "  • Sufficient for all project requirements" ;;
  print "  • Great for learning!" ;;
  input (nl +:+ "Press Enter to proceed...") ;;
  try_except
    (acquisition_sequence ;;
     ok <- final_verification ;;
     if ok : bool then
       print (nl +:+ rule) ;;
       print "✅ SUCCESS! You're ready to start building!" ;;
       print rule ;;
       print (nl +:+ "Next steps:") ;;
       print "  1. Review data/raw/combined/README.md" ;;
       print "  2. Create preprocessing script to combine sources" ;;
       print "  3. Start building your retrieval system!" ;;
       print (nl +:+ "💡 TIP: This approach is BETTER than downloading huge datasets") ;;
       print "   because you fully understand and control your data!"
     else
       print (nl +:+ "⚠ Some data missing but you can still proceed") ;;
       print "Focus on available datasets - still enough for the project!")
    (fun e => print (nl +:+ "✗ Error: " +:+ exn_str e)).

(** The script run as a program: the module-level
    [BASE_DIR.mkdir(parents=True, exist_ok=True)], then [main()]. *)
Definition script : M unit :=
  mkdir_parents_exist_ok BASE_DIR ;;
  main.

End Oracles.

End DownloadDatasetsHf.

(* ================================================================== *)
(** * [notebooks/download_dataset.py]: the selector script             *)
(* ================================================================== *)

Module DownloadDataset.
Import Py Fs.

(** A field of an example of a hub dataset. *)
Inductive value :=
  | VStr (s : string)
  | VInt (z : Z)
  | VNone.

(** An example is a [dict]; a dataset is a sequence of examples. *)
Abbreviation example := (list (string * value)).
Abbreviation dataset := (list example).

Inductive hub_outcome :=
  | HubError (e : exn)
  | HubData (d : dataset).

(** [d.get(key, default)] *)
Fixpoint dict_get {V} (d : list (string * V)) (key : string) (default : V) : V :=
  match d with
  | [] => default
  | (k, v) :: d' => if String.eqb k key then v else dict_get d' key default
  end.

(** [d[key] = v]: a [dict] keeps the order in which keys were added. *)
Fixpoint dict_set {V} (d : list (string * V)) (key : string) (v : V)
    : list (string * V) :=
  match d with
  | [] => [(key, v)]
  | (k, x) :: d' =>
      if String.eqb k key then (k, v) :: d' else (k, x) :: dict_set d' key v
  end.

(** [v[:100]] *)
Definition slice_100 (v : value) : M string :=
  match v with
  | VStr s => ret (str_take 100 s)
  | VInt _ => raise (PyExn "TypeError" "'int' object is not subscriptable")
  | VNone => raise (PyExn "TypeError" "'NoneType' object is not subscriptable")
  end.

(** [dataset[0]] *)
Definition first_example (d : dataset) : M example :=
  match d with
  | x :: _ => ret x
  | [] => raise (PyExn "IndexError" "Invalid key: 0 is out of bounds for size 0")
  end.

Definition rule : string := str_mul "=" 70.

Section Oracles.

(** The hub: the outcome of a [load_dataset] call made when [n]
    effects have been logged. *)
Variable hub : nat -> request -> hub_outcome.

(** The hub library's on-disk format, which is its own: the names and
    contents of the files [save_to_disk] writes for a dataset. *)
Variable native_format : dataset -> list (string * string).

(** [datasets.__version__], or [None] when the package cannot be
    imported. *)
Variable datasets_version : option string.

Definition load_dataset (name : string) (config : option string)
    (split : string) : M dataset :=
  fun w =>
    (log (EvRequest (HubLoad name config split)) ;;
     match hub (length (events w)) (HubLoad name config split) with
     | HubError e => raise e
     | HubData d => ret d
     end) w.

(** [dataset.save_to_disk(save_path)] *)
Definition save_to_disk (d : dataset) (save_path : path) : M unit :=
  mkdir_parents_exist_ok save_path ;;
  for_each (fun _ file => open_write (save_path ++ [file.1]) file.2)
           (native_format d) tt.

Definition download_code_alpaca : M bool :=
  print (nl +:+ rule) ;;
  print "DOWNLOADING: Code Alpaca" ;;
  print rule ;;
  try_except
    (print "Loading dataset..." ;;
     dataset <- load_dataset "sahil2801/CodeAlpaca-20k" None "train" ;;
     print ("✓ Loaded: " +:+ pretty (Z.of_nat (length dataset)) +:+ " examples") ;;
     let save_path := ["data"; "raw"; "code_alpaca"] in
     mkdir_parents_exist_ok save_path ;;
     print ("Saving to: " +:+ "./data/raw/code_alpaca") ;;
     save_to_disk dataset save_path ;;
     sample <- first_example dataset ;;
     print (nl +:+ "Sample:") ;;
     instruction <- slice_100 (dict_get sample "instruction" (VStr "")) ;;
     print ("  Instruction: " +:+ instruction +:+ "...") ;;
     output <- slice_100 (dict_get sample "output" (VStr "")) ;;
     print ("  Output: " +:+ output +:+ "...") ;;
     print (nl +:+ "✓ Code Alpaca downloaded successfully!") ;;
     ret true)
    (fun e => print ("✗ Failed: " +:+ exn_str e) ;; ret false).

Definition download_python_instructions : M bool :=
  print (nl +:+ rule) ;;
  print "DOWNLOADING: Python Code Instructions" ;;
  print rule ;;
  try_except
    (print "Loading dataset..." ;;
     dataset <- load_dataset "Iamtarun/python_code_instructions_18k_alpaca" None "train" ;;
     print ("✓ Loaded: " +:+ pretty (Z.of_nat (length dataset)) +:+ " examples") ;;
     let save_path := ["data"; "raw"; "python_instructions"] in
     mkdir_parents_exist_ok save_path ;;
     print ("Saving to: " +:+ "./data/raw/python_instructions") ;;
     save_to_disk dataset save_path ;;
     sample <- first_example dataset ;;
     print (nl +:+ "Sample:") ;;
     instruction <-
       slice_100 (dict_get sample "instruction" (dict_get sample "prompt" (VStr ""))) ;;
     print ("  Instruction: " +:+ instruction +:+ "...") ;;
     print (nl +:+ "✓ Python Instructions downloaded successfully!") ;;
     ret true)
    (fun e => print ("✗ Failed: " +:+ exn_str e) ;; ret false).

Definition download_mbpp : M bool :=
  print (nl +:+ rule) ;;
  print "DOWNLOADING: MBPP (Python Problems)" ;;
  print rule ;;
  try_except
    (print "Loading dataset..." ;;
     dataset <- load_dataset "mbpp" (Some "sanitized") "train" ;;
     print ("✓ Loaded: " +:+ pretty (Z.of_nat (length dataset)) +:+ " examples") ;;
     let save_path := ["data"; "raw"; "mbpp"] in
     mkdir_parents_exist_ok save_path ;;
     print ("Saving to: " +:+ "./data/raw/mbpp") ;;
     save_to_disk dataset save_path ;;
     sample <- first_example dataset ;;
     print (nl +:+ "Sample:") ;;
     text <- slice_100 (dict_get sample "text" (VStr "")) ;;
     print ("  Task: " +:+ text +:+ "...") ;;
     code <- slice_100 (dict_get sample "code" (VStr "")) ;;
     print ("  Code: " +:+ code +:+ "...") ;;
     print (nl +:+ "✓ MBPP downloaded successfully!") ;;
     ret true)
    (fun e => print ("✗ Failed: " +:+ exn_str e) ;; ret false).

(** The header and the check of the [datasets] package. *)
Definition header : M unit :=
  print rule ;;
  print "WORKING DATASET DOWNLOADER" ;;
  print "Using verified, working datasets" ;;
  print rule ;;
  print "" ;;
  match datasets_version with
  | Some v => print ("✓ datasets package version: " +:+ v)
  | None =>
      print "✗ datasets package required" ;;
      print "Install: pip install datasets" ;;
      sys_exit 1
  end.

Definition menu : M unit :=
  print "" ;;
  print rule ;;
  print "AVAILABLE DATASETS (All Tested & Working)" ;;
  print rule ;;
  print "" ;;
  print "1. Code Alpaca - Python code instructions" ;;
  print "   • 20K instruction-code pairs" ;;
  print "   • Perfect for your code generation task" ;;
  print "   • Size: ~50MB, Time: 1-2 min" ;;
  print "" ;;
  print "2. Python Code Instructions" ;;
  print "   • Iamtarun/python_code_instructions_18k_alpaca" ;;
  print "   • 18K examples" ;;
  print "   • Size: ~30MB, Time: 1 min" ;;
  print "" ;;
  print "3. MBPP - Python code problems" ;;
  print "   • google-research-datasets/mbpp" ;;
  print "   • 1,000 programming problems" ;;
  print "   • Size: ~5MB, Time: <1 min" ;;
  print "" ;;
  print "4. Download ALL (Options 1+2+3)" ;;
  print "   • Total: ~35K+ examples" ;;
  print "   • Combined ~85MB" ;;
  print "" ;;
  print rule.

(** The [if choice == ...] chain; [results] starts as the empty
    [dict]. *)
Definition dispatch (choice : string) : M (list (string * bool)) :=
  let results : list (string * bool) := [] in
  if String.eqb choice "1" then
    r <- download_code_alpaca ;;
    ret (dict_set results "Code Alpaca" r)
  else if String.eqb choice "2" then
    r <- download_python_instructions ;;
    ret (dict_set results "Python Instructions" r)
  else if String.eqb choice "3" then
    r <- download_mbpp ;;
    ret (dict_set results "MBPP" r)
  else if String.eqb choice "4" then
    r1 <- download_code_alpaca ;;
    let results := dict_set results "Code Alpaca" r1 in
    r2 <- download_python_instructions ;;
    let results := dict_set results "Python Instructions" r2 in
    r3 <- download_mbpp ;;
    ret (dict_set results "MBPP" r3)
  else
    print "Invalid choice" ;;
    sys_exit 1.

(** [sum(results.values())]: the number of [True] values. *)
Definition successful_count (results : list (string * bool)) : Z :=
  foldr Z.add 0 ((fun r => if r.2 : bool then 1 else 0) <$> results).

Definition examples : list (string * Z) :=
  [ ("Stack Overflow", 100000); ("Code Alpaca", 20000);
    ("Python Instructions", 18000); ("MBPP", 1000) ].

Definition success_banner : string := "✅ SUCCESS! You have enough datasets!".

(** Everything after the dispatch: the summary, the inventory and the
    judgement on [total_datasets]. *)
Definition summary (results : list (string * bool)) : M unit :=
  print (nl +:+ rule) ;;
  print "DOWNLOAD SUMMARY" ;;
  print rule ;;
  for_each (fun _ r =>
              let status := if r.2 : bool then "✓ Success" else "✗ Failed" in
              print ("  " +:+ status +:+ " " +:+ r.1))
           results tt ;;
  let successful := successful_count results in
  let total := Z.of_nat (length results) in
  print (nl +:+ "Successfully downloaded: " +:+ pretty successful +:+ "/" +:+ pretty total) ;;
  print (nl +:+ rule) ;;
  print "COMPLETE DATASET INVENTORY" ;;
  print rule ;;
  print (nl +:+ "✅ Previously Downloaded:") ;;
  print "  ✓ Stack Overflow (100,000 examples)" ;;
  print "  ✓ PyTorch Documentation" ;;
  print (nl +:+ "✅ Just Downloaded:") ;;
  for_each (fun _ r => if r.2 : bool then print ("  ✓ " +:+ r.1) else ret tt)
           results tt ;;
  let total_datasets := 2 + successful in
  print (nl +:+ "📊 TOTAL DATASETS: " +:+ pretty total_datasets) ;;
  (if 3 <=? total_datasets then
     print (nl +:+ rule) ;;
     print success_banner ;;
     print rule ;;
     let total_examples :=
       foldl (fun acc r => if r.2 : bool then acc + dict_get examples r.1 0 else acc)
             100000 results in
     print (nl +:+ "📊 Dataset Statistics:") ;;
     print ("  Total datasets: " +:+ pretty total_datasets) ;;
     print ("  Total examples: " +:+ fmt_thousands total_examples) ;;
     print ("  Code examples: " +:+ fmt_thousands (total_examples - 100000)) ;;
     print (nl +:+ "🎯 What You Can Build:") ;;
     print "  ✅ Semantic search (Stack Overflow)" ;;
     print "  ✅ Documentation QA (PyTorch docs)" ;;
     print "  ✅ Code generation (Code datasets)" ;;
     print "  ✅ Instruction following (Alpaca datasets)" ;;
     print (nl +:+ "📝 Next Steps:") ;;
     print "  1. Verify downloads: python inspect_datasets.py" ;;
     print "  2. Start preprocessing (Week 1)" ;;
     print "  3. Build baseline system (Week 2)" ;;
     print (nl +:+ rule) ;;
     print "🚀 READY TO START WEEK 2!" ;;
     print rule
   else
     print (nl +:+ "⚠️  You have " +:+ pretty total_datasets +:+ " datasets") ;;
     print "Try downloading more options") ;;
  print "".

Definition prompt : string := nl +:+ "What to download? (1-4): ".

(** The script, top to bottom. *)
Definition script : M unit :=
  header ;;
  menu ;;
  line <- input prompt ;;
  let choice := strip line in
  results <- dispatch choice ;;
  summary results.

End Oracles.

End DownloadDataset.

(* ================================================================== *)
(** * Reasoning about runs                                             *)
(* ================================================================== *)

Import Py Fs Json.

(** ** Relations between the world before and after a run *)

(** A relation on worlds that runs compose along: a preorder that does
    not look at the standard output. *)
Class WorldRel (R : world -> world -> Prop) : Prop := {
  wr_refl : forall w, R w w;
  wr_trans : forall w1 w2 w3, R w1 w2 -> R w2 w3 -> R w1 w3;
  wr_stdout : forall w out,
    R w {| fs := fs w; stdin := stdin w;
           stdout := stdout w ++ out; events := events w |}
}.

(** [m] takes every world to an [R]-related one, whatever its outcome. *)
Definition preserves (R : world -> world -> Prop) {A} (m : M A) : Prop :=
  forall w, R w (m w).2.

(** Only paths in [S] may change. *)
Definition touches_only (S : path -> Prop) (w w' : world) : Prop :=
  forall q, ~ S q -> fs w' !! q = fs w !! q.

(** A directory stays a directory. *)
Definition dirs_kept (w w' : world) : Prop :=
  forall q, fs w !! q = Some Dir -> fs w' !! q = Some Dir.

(** Nothing is removed. *)
Definition grows (w w' : world) : Prop :=
  forall q, is_Some (fs w !! q) -> is_Some (fs w' !! q).

(** The run logs only events in [P]. *)
Definition logs_only (P : event -> Prop) (w w' : world) : Prop :=
  exists evs, events w' = events w ++ evs /\ Forall P evs.

(** The run reads nothing. *)
Definition stdin_kept (w w' : world) : Prop := stdin w' = stdin w.

(** The run only writes to the standard output. *)
Definition prints_only (w w' : world) : Prop :=
  fs w' = fs w /\ stdin w' = stdin w /\ events w' = events w.

(** The standard output is extended. *)
Definition stdout_extends (w w' : world) : Prop :=
  exists out, stdout w' = stdout w ++ out.

(** Two paths one of which is a prefix of the other. *)
Definition comparable (d q : path) : Prop := q `prefix_of` d \/ d `prefix_of` q.

#[global] Instance touches_only_rel S : WorldRel (touches_only S).
Proof.
  split.
  - intros w q _. reflexivity.
  - intros w1 w2 w3 H12 H23 q Hq. rewrite (H23 q Hq). apply (H12 q Hq).
  - intros w out q _. reflexivity.
Qed.

#[global] Instance dirs_kept_rel : WorldRel dirs_kept.
Proof.
  split.
  - intros w q H. exact H.
  - intros w1 w2 w3 H12 H23 q Hq. apply H23, H12, Hq.
  - intros w out q H. exact H.
Qed.

#[global] Instance grows_rel : WorldRel grows.
Proof.
  split.
  - intros w q H. exact H.
  - intros w1 w2 w3 H12 H23 q Hq. apply H23, H12, Hq.
  - intros w out q H. exact H.
Qed.

#[global] Instance logs_only_rel P : WorldRel (logs_only P).
Proof.
  split.
  - intros w. exists []. split; [by rewrite app_nil_r | constructor].
  - intros w1 w2 w3 (e1 & H1 & F1) (e2 & H2 & F2). exists (e1 ++ e2). split.
    + rewrite H2, H1. by rewrite app_assoc.
    + by apply Forall_app.
  - intros w out. exists []. split; [by rewrite app_nil_r | constructor].
Qed.

#[global] Instance stdin_kept_rel : WorldRel stdin_kept.
Proof.
  split.
  - intros w. reflexivity.
  - intros w1 w2 w3 H12 H23. unfold stdin_kept in *. congruence.
  - intros w out. reflexivity.
Qed.

#[global] Instance prints_only_rel : WorldRel prints_only.
Proof.
  split.
  - intros w. done.
  - intros w1 w2 w3 (?&?&?) (?&?&?). unfold prints_only. split_and!; congruence.
  - intros w out. done.
Qed.

#[global] Instance stdout_extends_rel : WorldRel stdout_extends.
Proof.
  split.
  - intros w. exists []. by rewrite app_nil_r.
  - intros w1 w2 w3 (o1 & H1) (o2 & H2). exists (o1 ++ o2).
    rewrite H2, H1. by rewrite app_assoc.
  - intros w out. by exists out.
Qed.

(** ** The monad's equations *)

Lemma bind_Return_inv {A B} (m : M A) (k : A -> M B) w b w' :
  bind m k w = (Return b, w') ->
  exists a w1, m w = (Return a, w1) /\ k a w1 = (Return b, w').
Proof.
  unfold bind. destruct (m w) as [[a|e|c] w1]; intros H; [eauto | done | done].
Qed.

Lemma bind_run {A B} (m : M A) (k : A -> M B) w a w1 :
  m w = (Return a, w1) -> bind m k w = k a w1.
Proof. intros H. unfold bind. by rewrite H. Qed.

Lemma bind_run_Raise {A B} (m : M A) (k : A -> M B) w e w1 :
  m w = (Raise e, w1) -> bind m k w = (Raise e, w1).
Proof. intros H. unfold bind. by rewrite H. Qed.

Lemma print_run s w :
  print s w = (Return tt, {| fs := fs w; stdin := stdin w;
                             stdout := stdout w ++ [s +:+ nl];
                             events := events w |}).
Proof. reflexivity. Qed.

Lemma bind_print {B} s (k : unit -> M B) w :
  bind (print s) k w =
  k tt {| fs := fs w; stdin := stdin w;
          stdout := stdout w ++ [s +:+ nl]; events := events w |}.
Proof. reflexivity. Qed.

Lemma bind_ret {A B} (a : A) (k : A -> M B) w : bind (ret a) k w = k a w.
Proof. reflexivity. Qed.

Lemma bind_assoc {A B C} (m : M A) (k1 : A -> M B) (k2 : B -> M C) w :
  bind (bind m k1) k2 w = bind m (fun a => bind (k1 a) k2) w.
Proof. unfold bind. by destruct (m w) as [[a|e|c] w1]. Qed.

Lemma bind_get_fs {B} (k : gmap path node -> M B) w :
  bind get_fs k w = k (fs w) w.
Proof. reflexivity. Qed.

(** ** Composition rules for [preserves] *)

Section Preserves.
Context (R : world -> world -> Prop) `{!WorldRel R}.

Lemma preserves_ret {A} (a : A) : preserves R (ret a).
Proof. intros w. apply wr_refl. Qed.

Lemma preserves_raise {A} e : preserves R (@raise A e).
Proof. intros w. apply wr_refl. Qed.

Lemma preserves_sys_exit {A} c : preserves R (@sys_exit A c).
Proof. intros w. apply wr_refl. Qed.

Lemma preserves_get_fs : preserves R get_fs.
Proof. intros w. apply wr_refl. Qed.

Lemma preserves_print s : preserves R (print s).
Proof. intros w. apply wr_stdout. Qed.

Lemma preserves_bind {A B} (m : M A) (k : A -> M B) :
  preserves R m -> (forall a, preserves R (k a)) -> preserves R (bind m k).
Proof.
  intros Hm Hk w. specialize (Hm w). unfold bind.
  destruct (m w) as [[a|e|c] w1]; simpl in *; try done.
  eapply wr_trans; [exact Hm | apply Hk].
Qed.

Lemma preserves_try_except {A} (m : M A) (h : exn -> M A) :
  preserves R m -> (forall e, preserves R (h e)) -> preserves R (try_except m h).
Proof.
  intros Hm Hh w. specialize (Hm w). unfold try_except.
  destruct (m w) as [[a|e|c] w1]; simpl in *; try done.
  eapply wr_trans; [exact Hm | apply Hh].
Qed.

Lemma preserves_for_each {A S} (body : S -> A -> M S) l s :
  (forall s x, preserves R (body s x)) -> preserves R (for_each body l s).
Proof.
  intros Hb. revert s. induction l as [|x l IH]; intros s; simpl.
  - apply preserves_ret.
  - apply preserves_bind; [apply Hb | intros; apply IH].
Qed.

End Preserves.

Lemma preserves_weaken (R R' : world -> world -> Prop) {A} (m : M A) :
  (forall w w', R w w' -> R' w w') -> preserves R m -> preserves R' m.
Proof. intros H Hm w. apply H, Hm. Qed.

(** ** The file-system operations *)

Lemma parent_snoc (d : path) x : parent (d ++ [x]) = Some d.
Proof. unfold parent. rewrite reverse_snoc. by rewrite reverse_involutive. Qed.

Lemma parent_Some (q d : path) : parent q = Some d -> exists x, q = d ++ [x].
Proof.
  unfold parent. destruct (reverse q) as [|x r] eqn:E; [done|].
  intros [= <-]. exists x.
  rewrite <- (reverse_involutive q), E. by rewrite reverse_cons.
Qed.

(** The world after a directory is made, a file written or removed. *)
Definition after_mkdir (here : path) (w : world) : world :=
  {| fs := <[here := Dir]> (fs w); stdin := stdin w; stdout := stdout w;
     events := events w ++ [EvMkdir here] |}.

Definition after_write (p : path) (c : string) (w : world) : world :=
  {| fs := <[p := File c]> (fs w); stdin := stdin w; stdout := stdout w;
     events := events w ++ [EvWrite p] |}.

Definition after_unlink (p : path) (w : world) : world :=
  {| fs := delete p (fs w); stdin := stdin w; stdout := stdout w;
     events := events w ++ [EvUnlink p] |}.

Lemma makedirs_step done c rest full w :
  makedirs done (c :: rest) full w =
  match fs w !! (done ++ [c]) with
  | Some Dir => makedirs (done ++ [c]) rest full w
  | Some (File _) =>
      (Raise (match rest with
              | [] => FileExistsError full
              | _ :: _ => NotADirectoryError full
              end), w)
  | None => makedirs (done ++ [c]) rest full (after_mkdir (done ++ [c]) w)
  end.
Proof.
  simpl. rewrite bind_get_fs.
  destruct (fs w !! (done ++ [c])) as [[?|]|]; reflexivity.
Qed.

Lemma makedirs_preserves (R : world -> world -> Prop) `{!WorldRel R} target :
  (forall w here, here `prefix_of` target -> fs w !! here = None ->
                  R w (after_mkdir here w)) ->
  forall todo done full, done ++ todo = target ->
    preserves R (makedirs done todo full).
Proof.
  intros Hstep todo. induction todo as [|c rest IH]; intros done full Ht w.
  - apply wr_refl.
  - rewrite makedirs_step.
    assert (Hnext : (done ++ [c]) ++ rest = target) by by rewrite <- app_assoc.
    destruct (fs w !! (done ++ [c])) as [[?|]|] eqn:E.
    + apply wr_refl.
    + by apply IH.
    + eapply wr_trans; [|by apply IH].
      apply Hstep; [|done]. exists rest. by rewrite Hnext.
Qed.

Lemma open_write_cases p c w :
  (exists e, open_write p c w = (Raise e, w)) \/
  (fs w !! p <> Some Dir /\ open_write p c w = (Return tt, after_write p c w)).
Proof.
  unfold open_write. rewrite bind_get_fs.
  destruct (parent p) as [d|]; [|left; eauto].
  destruct (resolve_dir (fs w) [] d p); [left; eauto|].
  destruct (fs w !! p) as [[?|]|] eqn:E; [right|left; eauto|right];
    (split; [congruence|reflexivity]).
Qed.

Lemma open_write_preserves (R : world -> world -> Prop) `{!WorldRel R} p c :
  (forall w, fs w !! p <> Some Dir -> R w (after_write p c w)) ->
  preserves R (open_write p c).
Proof.
  intros Hstep w. destruct (open_write_cases p c w) as [[e ->]|[Hp ->]].
  - apply wr_refl.
  - by apply Hstep.
Qed.

Lemma unlink_cases p w :
  (exists e, unlink p w = (Raise e, w)) \/
  (exists c, fs w !! p = Some (File c) /\ unlink p w = (Return tt, after_unlink p w)).
Proof.
  unfold unlink. rewrite bind_get_fs.
  destruct (fs w !! p) as [[c|]|] eqn:E; [right|left|left]; eauto.
Qed.

Lemma unlink_preserves (R : world -> world -> Prop) `{!WorldRel R} p :
  (forall w c, fs w !! p = Some (File c) -> R w (after_unlink p w)) ->
  preserves R (unlink p).
Proof.
  intros Hstep w. destruct (unlink_cases p w) as [[e ->]|(c & Hc & ->)].
  - apply wr_refl.
  - by eapply Hstep.
Qed.

(** Reading the file system changes nothing. *)
Lemma path_exists_run p w :
  path_exists p w = (Return (bool_decide (is_Some (fs w !! p))), w).
Proof. reflexivity. Qed.

Lemma iterdir_cases p w :
  (exists e, iterdir p w = (Raise e, w) /\ fs w !! p <> Some Dir) \/
  (fs w !! p = Some Dir /\ iterdir p w = (Return (children (fs w) p), w)).
Proof.
  unfold iterdir. rewrite bind_get_fs.
  destruct (fs w !! p) as [[c|]|] eqn:E; [left|right|left]; eauto.
Qed.

Lemma read_file_cases p w :
  (exists e, read_file p w = (Raise e, w)) \/
  (exists c, fs w !! p = Some (File c) /\ read_file p w = (Return c, w)).
Proof.
  unfold read_file. rewrite bind_get_fs.
  destruct (fs w !! p) as [[c|]|] eqn:E; [right|left|left]; eauto.
Qed.

Lemma preserves_path_exists R `{!WorldRel R} p : preserves R (path_exists p).
Proof. intros w. rewrite path_exists_run. apply wr_refl. Qed.

Lemma preserves_iterdir R `{!WorldRel R} p : preserves R (iterdir p).
Proof.
  intros w. destruct (iterdir_cases p w) as [(e & -> & _)|[_ ->]]; apply wr_refl.
Qed.

Lemma preserves_read_file R `{!WorldRel R} p : preserves R (read_file p).
Proof.
  intros w. destruct (read_file_cases p w) as [[e ->]|(c & _ & ->)]; apply wr_refl.
Qed.

(** Decomposes a goal [preserves R m] along the structure of [m]. *)
Ltac pres_step :=
  lazymatch goal with
  | |- preserves ?R (bind _ _) => refine (preserves_bind R _ _ _ _); [|intros]
  | |- preserves ?R (ret _) => exact (preserves_ret R _)
  | |- preserves ?R (raise _) => exact (preserves_raise R _)
  | |- preserves ?R (sys_exit _) => exact (preserves_sys_exit R _)
  | |- preserves ?R (print _) => exact (preserves_print R _)
  | |- preserves ?R get_fs => exact (preserves_get_fs R)
  | |- preserves ?R (try_except _ _) =>
      refine (preserves_try_except R _ _ _ _); [|intros]
  | |- preserves ?R (for_each _ _ _) =>
      refine (preserves_for_each R _ _ _ _); intros
  | |- preserves ?R (path_exists _) => exact (preserves_path_exists R _)
  | |- preserves ?R (iterdir _) => exact (preserves_iterdir R _)
  | |- preserves ?R (read_file _) => exact (preserves_read_file R _)
  | |- preserves ?R (if ?b then _ else _) => destruct b
  | |- preserves ?R (match ?x with _ => _ end) => destruct x
  end.

Ltac pres := repeat first [ assumption | solve [auto 2] | pres_step ].

Lemma preserves_exists_and_nonempty R `{!WorldRel R} p :
  preserves R (exists_and_nonempty p).
Proof. unfold exists_and_nonempty, any_iterdir. pres. Qed.

(** ** What the three writing operations preserve *)

Lemma comparable_of_prefixes (d p q : path) :
  d `prefix_of` p -> q `prefix_of` p -> comparable d q.
Proof.
  intros Hd Hq. destruct (prefix_weak_total _ _ _ Hd Hq); [right|left]; done.
Qed.

Lemma mkdir_touches_in (S : path -> Prop) p :
  (forall q, q `prefix_of` p -> S q) ->
  preserves (touches_only S) (mkdir_parents_exist_ok p).
Proof.
  intros HS. apply (makedirs_preserves _ p); [|done].
  intros w here Hh _ q Hq. simpl. apply lookup_insert_ne.
  intros <-. apply Hq. by apply HS.
Qed.

Lemma open_write_touches_in (S : path -> Prop) p c :
  S p -> preserves (touches_only S) (open_write p c).
Proof.
  intros HS. apply open_write_preserves; [apply _|].
  intros w _ q Hq. simpl. apply lookup_insert_ne. by intros <-.
Qed.

Lemma unlink_touches_in (S : path -> Prop) p :
  S p -> preserves (touches_only S) (unlink p).
Proof.
  intros HS. apply unlink_preserves; [apply _|].
  intros w c _ q Hq. simpl. apply lookup_delete_ne. by intros <-.
Qed.

Lemma mkdir_touches d p :
  d `prefix_of` p ->
  preserves (touches_only (comparable d)) (mkdir_parents_exist_ok p).
Proof.
  intros Hd. apply mkdir_touches_in. intros q Hq.
  by eapply comparable_of_prefixes.
Qed.

Lemma open_write_touches d p c :
  d `prefix_of` p -> preserves (touches_only (comparable d)) (open_write p c).
Proof. intros Hd. apply open_write_touches_in. by right. Qed.

Lemma unlink_touches d p :
  d `prefix_of` p -> preserves (touches_only (comparable d)) (unlink p).
Proof. intros Hd. apply unlink_touches_in. by right. Qed.

Lemma mkdir_dirs_kept p : preserves dirs_kept (mkdir_parents_exist_ok p).
Proof.
  apply (makedirs_preserves _ p); [|done].
  intros w here _ Hnone q Hq. simpl.
  destruct (decide (here = q)) as [->|Hne]; [congruence|].
  by rewrite lookup_insert_ne.
Qed.

Lemma open_write_dirs_kept p c : preserves dirs_kept (open_write p c).
Proof.
  apply open_write_preserves; [apply _|].
  intros w Hp q Hq. simpl.
  destruct (decide (p = q)) as [->|Hne]; [congruence|].
  by rewrite lookup_insert_ne.
Qed.

Lemma unlink_dirs_kept p : preserves dirs_kept (unlink p).
Proof.
  apply unlink_preserves; [apply _|].
  intros w c Hp q Hq. simpl.
  destruct (decide (p = q)) as [->|Hne]; [congruence|].
  by rewrite lookup_delete_ne.
Qed.

Lemma mkdir_grows p : preserves grows (mkdir_parents_exist_ok p).
Proof.
  apply (makedirs_preserves _ p); [|done].
  intros w here _ Hnone q Hq. simpl.
  destruct (decide (here = q)) as [->|Hne].
  - rewrite lookup_insert_eq. eauto.
  - by rewrite lookup_insert_ne.
Qed.

Lemma open_write_grows p c : preserves grows (open_write p c).
Proof.
  apply open_write_preserves; [apply _|].
  intros w Hp q Hq. simpl.
  destruct (decide (p = q)) as [->|Hne].
  - rewrite lookup_insert_eq. eauto.
  - by rewrite lookup_insert_ne.
Qed.

Lemma logs_only_one (P : event -> Prop) w w' ev :
  P ev -> events w' = events w ++ [ev] -> logs_only P w w'.
Proof. intros HP He. exists [ev]. split; [done|]. by constructor. Qed.

Lemma mkdir_logs (P : event -> Prop) p :
  (forall q, P (EvMkdir q)) -> preserves (logs_only P) (mkdir_parents_exist_ok p).
Proof.
  intros HP. apply (makedirs_preserves _ p); [|done].
  intros w here _ _. by eapply logs_only_one.
Qed.

Lemma open_write_logs (P : event -> Prop) p c :
  P (EvWrite p) -> preserves (logs_only P) (open_write p c).
Proof.
  intros HP. apply open_write_preserves; [apply _|].
  intros w _. by eapply logs_only_one.
Qed.

Lemma unlink_logs (P : event -> Prop) p :
  P (EvUnlink p) -> preserves (logs_only P) (unlink p).
Proof.
  intros HP. apply unlink_preserves; [apply _|].
  intros w c _. by eapply logs_only_one.
Qed.

Lemma mkdir_stdin_kept p : preserves stdin_kept (mkdir_parents_exist_ok p).
Proof. apply (makedirs_preserves _ p); [|done]. by intros. Qed.

Lemma open_write_stdin_kept p c : preserves stdin_kept (open_write p c).
Proof. apply open_write_preserves; [apply _|]. by intros. Qed.

Lemma unlink_stdin_kept p : preserves stdin_kept (unlink p).
Proof. apply unlink_preserves; [apply _|]. by intros. Qed.

Lemma mkdir_stdout_extends p : preserves stdout_extends (mkdir_parents_exist_ok p).
Proof.
  apply (makedirs_preserves _ p); [|done].
  intros w here _ _. exists []. simpl. by rewrite app_nil_r.
Qed.

Lemma open_write_stdout_extends p c : preserves stdout_extends (open_write p c).
Proof.
  apply open_write_preserves; [apply _|].
  intros w _. exists []. simpl. by rewrite app_nil_r.
Qed.

Lemma unlink_stdout_extends p : preserves stdout_extends (unlink p).
Proof.
  apply unlink_preserves; [apply _|].
  intros w c _. exists []. simpl. by rewrite app_nil_r.
Qed.

(** ** When making directories succeeds *)

(** No component of [p] is a regular file. *)
Definition creatable (f : gmap path node) (p : path) : Prop :=
  forall q c, q `prefix_of` p -> q <> [] -> f !! q <> Some (File c).

(** Every non-empty prefix of [p] is a directory. *)
Definition dir_chain (f : gmap path node) (p : path) : Prop :=
  forall q, q `prefix_of` p -> q <> [] -> f !! q = Some Dir.

Lemma makedirs_cases todo : forall done full w,
  (exists e, (makedirs done todo full w).1 = Raise e /\
             exists t c, t `prefix_of` todo /\ t <> [] /\
                         fs w !! (done ++ t) = Some (File c)) \/
  (exists w', makedirs done todo full w = (Return tt, w') /\
              forall t, t `prefix_of` todo -> t <> [] ->
                        fs w' !! (done ++ t) = Some Dir).
Proof.
  induction todo as [|c rest IH]; intros done full w.
  - right. exists w. split; [done|].
    intros t Ht Hne. apply prefix_nil_inv in Ht. done.
  - rewrite makedirs_step.
    assert (Hkept : forall w0, dirs_kept w0
              (makedirs (done ++ [c]) rest full w0).2).
    { intros w0. apply (makedirs_preserves dirs_kept ((done ++ [c]) ++ rest));
        [|done].
      intros w1 here _ Hnone q Hq. simpl.
      destruct (decide (here = q)) as [->|Hne]; [congruence|].
      by rewrite lookup_insert_ne. }
    assert (Hfinish : forall w0, fs w0 !! (done ++ [c]) = Some Dir ->
      (forall t c0, t `prefix_of` rest ->
         fs w0 !! ((done ++ [c]) ++ t) = Some (File c0) ->
         exists t' c', t' `prefix_of` c :: rest /\ t' <> [] /\
                       fs w !! (done ++ t') = Some (File c')) ->
      (exists e, (makedirs (done ++ [c]) rest full w0).1 = Raise e /\
         exists t c0, t `prefix_of` c :: rest /\ t <> [] /\
                      fs w !! (done ++ t) = Some (File c0)) \/
      (exists w', makedirs (done ++ [c]) rest full w0 = (Return tt, w') /\
         forall t, t `prefix_of` c :: rest -> t <> [] ->
                   fs w' !! (done ++ t) = Some Dir)).
    { intros w0 Hhere Hback.
      destruct (IH (done ++ [c]) full w0) as
        [(e & He & t & c0 & Ht & _ & Hf)|(w' & Hrun & Hdirs)].
      - left. exists e. split; [done|]. by eapply Hback.
      - right. exists w'. split; [done|].
        intros t Ht Hne. destruct t as [|x t]; [done|].
        apply prefix_cons_inv_1 in Ht as Hx. subst x.
        apply prefix_cons_inv_2 in Ht.
        destruct t as [|y t].
        + specialize (Hkept w0 _ Hhere). by rewrite Hrun in Hkept.
        + replace (done ++ c :: y :: t) with ((done ++ [c]) ++ y :: t)
            by by rewrite <- app_assoc.
          by apply Hdirs. }
    destruct (fs w !! (done ++ [c])) as [[c0|]|] eqn:E.
    + left. eexists. split; [done|]. exists [c], c0. split; [|done].
      by apply prefix_cons, prefix_nil.
    + apply Hfinish; [done|].
      intros t c0 Ht Hf. exists (c :: t), c0. split; [by apply prefix_cons|].
      split; [done|]. by rewrite <- app_assoc in Hf.
    + apply Hfinish; [simpl; by rewrite lookup_insert_eq|].
      intros t c0 Ht Hf. exists (c :: t), c0. split; [by apply prefix_cons|].
      split; [done|]. simpl in Hf. rewrite <- app_assoc in Hf. simpl in Hf.
      destruct (decide (done ++ [c] = done ++ c :: t)) as [Heq|Hne].
      * rewrite <- Heq, lookup_insert_eq in Hf. done.
      * by rewrite lookup_insert_ne in Hf.
Qed.

Lemma mkdir_returns p w :
  creatable (fs w) p ->
  exists w', mkdir_parents_exist_ok p w = (Return tt, w') /\ dir_chain (fs w') p.
Proof.
  intros Hc. destruct (makedirs_cases p [] p w) as
    [(e & _ & t & c & Ht & Hne & Hf)|(w' & Hrun & Hdirs)].
  - exfalso. by eapply Hc.
  - exists w'. split; [done|]. intros q Hq Hne. by apply (Hdirs q).
Qed.

Lemma mkdir_Return_inv p w w' :
  mkdir_parents_exist_ok p w = (Return tt, w') -> dir_chain (fs w') p.
Proof.
  intros Hrun. destruct (makedirs_cases p [] p w) as
    [(e & He & _)|(w1 & Hrun1 & Hdirs)].
  - unfold mkdir_parents_exist_ok in Hrun. rewrite Hrun in He. done.
  - unfold mkdir_parents_exist_ok in Hrun. rewrite Hrun in Hrun1.
    injection Hrun1 as <-. intros q Hq Hne. by apply (Hdirs q).
Qed.

Lemma mkdir_no_exit p w c : (mkdir_parents_exist_ok p w).1 <> Exit c.
Proof.
  destruct (makedirs_cases p [] p w) as [(e & He & _)|(w1 & Hrun1 & _)].
  - unfold mkdir_parents_exist_ok. by rewrite He.
  - unfold mkdir_parents_exist_ok. by rewrite Hrun1.
Qed.

Lemma resolve_dir_chain f todo : forall pre full,
  (forall t, t `prefix_of` todo -> t <> [] -> f !! (pre ++ t) = Some Dir) ->
  resolve_dir f pre todo full = None.
Proof.
  induction todo as [|c rest IH]; intros pre full H; [done|].
  simpl. rewrite (H [c]); [|by apply prefix_cons, prefix_nil|done].
  apply IH. intros t Ht Hne. rewrite <- app_assoc. simpl.
  apply H; [by apply prefix_cons|done].
Qed.

(** Writing a file below a chain of directories, at a path that is not
    a directory, succeeds. *)
Lemma open_write_run (d : path) x c w :
  dir_chain (fs w) d -> fs w !! (d ++ [x]) <> Some Dir ->
  open_write (d ++ [x]) c w = (Return tt, after_write (d ++ [x]) c w).
Proof.
  intros Hd Hp. unfold open_write. rewrite bind_get_fs, parent_snoc.
  rewrite resolve_dir_chain; [|intros t Ht Hne; by apply Hd].
  destruct (fs w !! (d ++ [x])) as [[?|]|]; done.
Qed.

Lemma open_write_Return_inv p c w w' :
  open_write p c w = (Return tt, w') -> w' = after_write p c w.
Proof.
  intros H. destruct (open_write_cases p c w) as [[e He]|[_ Hr]]; congruence.
Qed.

(** ** Availability of a directory *)

(** The directory [p] has at least one entry. *)
Definition has_entry (f : gmap path node) (p : path) : Prop :=
  exists x, is_Some (f !! (p ++ [x])).

(** [p] exists and contains at least one entry. *)
Definition available (f : gmap path node) (p : path) : Prop :=
  is_Some (f !! p) /\ has_entry f p.

Lemma elem_of_children f p q :
  q ∈ children f p <-> is_Some (f !! q) /\ parent q = Some p.
Proof.
  unfold children, entries. rewrite list_elem_of_filter, list_elem_of_fmap.
  split.
  - intros [Hp ([q' n] & -> & Hin)]. apply elem_of_map_to_list in Hin.
    simpl in *. eauto.
  - intros [[n Hn] Hp]. split; [done|]. exists (q, n). split; [done|].
    by apply elem_of_map_to_list.
Qed.

Lemma has_entry_children f p : has_entry f p <-> children f p <> [].
Proof.
  split.
  - intros [x Hx] Hnil.
    assert (Hin : p ++ [x] ∈ children f p).
    { apply elem_of_children. split; [done|apply parent_snoc]. }
    rewrite Hnil in Hin. by apply not_elem_of_nil in Hin.
  - intros Hne. destruct (children f p) as [|q l] eqn:E; [done|].
    assert (Hin : q ∈ children f p) by (rewrite E; left).
    apply elem_of_children in Hin as [Hq Hp].
    apply parent_Some in Hp as [x ->]. by exists x.
Qed.

Lemma no_entry_children f (p : path) :
  children f p = [] -> forall x, f !! (p ++ [x]) = None.
Proof.
  intros Hc x. destruct (f !! (p ++ [x])) as [n|] eqn:E; [|done].
  exfalso. apply (proj1 (has_entry_children f p)); [|done]. exists x. eauto.
Qed.

#[global] Instance has_entry_dec f p : Decision (has_entry f p).
Proof.
  refine (cast_if (decide (children f p <> []))); by rewrite has_entry_children.
Defined.

#[global] Instance available_dec f p : Decision (available f p).
Proof. unfold available. apply _. Defined.

Lemma exists_and_nonempty_cases p w :
  (exists c, fs w !! p = Some (File c) /\
             exists e, exists_and_nonempty p w = (Raise e, w)) \/
  ((forall c, fs w !! p <> Some (File c)) /\
   exists_and_nonempty p w = (Return (bool_decide (available (fs w) p)), w)).
Proof.
  unfold exists_and_nonempty. rewrite (bind_run _ _ _ _ _ (path_exists_run p w)).
  destruct (fs w !! p) as [[c|]|] eqn:E.
  - left. exists c. split; [done|].
    rewrite bool_decide_eq_true_2 by eauto.
    unfold any_iterdir.
    destruct (iterdir_cases p w) as [(e & He & _)|[Hd _]]; [|congruence].
    exists e. by rewrite (bind_run_Raise _ _ _ _ _ He).
  - right. split; [done|].
    rewrite bool_decide_eq_true_2 by eauto.
    unfold any_iterdir.
    destruct (iterdir_cases p w) as [(e & _ & He)|[_ Hrun]]; [done|].
    rewrite (bind_run _ _ _ _ _ Hrun). unfold ret. f_equal. f_equal.
    destruct (children (fs w) p) as [|q l] eqn:Ec.
    + symmetry. apply bool_decide_eq_false_2. intros [_ Hh].
      apply has_entry_children in Hh. done.
    + symmetry. apply bool_decide_eq_true_2. split; [rewrite E; eauto|].
      apply has_entry_children. by rewrite Ec.
  - right. split; [done|].
    rewrite bool_decide_eq_false_2 by (intros [? ?]; done).
    unfold ret. f_equal. f_equal. symmetry. apply bool_decide_eq_false_2.
    intros [[? ?] _]. congruence.
Qed.

(** ** The verification reporter of the combined script *)

(** The world with more text on the standard output. *)
Definition with_output (out : list string) (w : world) : world :=
  {| fs := fs w; stdin := stdin w; stdout := stdout w ++ out;
     events := events w |}.

Lemma with_output_nil w : with_output [] w = w.
Proof. destruct w. unfold with_output. simpl. by rewrite app_nil_r. Qed.

Lemma with_output_app o1 o2 w :
  with_output o2 (with_output o1 w) = with_output (o1 ++ o2) w.
Proof. unfold with_output. simpl. by rewrite app_assoc. Qed.

Lemma bind_print' {B} s (k : unit -> M B) w :
  bind (print s) k w = k tt (with_output [s +:+ nl] w).
Proof. reflexivity. Qed.

Lemma print_run' s w : print s w = (Return tt, with_output [s +:+ nl] w).
Proof. reflexivity. Qed.

(** Runs the prints at the head of a program. *)
Ltac run_prints :=
  repeat first [ rewrite bind_print' | rewrite bind_assoc | rewrite bind_ret
               | rewrite print_run' ].

Import DownloadDatasetsHf.

(** The listed directories that are available, their number and the
    sum of their sizes. *)
Definition available_items (f : gmap path node) (l : list (string * path))
    : list (string * path) :=
  filter (fun item => available f item.2) l.

Definition available_count (f : gmap path node) (l : list (string * path)) : Z :=
  Z.of_nat (length (available_items f l)).

Definition available_size (f : gmap path node) (l : list (string * path)) : Z :=
  foldr Z.add 0 ((fun item => tree_size f item.2) <$> available_items f l).

(** The line the reporter prints for one listed directory. *)
Definition report_line (f : gmap path node) (item : string * path) : string :=
  if decide (available f item.2)
  then ("✓ " +:+ item.1 +:+ ": " +:+
        fmt_fixed 1 (tree_size f item.2) (1024 * 1024) +:+ " MB") +:+ nl
  else ("✗ " +:+ item.1 +:+ ": Not available") +:+ nl.

(** No listed path is a regular file. *)
Definition no_regular_file (f : gmap path node) (l : list (string * path)) : Prop :=
  forall item c, item ∈ l -> f !! item.2 <> Some (File c).

Lemma available_count_cons f item l :
  available_count f (item :: l) =
  (if decide (available f item.2) then 1 else 0) + available_count f l.
Proof.
  unfold available_count, available_items. rewrite filter_cons.
  destruct (decide (available f item.2)); simpl length; lia.
Qed.

Lemma available_size_cons f item l :
  available_size f (item :: l) =
  (if decide (available f item.2) then tree_size f item.2 else 0) +
  available_size f l.
Proof.
  unfold available_size, available_items. rewrite filter_cons.
  destruct (decide (available f item.2)); [rewrite fmap_cons; cbn [foldr]|]; lia.
Qed.

Lemma available_count_bounds f l :
  0 <= available_count f l <= Z.of_nat (length l).
Proof.
  unfold available_count, available_items.
  pose proof (length_filter (fun item : string * path => available f item.2) l).
  lia.
Qed.

Lemma verification_loop_body_run total_size n item w :
  (forall c, fs w !! item.2 <> Some (File c)) ->
  verification_loop_body (total_size, n) item w =
  (Return (total_size + (if decide (available (fs w) item.2)
                         then tree_size (fs w) item.2 else 0),
           n + (if decide (available (fs w) item.2) then 1 else 0)),
   with_output [report_line (fs w) item] w).
Proof.
  intros Hnf. destruct item as [name p]. unfold verification_loop_body.
  destruct (exists_and_nonempty_cases p w) as [(c & Hc & _)|[_ Hrun]].
  { exfalso. by eapply Hnf. }
  rewrite (bind_run _ _ _ _ _ Hrun). unfold report_line. simpl.
  destruct (decide (available (fs w) p)) as [Ha|Ha].
  - rewrite bool_decide_eq_true_2 by done.
    rewrite bind_get_fs, bind_print'. reflexivity.
  - rewrite bool_decide_eq_false_2 by done.
    rewrite bind_print'. unfold ret. do 3 f_equal; lia.
Qed.

Lemma verification_loop_run l : forall total_size n w,
  no_regular_file (fs w) l ->
  for_each verification_loop_body l (total_size, n) w =
  (Return (total_size + available_size (fs w) l, n + available_count (fs w) l),
   with_output (report_line (fs w) <$> l) w).
Proof.
  induction l as [|item l IH]; intros total_size n w Hnf.
  - simpl. rewrite with_output_nil. unfold ret, available_size, available_count.
    simpl. do 3 f_equal; lia.
  - simpl for_each.
    rewrite (bind_run _ _ _ _ _ (verification_loop_body_run total_size n item w
      (fun c => Hnf item c (list_elem_of_here _ _)))).
    rewrite IH by (intros it c Hin; apply Hnf; by right).
    simpl fs. rewrite with_output_app, available_size_cons, available_count_cons.
    simpl. do 3 f_equal; lia.
Qed.

Lemma verification_loop_raises l : forall acc w item c,
  item ∈ l -> fs w !! item.2 = Some (File c) ->
  exists e w', for_each verification_loop_body l acc w = (Raise e, w').
Proof.
  induction l as [|it l IH]; intros acc w item c Hin Hc.
  - by apply not_elem_of_nil in Hin.
  - simpl for_each. destruct acc as [ts n].
    destruct (exists_and_nonempty_cases it.2 w) as
      [(c' & Hc' & e & He)|[Hnf Hrun]].
    + exists e, w. unfold bind, verification_loop_body. destruct it as [name p].
      simpl in *. unfold bind. by rewrite He.
    + rewrite (bind_run _ _ _ _ _ (verification_loop_body_run ts n it w Hnf)).
      apply elem_of_cons in Hin as [->|Hin]; [exfalso; by eapply Hnf|].
      eapply IH; [done|]. simpl. done.
Qed.

(** What the reporter prints. *)
Definition verification_report (f : gmap path node) : list string :=
  [ (nl +:+ rule) +:+ nl; "FINAL VERIFICATION" +:+ nl; rule +:+ nl ] ++
  (report_line f <$> datasets) ++
  [ rule +:+ nl;
    ("Total Available: " +:+ pretty (available_count f datasets) +:+ "/" +:+
     pretty (Z.of_nat (length datasets))) +:+ nl;
    ("Total Size: " +:+ fmt_fixed 2 (available_size f datasets) (1024 ^ 3) +:+
     " GB") +:+ nl ] ++
  (if 3 <=? available_count f datasets then
     [ (nl +:+ "✅ SUFFICIENT DATA FOR PROJECT!") +:+ nl;
       (nl +:+ "You have enough to:") +:+ nl;
       "  • Build retrieval system" +:+ nl;
       "  • Train code generation models" +:+ nl;
       "  • Demonstrate all NLP techniques" +:+ nl;
       "  • Complete the project successfully" +:+ nl ]
   else []).

Lemma final_verification_run w :
  no_regular_file (fs w) datasets ->
  final_verification w =
  (Return (3 <=? available_count (fs w) datasets),
   with_output (verification_report (fs w)) w).
Proof.
  intros Hnf. unfold final_verification.
  rewrite !bind_print'.
  lazymatch goal with
  | |- bind _ _ ?w0 = _ =>
      rewrite (bind_run _ _ _ _ _ (verification_loop_run datasets 0 0 w0 Hnf))
  end.
  simpl fs. rewrite !Z.add_0_l. rewrite !bind_print'.
  unfold verification_report.
  destruct (3 <=? available_count (fs w) datasets) eqn:E.
  - run_prints. rewrite !with_output_app. reflexivity.
  - run_prints. rewrite !with_output_app. rewrite app_nil_r. reflexivity.
Qed.

Lemma final_verification_Return_inv w b w' :
  final_verification w = (Return b, w') -> no_regular_file (fs w) datasets.
Proof.
  intros Hrun item c Hin Hc. unfold final_verification in Hrun.
  rewrite !bind_print' in Hrun.
  destruct (verification_loop_raises datasets (0, 0)
              (with_output [rule +:+ nl]
                 (with_output ["FINAL VERIFICATION" +:+ nl]
                    (with_output [(nl +:+ rule) +:+ nl] w))) item c Hin Hc)
    as (e & w1 & He).
  rewrite (bind_run_Raise _ _ _ _ _ He) in Hrun. done.
Qed.

(** ** The summary of the selector script *)

(** The line the selector prints when it judges the datasets too few. *)
Definition too_few_line (total_datasets : Z) : string :=
  (nl +:+ "⚠️  You have " +:+ pretty total_datasets +:+ " datasets") +:+ nl.

(** Finds a line in a list of printed lines. *)
Ltac find_line :=
  first [ apply list_elem_of_here
        | apply list_elem_of_further; find_line
        | apply elem_of_app; first [ left; find_line | right; find_line ] ].

(** Two texts that differ in their first characters. *)
Ltac str_discr H :=
  lazy [String.append nl DownloadDatasetsHf.rule DownloadDataset.rule str_mul
        too_few_line DownloadDataset.success_banner DownloadDataset.prompt] in H;
  congruence.

(** Refutes that a line that starts differently is in a list. *)
Ltac refute_line H :=
  lazymatch type of H with
  | _ ∈ [] => by apply elem_of_nil in H
  | _ ∈ _ :: _ =>
      apply elem_of_cons in H as [H|H]; [solve [str_discr H] | refute_line H]
  | _ ∈ _ ++ _ =>
      apply elem_of_app in H as [H|H]; [refute_line H | refute_line H]
  | _ ∈ _ <$> _ =>
      apply list_elem_of_fmap in H as (? & H & _); solve [str_discr H]
  end.

Lemma for_each_print {A} (g : A -> string) (c : A -> bool) l : forall w,
  for_each (fun (_ : unit) x => if c x then print (g x) else ret tt) l tt w =
  (Return tt,
   with_output ((fun x => g x +:+ nl) <$> filter (fun x => c x = true) l) w).
Proof.
  induction l as [|x l IH]; intros w.
  - simpl. by rewrite with_output_nil.
  - simpl for_each. rewrite filter_cons. destruct (c x) eqn:E.
    + rewrite bind_print', IH, with_output_app.
      destruct (decide (true = true)); [done|congruence].
    + rewrite bind_ret, IH. destruct (decide (false = true)); [congruence|done].
Qed.

Lemma for_each_print_all {A} (g : A -> string) l w :
  for_each (fun (_ : unit) x => print (g x)) l tt w =
  (Return tt, with_output ((fun x => g x +:+ nl) <$> l) w).
Proof.
  revert w. induction l as [|x l IH]; intros w.
  - simpl. by rewrite with_output_nil.
  - simpl for_each. by rewrite bind_print', IH, with_output_app.
Qed.

Lemma successful_count_bounds results :
  0 <= DownloadDataset.successful_count results <= Z.of_nat (length results).
Proof.
  unfold DownloadDataset.successful_count.
  induction results as [|[k b] l IH]; [simpl; lia|].
  rewrite fmap_cons. cbn [foldr snd length]. rewrite Nat2Z.inj_succ.
  destruct b; lia.
Qed.

Lemma summary_run results w :
  exists out,
    DownloadDataset.summary results w = (Return tt, with_output out w) /\
    ((DownloadDataset.success_banner +:+ nl) ∈ out <->
     3 <= 2 + DownloadDataset.successful_count results) /\
    (too_few_line (2 + DownloadDataset.successful_count results) ∈ out <->
     2 + DownloadDataset.successful_count results < 3).
Proof.
  unfold DownloadDataset.summary.
  set (n := DownloadDataset.successful_count results).
  rewrite !bind_print'.
  rewrite (bind_run _ _ _ _ _ (for_each_print_all _ _ _)).
  rewrite !bind_print'.
  rewrite (bind_run _ _ _ _ _ (for_each_print _ _ _ _)).
  rewrite !bind_print'.
  destruct (3 <=? 2 + n) eqn:E.
  - run_prints. rewrite !with_output_app. eexists. split; [reflexivity|].
    apply Z.leb_le in E.
    split.
    + split; [done|]. intros _. find_line.
    + split; [|lia]. intros Hin. exfalso.
      refute_line Hin.
  - run_prints. rewrite !with_output_app. eexists. split; [reflexivity|].
    apply Z.leb_gt in E.
    split.
    + split; [|lia]. intros Hin. exfalso.
      refute_line Hin.
    + split; [intros _; lia|]. intros _. unfold too_few_line. find_line.
Qed.

(* ================================================================== *)
(** * The claims                                                       *)
(* ================================================================== *)

(** ** C1, C2: the verification reporter *)

Definition empty_world : world := World ∅ [] [] [].



(** C2: for every listed directory the reporter counts it as available
    if and only if it exists and contains at least one entry: its line
    of the report is the "Not available" line exactly when it is not,
    the printed count is the number of listed directories that are, and
    the printed size sums the sizes of those only.  A directory that
    exists and is empty is not available. *)
Theorem C2_available_iff_exists_and_nonempty (w w' : world) (b : bool) :
  final_verification w = (Return b, w') ->
  stdout w' = stdout w ++ verification_report (fs w) /\
  (forall item, item ∈ datasets ->
     (report_line (fs w) item = ("✗ " +:+ item.1 +:+ ": Not available") +:+ nl <->
      ~ (is_Some (fs w !! item.2) /\
         exists x, is_Some (fs w !! (item.2 ++ [x])))) /\
     (item ∈ available_items (fs w) datasets <->
      is_Some (fs w !! item.2) /\
      exists x, is_Some (fs w !! (item.2 ++ [x]))) /\
     (fs w !! item.2 = Some Dir ->
      (forall x, fs w !! (item.2 ++ [x]) = None) ->
      (item ∉ available_items (fs w) datasets) /\
      report_line (fs w) item = ("✗ " +:+ item.1 +:+ ": Not available") +:+ nl)) /\
  available_count (fs w) datasets =
    Z.of_nat (length (available_items (fs w) datasets)) /\
  available_size (fs w) datasets =
    foldr Z.add 0 ((fun item => tree_size (fs w) item.2) <$>
                     available_items (fs w) datasets).
Proof.
  intros Hrun.
  pose proof (final_verification_Return_inv _ _ _ Hrun) as Hnf.
  rewrite (final_verification_run w Hnf) in Hrun.
  injection Hrun as _ <-.
  split; [reflexivity|]. split; [|split; reflexivity].
  intros item Hin.
  assert (Hline : report_line (fs w) item =
                    ("✗ " +:+ item.1 +:+ ": Not available") +:+ nl <->
                  ~ available (fs w) item.2).
  { unfold report_line. destruct (decide (available (fs w) item.2)) as [Ha|Ha].
    - split; [|done]. intros Heq. exfalso.
      lazy [String.append] in Heq. congruence.
    - split; done. }
  split; [exact Hline|]. split.
  - unfold available_items. rewrite list_elem_of_filter. unfold available, has_entry.
    split; [intros [? ?]; done|]. intros ?; split; done.
  - intros Hd Hempty.
    assert (Hna : ~ available (fs w) item.2).
    { intros [_ [x [n Hx]]]. rewrite Hempty in Hx. discriminate. }
    split; [|by apply Hline].
    unfold available_items. rewrite list_elem_of_filter. intros [? _]. done.
Qed.

Definition world_with_empty_directory : world :=
  World (<[ ["data"; "raw"; "combined"; "README.md"] := File "notes" ]>
          (<[ ["data"; "raw"; "combined"] := Dir ]>
            (<[ ["data"; "raw"; "conala"] := Dir ]>
              (<[ ["data"; "raw"] := Dir ]> (<[ ["data"] := Dir ]> ∅)))))
        [] [] [].

Lemma C2_witness :
  (final_verification world_with_empty_directory).1 = Return false /\
  (("CoNaLa", BASE_DIR ++ ["conala"]) ∉
     available_items (fs world_with_empty_directory) datasets) /\
  available_count (fs world_with_empty_directory) datasets = 1.
Proof.
  assert (Hrun : final_verification world_with_empty_directory =
                 (Return false, (final_verification world_with_empty_directory).2)).
  { vm_compute. reflexivity. }
  destruct (C2_available_iff_exists_and_nonempty _ _ _ Hrun)
    as (_ & Hitems & Hcount & _).
  split; [by rewrite Hrun|]. split.
  - apply (Hitems ("CoNaLa", BASE_DIR ++ ["conala"])).
    + vm_compute. do 2 right. left.
    + vm_compute. reflexivity.
    + apply no_entry_children. vm_compute. reflexivity.
  - rewrite Hcount. vm_compute. reflexivity.
Defined.

(** ** Programs that never exit the process, and [try]/[except] *)

Definition never_exits {A} (m : M A) : Prop :=
  forall w c, (m w).1 <> Exit c.

Lemma never_exits_ret {A} (a : A) : never_exits (ret a).
Proof. by intros w c. Qed.

Lemma never_exits_raise {A} e : never_exits (@raise A e).
Proof. by intros w c. Qed.

Lemma never_exits_print s : never_exits (print s).
Proof. by intros w c. Qed.

Lemma never_exits_get_fs : never_exits get_fs.
Proof. by intros w c. Qed.

Lemma never_exits_bind {A B} (m : M A) (k : A -> M B) :
  never_exits m -> (forall a, never_exits (k a)) -> never_exits (bind m k).
Proof.
  intros Hm Hk w c. specialize (Hm w). unfold bind.
  destruct (m w) as [[a|e|c'] w1]; simpl in *; [apply Hk|done|].
  by destruct (Hm c').
Qed.

Lemma never_exits_try_except {A} (m : M A) (h : exn -> M A) :
  never_exits m -> (forall e, never_exits (h e)) -> never_exits (try_except m h).
Proof.
  intros Hm Hh w c. specialize (Hm w). unfold try_except.
  destruct (m w) as [[a|e|c'] w1]; simpl in *; [done|apply Hh|].
  by destruct (Hm c').
Qed.

Lemma never_exits_for_each {A S} (body : S -> A -> M S) l s :
  (forall s x, never_exits (body s x)) -> never_exits (for_each body l s).
Proof.
  intros Hb. revert s. induction l as [|x l IH]; intros s; simpl.
  - apply never_exits_ret.
  - apply never_exits_bind; [apply Hb | intros; apply IH].
Qed.

Lemma never_exits_mkdir p : never_exits (mkdir_parents_exist_ok p).
Proof. intros w c. apply mkdir_no_exit. Qed.

Lemma never_exits_open_write p s : never_exits (open_write p s).
Proof.
  intros w c. by destruct (open_write_cases p s w) as [[e ->]|[_ ->]].
Qed.

Lemma never_exits_unlink p : never_exits (unlink p).
Proof.
  intros w c. by destruct (unlink_cases p w) as [[e ->]|(? & _ & ->)].
Qed.

Lemma never_exits_read_file p : never_exits (read_file p).
Proof.
  intros w c. by destruct (read_file_cases p w) as [[e ->]|(? & _ & ->)].
Qed.

Lemma never_exits_path_exists p : never_exits (path_exists p).
Proof. by intros w c. Qed.

Lemma never_exits_exists_and_nonempty p : never_exits (exists_and_nonempty p).
Proof.
  intros w c.
  by destruct (exists_and_nonempty_cases p w) as [(? & _ & e & ->)|[_ ->]].
Qed.

Ltac nex_step :=
  lazymatch goal with
  | |- never_exits (bind _ _) => refine (never_exits_bind _ _ _ _); [|intros]
  | |- never_exits (ret _) => exact (never_exits_ret _)
  | |- never_exits (raise _) => exact (never_exits_raise _)
  | |- never_exits (print _) => exact (never_exits_print _)
  | |- never_exits get_fs => exact never_exits_get_fs
  | |- never_exits (try_except _ _) =>
      refine (never_exits_try_except _ _ _ _); [|intros]
  | |- never_exits (for_each _ _ _) =>
      refine (never_exits_for_each _ _ _ _); intros
  | |- never_exits (mkdir_parents_exist_ok _) => exact (never_exits_mkdir _)
  | |- never_exits (open_write _ _) => exact (never_exits_open_write _ _)
  | |- never_exits (unlink _) => exact (never_exits_unlink _)
  | |- never_exits (read_file _) => exact (never_exits_read_file _)
  | |- never_exits (path_exists _) => exact (never_exits_path_exists _)
  | |- never_exits (exists_and_nonempty _) =>
      exact (never_exits_exists_and_nonempty _)
  | |- never_exits (if ?b then _ else _) => destruct b
  | |- never_exits (match ?x with _ => _ end) => destruct x
  end.

Ltac nex := repeat first [ assumption | solve [auto 2] | nex_step ].

Lemma try_bind_run {A B} (m : M A) (k : A -> M B) h w a w1 :
  m w = (Return a, w1) -> try_except (bind m k) h w = try_except (k a) h w1.
Proof. intros H. unfold try_except, bind. by rewrite H. Qed.

Lemma try_bind_Raise {A B} (m : M A) (k : A -> M B) h w e w1 :
  m w = (Raise e, w1) -> try_except (bind m k) h w = h e w1.
Proof. intros H. unfold try_except, bind. by rewrite H. Qed.

Lemma try_bind_print {B} s (k : unit -> M B) h w :
  try_except (bind (print s) k) h w =
  try_except (k tt) h (with_output [s +:+ nl] w).
Proof. reflexivity. Qed.

(** A [try] whose handler prints a message and returns [False]. *)
Lemma try_except_false_cases (m : M bool) (msg : exn -> string) w :
  never_exits m ->
  (exists b w', m w = (Return b, w') /\
     try_except m (fun e => print (msg e) ;; ret false) w = (Return b, w')) \/
  (exists e w1, m w = (Raise e, w1) /\
     try_except m (fun e => print (msg e) ;; ret false) w =
       (Return false, with_output [msg e +:+ nl] w1)).
Proof.
  intros Hm. specialize (Hm w). unfold try_except.
  destruct (m w) as [[a|e|c] w1]; simpl in *.
  - left. eauto.
  - right. exists e, w1. split; [done|]. by rewrite bind_print'.
  - by destruct (Hm c).
Qed.

(** ** The acquisition routines of the selector script *)

Definition is_request (ev : event) : Prop :=
  match ev with
  | EvRequest _ => True
  | _ => False
  end.

Definition after_request (r : request) (w : world) : world :=
  {| fs := fs w; stdin := stdin w; stdout := stdout w;
     events := events w ++ [EvRequest r] |}.

Section SelectorRoutines.
Import DownloadDataset.
Context (hub : nat -> request -> hub_outcome).
Context (native_format : dataset -> list (string * string)).

Lemma load_dataset_run name cfg split w :
  load_dataset hub name cfg split w =
  (match hub (length (events w)) (HubLoad name cfg split) with
   | HubError e => Raise e
   | HubData d => Return d
   end, after_request (HubLoad name cfg split) w).
Proof.
  unfold load_dataset, bind, log.
  by destruct (hub (length (events w)) (HubLoad name cfg split)).
Qed.

Lemma save_to_disk_dirs_kept d p :
  preserves dirs_kept (save_to_disk native_format d p).
Proof.
  unfold save_to_disk. pres; [apply mkdir_dirs_kept|apply open_write_dirs_kept].
Qed.

Lemma save_to_disk_logs d p :
  preserves (logs_only (fun ev => ~ is_request ev)) (save_to_disk native_format d p).
Proof.
  unfold save_to_disk. pres; [apply mkdir_logs|apply open_write_logs];
    simpl; tauto.
Qed.

Lemma never_exits_save_to_disk d p : never_exits (save_to_disk native_format d p).
Proof. unfold save_to_disk. nex. Qed.

(** The handler of the three routines. *)
Definition failed (e : exn) : M bool :=
  print ("✗ Failed: " +:+ exn_str e) ;; ret false.

(** Whenever [m] returns, it returns [v]. *)
Definition returns_only {A} (v : A) (m : M A) : Prop :=
  forall w a w', m w = (Return a, w') -> a = v.

Lemma returns_only_ret {A} (v : A) : returns_only v (ret v).
Proof. intros w a w' [= <- _]. done. Qed.

Lemma returns_only_raise {A} (v : A) e : returns_only v (raise e).
Proof. intros w a w' [=]. Qed.

Lemma returns_only_bind {A B} (v : B) (m : M A) (k : A -> M B) :
  (forall a, returns_only v (k a)) -> returns_only v (bind m k).
Proof.
  intros Hk w b w' Hrun. apply bind_Return_inv in Hrun as (a & w1 & _ & Hrun).
  by eapply Hk.
Qed.

Ltac ronly :=
  repeat lazymatch goal with
         | |- returns_only _ (bind _ _) => apply returns_only_bind; intros
         | |- returns_only _ (ret _) => apply returns_only_ret
         | |- returns_only _ (raise _) => apply returns_only_raise
         | |- returns_only _ (if ?b then _ else _) => destruct b
         | |- returns_only _ (match ?x with _ => _ end) => destruct x
         end.

(** A routine that loads a dataset from the hub inside a [try] and
    then runs [k] on it. *)
Lemma hub_routine_spec name cfg split (k : dataset -> M bool) w :
  (forall d, never_exits (k d)) ->
  (forall d, returns_only true (k d)) ->
  (forall d, preserves (logs_only (fun ev => ~ is_request ev)) (k d)) ->
  exists b w',
    try_except
      (print "Loading dataset..." ;;
       dataset <- load_dataset hub name cfg split ;;
       k dataset) failed w = (Return b, w') /\
    (exists evs, events w' = events w ++ EvRequest (HubLoad name cfg split) :: evs /\
                 Forall (fun ev => ~ is_request ev) evs) /\
    (b = false ->
     exists e out, stdout w' = out ++ [("✗ Failed: " +:+ exn_str e) +:+ nl]) /\
    (forall e, hub (length (events w)) (HubLoad name cfg split) = HubError e ->
               b = false /\ fs w' = fs w) /\
    (forall d, hub (length (events w)) (HubLoad name cfg split) = HubData d ->
       exists w1, fs w1 = fs w /\ try_except (k d) failed w1 = (Return b, w')) /\
    (b = true -> exists d w1, fs w1 = fs w /\ k d w1 = (Return true, w')).
Proof.
  intros Hnex Htrue Hlog.
  rewrite try_bind_print.
  set (w0 := with_output ["Loading dataset..." +:+ nl] w).
  pose proof (load_dataset_run name cfg split w0) as Hload.
  change (events w0) with (events w) in Hload.
  set (w1 := after_request (HubLoad name cfg split) w0) in *.
  destruct (hub (length (events w)) (HubLoad name cfg split)) as [e|d] eqn:Hhub.
  - rewrite (try_bind_Raise _ _ _ _ _ _ Hload). unfold failed. run_prints.
    eexists _, _. split; [reflexivity|]. split_and!.
    + exists []. split; [done|constructor].
    + intros _. exists e. simpl. eexists. reflexivity.
    + done.
    + discriminate.
    + discriminate.
  - rewrite (try_bind_run _ _ _ _ _ _ Hload).
    pose proof (Hlog d w1) as (evs & Hevs & Hall).
    destruct (try_except_false_cases (k d) (fun e => "✗ Failed: " +:+ exn_str e)
                w1 (Hnex d)) as [(b & w' & Hk & Htry)|(e & w2 & Hk & Htry)].
    + exists b, w'. unfold failed. rewrite Htry. rewrite Hk in Hevs. simpl in Hevs.
      pose proof (Htrue d _ _ _ Hk) as ->.
      split; [done|]. split_and!.
      * exists evs. split; [|done]. rewrite Hevs. by rewrite <- app_assoc.
      * discriminate.
      * discriminate.
      * intros d' [= <-]. exists w1. split; [done|]. exact Htry.
      * intros _. exists d, w1. done.
    + exists false, (with_output [("✗ Failed: " +:+ exn_str e) +:+ nl] w2).
      unfold failed. rewrite Htry. rewrite Hk in Hevs. simpl in Hevs.
      split; [done|]. split_and!.
      * exists evs. split; [|done]. simpl. rewrite Hevs. by rewrite <- app_assoc.
      * intros _. exists e, (stdout w2). reflexivity.
      * discriminate.
      * intros d' [= <-]. exists w1. split; [done|]. exact Htry.
      * discriminate.
Qed.

(** What every acquisition routine of the selector script does: it
    returns a flag; its first effect is its one request to the hub;
    a flag [False] comes with the failure message; when the hub call
    fails nothing is written; its directory exists once the hub call
    has succeeded and the path can be created, and whenever the flag
    is [True]. *)
Definition routine_spec (routine : M bool) (req : request) (save_path : path)
    : Prop :=
  forall w, exists b w',
    routine w = (Return b, w') /\
    (exists evs, events w' = events w ++ EvRequest req :: evs /\
                 Forall (fun ev => ~ is_request ev) evs) /\
    (b = false ->
     exists e out, stdout w' = out ++ [("✗ Failed: " +:+ exn_str e) +:+ nl]) /\
    (forall e, hub (length (events w)) req = HubError e ->
               b = false /\ fs w' = fs w) /\
    (forall d, hub (length (events w)) req = HubData d ->
               creatable (fs w) save_path -> fs w' !! save_path = Some Dir) /\
    (b = true -> fs w' !! save_path = Some Dir).

Lemma dir_chain_self f (p : path) : p <> [] -> dir_chain f p -> f !! p = Some Dir.
Proof. intros Hne Hc. by apply Hc. Qed.

Lemma hub_save_routine_spec (h1 h2 h3 : string) name cfg split
    (loaded : dataset -> string) (p : path) (rest : dataset -> M bool) :
  p <> [] ->
  (forall d, never_exits (rest d)) ->
  (forall d, returns_only true (rest d)) ->
  (forall d, preserves (logs_only (fun ev => ~ is_request ev)) (rest d)) ->
  (forall d, preserves dirs_kept (rest d)) ->
  routine_spec
    (print h1 ;; print h2 ;; print h3 ;;
     try_except
       (print "Loading dataset..." ;;
        dataset <- load_dataset hub name cfg split ;;
        print (loaded dataset) ;;
        mkdir_parents_exist_ok p ;;
        rest dataset)
       (fun e => print ("✗ Failed: " +:+ exn_str e) ;; ret false))
    (HubLoad name cfg split) p.
Proof.
  intros Hp Hnex Htrue Hlog Hdirs w. rewrite !bind_print'.
  set (w0 := with_output [h3 +:+ nl] _).
  destruct (hub_routine_spec name cfg split
              (fun d => print (loaded d) ;; mkdir_parents_exist_ok p ;; rest d) w0)
    as (b & w' & Hrun & Hev & Hmsg & Herr & Hdata & Hok).
  { intros d. nex. }
  { intros d. ronly. by eapply Htrue. }
  { intros d. pres. apply mkdir_logs. simpl. tauto. }
  exists b, w'. split; [exact Hrun|]. split; [exact Hev|]. split; [exact Hmsg|].
  split; [exact Herr|]. split.
  - intros d Hd Hcreate. destruct (Hdata d Hd) as (w1 & Hfs & Htry).
    rewrite try_bind_print in Htry.
    destruct (mkdir_returns p (with_output [loaded d +:+ nl] w1)) as (w2 & Hmk & Hchain).
    { simpl. rewrite Hfs. exact Hcreate. }
    rewrite (try_bind_run _ _ _ _ _ _ Hmk) in Htry.
    assert (Hkept : dirs_kept w2 w').
    { pose proof (preserves_try_except dirs_kept (rest d) failed (Hdirs d)) as Hp'.
      specialize (Hp' (fun e => ltac:(unfold failed; pres)) w2).
      by rewrite Htry in Hp'. }
    apply Hkept. by apply dir_chain_self.
  - intros Hb. destruct (Hok Hb) as (d & w1 & Hfs & Hk).
    rewrite bind_print' in Hk.
    apply bind_Return_inv in Hk as ([] & w2 & Hmk & Hrest).
    apply mkdir_Return_inv in Hmk.
    pose proof (Hdirs d w2) as Hkept. rewrite Hrest in Hkept.
    apply Hkept. by apply dir_chain_self.
Qed.

Ltac selector_routine :=
  unfold first_example, slice_100;
  lazymatch goal with
  | |- never_exits _ => nex; apply never_exits_save_to_disk
  | |- returns_only _ _ => ronly
  | |- preserves (logs_only _) _ => pres; apply save_to_disk_logs
  | |- preserves dirs_kept _ => pres; apply save_to_disk_dirs_kept
  end.

Lemma download_code_alpaca_spec :
  routine_spec (download_code_alpaca hub native_format)
    (HubLoad "sahil2801/CodeAlpaca-20k" None "train")
    ["data"; "raw"; "code_alpaca"].
Proof.
  apply hub_save_routine_spec; [done|..]; intros d; selector_routine.
Qed.

Lemma download_python_instructions_spec :
  routine_spec (download_python_instructions hub native_format)
    (HubLoad "Iamtarun/python_code_instructions_18k_alpaca" None "train")
    ["data"; "raw"; "python_instructions"].
Proof.
  apply hub_save_routine_spec; [done|..]; intros d; selector_routine.
Qed.

Lemma download_mbpp_spec :
  routine_spec (download_mbpp hub native_format)
    (HubLoad "mbpp" (Some "sanitized") "train")
    ["data"; "raw"; "mbpp"].
Proof.
  apply hub_save_routine_spec; [done|..]; intros d; selector_routine.
Qed.

End SelectorRoutines.

(** ** The menu of the selector script *)

Section SelectorScript.
Import DownloadDataset.
Context (hub : nat -> request -> hub_outcome).
Context (native_format : dataset -> list (string * string)).

Lemma dispatch_invalid choice w :
  choice ∉ ["1"; "2"; "3"; "4"] ->
  dispatch hub native_format choice w =
  (Exit 1, with_output ["Invalid choice" +:+ nl] w).
Proof.
  intros Hc. unfold dispatch.
  rewrite !elem_of_cons, elem_of_nil in Hc.
  destruct (String.eqb_spec choice "1"); [tauto|].
  destruct (String.eqb_spec choice "2"); [tauto|].
  destruct (String.eqb_spec choice "3"); [tauto|].
  destruct (String.eqb_spec choice "4"); [tauto|].
  by rewrite bind_print'.
Qed.

Lemma input_run p w line rest :
  stdin w = line :: rest ->
  input p w =
  (Return line, {| fs := fs w; stdin := rest; stdout := stdout w ++ [p];
                   events := events w |}).
Proof. intros H. unfold input, bind, write_stdout. simpl. by rewrite H. Qed.

(** What the script prints before it asks. *)
Definition menu_text (v : string) : list string :=
  stdout ((header (Some v) ;; menu) empty_world).2.

Lemma header_menu_run v w :
  (header (Some v) ;; menu) w = (Return tt, with_output (menu_text v) w).
Proof.
  unfold header, menu, menu_text. run_prints.
  rewrite !with_output_app. reflexivity.
Qed.

Lemma prompt_not_in_menu v : prompt ∉ menu_text v.
Proof.
  unfold menu_text, header, menu. run_prints. rewrite !with_output_app.
  simpl. intros Hin. refute_line Hin.
Qed.

End SelectorScript.

(** ** C9, C10: the menu of the selector script *)

Definition hub_down : nat -> request -> DownloadDataset.hub_outcome :=
  fun _ _ => DownloadDataset.HubError (PyExn "ConnectionError" "network is unreachable").

Definition two_files : DownloadDataset.dataset -> list (string * string) :=
  fun _ => [("data-00000-of-00001.arrow", "ARROW1"); ("state.json", "{}")].



(** C10: a trimmed input other than 1, 2, 3 or 4 makes the selector
    script print "Invalid choice" and exit with code 1; nothing is
    created (the file system and the log of effects are unchanged), and
    the prompt is written once: one line is read and none after it. *)
Theorem C10_invalid_choice_exits
    (hub : nat -> request -> DownloadDataset.hub_outcome)
    (native_format : DownloadDataset.dataset -> list (string * string))
    (v : string) (w : world) (line : string) (rest : list string) :
  stdin w = line :: rest ->
  strip line ∉ ["1"; "2"; "3"; "4"] ->
  exists w' out,
    DownloadDataset.script hub native_format (Some v) w = (Exit 1, w') /\
    1 <> 0 /\
    fs w' = fs w /\
    events w' = events w /\
    stdin w' = rest /\
    stdout w' = stdout w ++ out ++ [DownloadDataset.prompt; "Invalid choice" +:+ nl] /\
    (DownloadDataset.prompt ∉ out) /\
    DownloadDataset.dispatch hub native_format (strip line) w =
      (Exit 1, with_output ["Invalid choice" +:+ nl] w).
Proof.
  intros Hin Hc. unfold DownloadDataset.script.
  rewrite <- bind_assoc.
  rewrite (bind_run _ _ _ _ _ (header_menu_run v w)).
  rewrite (bind_run _ _ _ _ _
             (input_run DownloadDataset.prompt (with_output (menu_text v) w)
                line rest Hin)).
  cbv zeta. unfold bind at 1. rewrite dispatch_invalid by done.
  eexists _, (menu_text v). split; [reflexivity|].
  split; [done|]. split; [done|]. split; [done|]. split; [done|].
  split; [unfold with_output; cbn [stdout]; by rewrite <- !app_assoc|].
  split; [apply prompt_not_in_menu|]. by apply dispatch_invalid.
Qed.

Lemma C10_witness :
  exists w',
    DownloadDataset.script hub_down two_files (Some "2.19.0")
      (World ∅ ["9"] [] []) = (Exit 1, w') /\
    fs w' = ∅ /\ events w' = [] /\ stdin w' = [].
Proof.
  assert (H9 : strip "9" ∉ ["1"; "2"; "3"; "4"]).
  { vm_compute. intros Hin.
    repeat (apply elem_of_cons in Hin as [Hin|Hin]; [discriminate|]).
    by apply elem_of_nil in Hin. }
  destruct (C10_invalid_choice_exits hub_down two_files "2.19.0"
              (World ∅ ["9"] [] []) "9" [] eq_refl H9)
    as (w' & out & Hrun & _ & Hfs & Hev & Hin & _).
  exists w'. split; [exact Hrun|]. split; [exact Hfs|]. split; [exact Hev|exact Hin].
Defined.

(** ** The download helper of the combined script *)

Ltac solve_prefix :=
  first [ reflexivity | apply prefix_app_r; solve_prefix | by eexists ].

Create HintDb pres discriminated.
#[global] Hint Resolve mkdir_dirs_kept open_write_dirs_kept unlink_dirs_kept
  mkdir_grows open_write_grows mkdir_touches open_write_touches unlink_touches
  mkdir_logs open_write_logs unlink_logs mkdir_stdout_extends
  open_write_stdout_extends unlink_stdout_extends : pres.
#[global] Hint Extern 1 (_ `prefix_of` _) => solve_prefix : pres.
#[global] Hint Extern 1 (~ is_request _) => (simpl; tauto) : pres.

(** The outcome of a request counts as a failure of the download. *)
Definition http_fails (o : http_outcome) : Prop :=
  match o with
  | HttpError _ => True
  | HttpBody _ (Some _) => True
  | HttpBody _ None => False
  end.

Definition error_line (e : exn) : string := ("✗ Error: " +:+ exn_str e) +:+ nl.

Section CombinedDownload.
Context (http : nat -> string -> http_outcome).

Lemma requests_get_run url w :
  requests_get http url w =
  (Return (http (length (events w)) url), after_request (HttpGet url) w).
Proof. reflexivity. Qed.

Lemma requests_get_preserves (R : world -> world -> Prop) url :
  (forall w, R w (after_request (HttpGet url) w)) ->
  preserves R (requests_get http url).
Proof. intros H w. rewrite requests_get_run. apply H. Qed.

Lemma never_exits_download url dest :
  never_exits (download_file_with_progress http url dest).
Proof.
  unfold download_file_with_progress. nex.
  intros w c. rewrite requests_get_run. discriminate.
Qed.

Lemma download_preserves (R : world -> world -> Prop) `{!WorldRel R} url dest :
  (forall w, R w (after_request (HttpGet url) w)) ->
  preserves R (open_write dest (String.concat "" [])) ->
  (forall c, preserves R (open_write dest c)) ->
  preserves R (download_file_with_progress http url dest).
Proof.
  intros Hreq _ Hwrite. unfold download_file_with_progress.
  pres.
Qed.

Lemma download_dirs_kept url dest :
  preserves dirs_kept (download_file_with_progress http url dest).
Proof.
  apply download_preserves; [apply _|by intros w q|auto with pres..].
Qed.

Lemma download_grows url dest :
  preserves grows (download_file_with_progress http url dest).
Proof.
  apply download_preserves; [apply _|by intros w q|auto with pres..].
Qed.

Lemma download_touches_in (S : path -> Prop) url dest :
  S dest ->
  preserves (touches_only S) (download_file_with_progress http url dest).
Proof.
  intros Hd. apply download_preserves; [apply _|by intros w q|..];
    intros; by apply open_write_touches_in.
Qed.

Lemma download_touches d url dest :
  d `prefix_of` dest ->
  preserves (touches_only (comparable d)) (download_file_with_progress http url dest).
Proof. intros Hd. apply download_touches_in. by right. Qed.

Lemma download_logs (P : event -> Prop) url dest :
  P (EvRequest (HttpGet url)) -> P (EvWrite dest) ->
  preserves (logs_only P) (download_file_with_progress http url dest).
Proof.
  intros Hr Hw. apply download_preserves; [apply _| |auto with pres..].
  intros w. eapply logs_only_one; [exact Hr|reflexivity].
Qed.

Lemma download_stdout_extends url dest :
  preserves stdout_extends (download_file_with_progress http url dest).
Proof.
  apply download_preserves; [apply _| |auto with pres..].
  intros w. exists []. simpl. by rewrite app_nil_r.
Qed.

(** The helper always returns a flag; [False] comes with a printed
    message; a failing request gives [False]. *)
Lemma download_returns url dest w :
  exists b w',
    download_file_with_progress http url dest w = (Return b, w') /\
    (b = false -> exists e out, stdout w' = out ++ [error_line e]) /\
    (http_fails (http (length (events w)) url) -> b = false).
Proof.
  unfold download_file_with_progress.
  rewrite (try_bind_run _ _ _ _ _ _ (requests_get_run url w)).
  set (w1 := after_request (HttpGet url) w).
  destruct (http (length (events w)) url) as [e|chunks broken].
  - unfold try_except, raise. rewrite bind_print'.
    eexists _, _. split; [reflexivity|]. split; [|done].
    intros _. exists e. eexists. reflexivity.
  - destruct (open_write_cases dest (String.concat "" chunks) w1)
      as [[e He]|[_ Hw]].
    + rewrite (try_bind_Raise _ _ _ _ _ _ He). rewrite bind_print'.
      eexists _, _. split; [reflexivity|]. split; [|done].
      intros _. exists e. eexists. reflexivity.
    + rewrite (try_bind_run _ _ _ _ _ _ Hw).
      destruct broken as [e|].
      * unfold try_except, raise. rewrite bind_print'.
        eexists _, _. split; [reflexivity|]. split; [|done].
        intros _. exists e. eexists. reflexivity.
      * unfold try_except, ret. eexists _, _. split; [reflexivity|].
        split; [discriminate|]. simpl. tauto.
Qed.

(** *** The loop over the CoNaLa files *)

(** The effects one iteration may log for its file. *)
Definition conala_events (output_dir : path) (item : string * string)
    (ev : event) : Prop :=
  ev = EvRequest (HttpGet item.2) \/
  ev = EvRequest (HttpGet (alt_base +:+ item.1)) \/
  ev = EvWrite (output_dir ++ [item.1]).

Lemma conala_body_present output_dir success filename url w :
  is_Some (fs w !! (output_dir ++ [filename])) ->
  conala_loop_body http output_dir success (filename, url) w =
  (Return (success + 1),
   with_output [("✓ Already exists: " +:+ filename) +:+ nl] w).
Proof.
  intros Hp. unfold conala_loop_body.
  rewrite (bind_run _ _ _ _ _ (path_exists_run _ w)).
  rewrite bool_decide_eq_true_2 by done. by rewrite bind_print'.
Qed.

Lemma conala_body_returns output_dir success item w :
  exists s' w',
    conala_loop_body http output_dir success item w = (Return s', w') /\
    success <= s' <= success + 1 /\
    ((forall n u, http_fails (http n u)) ->
     fs w !! (output_dir ++ [item.1]) = None -> s' = success).
Proof.
  destruct item as [filename url].
  destruct (fs w !! (output_dir ++ [filename])) as [n|] eqn:E.
  - rewrite conala_body_present by (rewrite E; eauto).
    eexists _, _. split; [reflexivity|]. split; [lia|]. intros _. simpl.
    rewrite E. discriminate.
  - unfold conala_loop_body.
    rewrite (bind_run _ _ _ _ _ (path_exists_run _ w)).
    rewrite bool_decide_eq_false_2 by (rewrite E; by intros [? ?]).
    rewrite bind_print'.
    match goal with
    | |- context [bind (download_file_with_progress http url ?d) _ ?w0] =>
        destruct (download_returns url d w0) as (b1 & w1 & Hd1 & _ & Hf1)
    end.
    rewrite (bind_run _ _ _ _ _ Hd1). destruct b1.
    + eexists _, _. split; [reflexivity|]. split; [lia|].
      intros Hfail _. specialize (Hf1 (Hfail _ _)). discriminate.
    + rewrite bind_print'.
      match goal with
      | |- context [bind (download_file_with_progress http ?u ?d) _ ?w0] =>
          destruct (download_returns u d w0) as (b2 & w2 & Hd2 & _ & Hf2)
      end.
      rewrite (bind_run _ _ _ _ _ Hd2). destruct b2.
      * eexists _, _. split; [reflexivity|]. split; [lia|].
        intros Hfail _. specialize (Hf2 (Hfail _ _)). discriminate.
      * rewrite bind_print'. eexists _, _. split; [reflexivity|].
        split; [lia|]. done.
Qed.

Lemma conala_body_preserves (R : world -> world -> Prop) `{!WorldRel R}
    output_dir success item :
  preserves R (download_file_with_progress http item.2 (output_dir ++ [item.1])) ->
  preserves R (download_file_with_progress http (alt_base +:+ item.1)
                 (output_dir ++ [item.1])) ->
  preserves R (conala_loop_body http output_dir success item).
Proof.
  intros Hd Ha. destruct item as [filename url]. unfold conala_loop_body.
  pres.
Qed.

Lemma conala_body_grows output_dir success item :
  preserves grows (conala_loop_body http output_dir success item).
Proof.
  apply conala_body_preserves; [apply _|..]; apply download_grows.
Qed.

Lemma conala_body_dirs_kept output_dir success item :
  preserves dirs_kept (conala_loop_body http output_dir success item).
Proof.
  apply conala_body_preserves; [apply _|..]; apply download_dirs_kept.
Qed.

Lemma conala_body_touches_in (S : path -> Prop) output_dir success item :
  S (output_dir ++ [item.1]) ->
  preserves (touches_only S) (conala_loop_body http output_dir success item).
Proof.
  intros HS. apply conala_body_preserves; [apply _|..];
    by apply download_touches_in.
Qed.

Lemma conala_body_stdout_extends output_dir success item :
  preserves stdout_extends (conala_loop_body http output_dir success item).
Proof.
  apply conala_body_preserves; [apply _|..]; apply download_stdout_extends.
Qed.

Lemma never_exits_conala_body output_dir success item :
  never_exits (conala_loop_body http output_dir success item).
Proof.
  destruct item as [filename url]. unfold conala_loop_body.
  nex; apply never_exits_download.
Qed.

Lemma conala_body_logs output_dir success item :
  preserves (logs_only (conala_events output_dir item))
    (conala_loop_body http output_dir success item).
Proof.
  apply conala_body_preserves; [apply _|..]; apply download_logs;
    unfold conala_events; tauto.
Qed.

Lemma touches_only_weaken (S S' : path -> Prop) w w' :
  (forall q, S q -> S' q) -> touches_only S w w' -> touches_only S' w w'.
Proof. intros HS H q Hq. apply H. intros HSq. apply Hq, HS, HSq. Qed.

(** The loop: every logged effect belongs to a file that was absent
    when the loop started, and every file that was present is counted. *)
Lemma conala_loop_events d l : forall s w,
  exists s' w' evs,
    for_each (conala_loop_body http d) l s w = (Return s', w') /\
    events w' = events w ++ evs /\
    (forall ev, ev ∈ evs ->
       exists item, item ∈ l /\ fs w !! (d ++ [item.1]) = None /\
                    conala_events d item ev) /\
    s <= s' /\
    (forall item, item ∈ l -> is_Some (fs w !! (d ++ [item.1])) -> s < s') /\
    grows w w'.
Proof.
  induction l as [|item l IH]; intros s w.
  - exists s, w, []. split; [done|]. split; [by rewrite app_nil_r|].
    split; [intros ev Hev; by apply elem_of_nil in Hev|]. split; [lia|].
    split; [intros item Hin; by apply elem_of_nil in Hin|]. by intros q.
  - simpl for_each.
    destruct (conala_body_returns d s item w) as (s1 & w1 & Hb & Hs1 & _).
    rewrite (bind_run _ _ _ _ _ Hb).
    destruct (IH s1 w1) as (s' & w' & evs2 & Hrun & Hev2 & Hfrom & Hle & Hcount & Hg2).
    pose proof (conala_body_grows d s item w) as Hg1. rewrite Hb in Hg1. simpl in Hg1.
    pose proof (conala_body_logs d s item w) as (evs1 & Hev1 & Hall1).
    rewrite Hb in Hev1. simpl in Hev1.
    assert (Habs : forall q, fs w1 !! q = None -> fs w !! q = None).
    { intros q Hq. destruct (fs w !! q) eqn:E; [|done].
      destruct (Hg1 q) as [n' Hn]; [eauto|]. congruence. }
    destruct (fs w !! (d ++ [item.1])) as [n|] eqn:Ehead.
    + (* present: the iteration logs nothing *)
      destruct item as [filename url].
      rewrite conala_body_present in Hb by (simpl in Ehead; rewrite Ehead; eauto).
      injection Hb as <- <-.
      exists s', w', evs2. split; [done|]. split; [done|]. split.
      { intros ev Hev. destruct (Hfrom ev Hev) as (it & Hin & Hnone & Hce).
        exists it. split; [by right|]. done. }
      split; [lia|]. split; [|intros q Hq; apply Hg2, Hg1, Hq].
      intros it Hin Hpres. apply elem_of_cons in Hin as [->|Hin]; [lia|].
      specialize (Hcount it Hin Hpres). lia.
    + exists s', w', (evs1 ++ evs2). split; [done|]. split.
      { rewrite Hev2, Hev1. by rewrite app_assoc. }
      split.
      { intros ev Hev. apply elem_of_app in Hev as [Hev|Hev].
        - exists item. split; [left|]. split; [done|].
          rewrite Forall_forall in Hall1. by apply Hall1.
        - destruct (Hfrom ev Hev) as (it & Hin & Hnone & Hce).
          exists it. split; [by right|]. split; [by apply Habs|done]. }
      split; [lia|]. split; [|intros q Hq; apply Hg2, Hg1, Hq].
      intros it Hin Hpres. apply elem_of_cons in Hin as [->|Hin].
      { rewrite Ehead in Hpres. by destruct Hpres. }
      assert (s1 < s'); [|lia]. apply (Hcount it Hin). by apply Hg1.
Qed.

(** The loop when every request fails and no file is there: the
    counter is unchanged and only the destinations may change. *)
Lemma conala_loop_all_fail d l : forall s w,
  (forall n u, http_fails (http n u)) ->
  NoDup l.*1 ->
  (forall item, item ∈ l -> fs w !! (d ++ [item.1]) = None) ->
  exists w',
    for_each (conala_loop_body http d) l s w = (Return s, w') /\
    touches_only (fun q => exists item, item ∈ l /\ q = d ++ [item.1]) w w'.
Proof.
  induction l as [|item l IH]; intros s w Hfail Hnd Habs.
  - exists w. split; [done|]. by intros q.
  - simpl for_each.
    destruct (conala_body_returns d s item w) as (s1 & w1 & Hb & _ & Hsame).
    rewrite (bind_run _ _ _ _ _ Hb).
    rewrite (Hsame Hfail (Habs item (list_elem_of_here _ _))).
    pose proof (conala_body_touches_in (eq (d ++ [item.1])) d s item eq_refl w)
      as Ht1.
    rewrite Hb in Ht1. simpl in Ht1.
    rewrite fmap_cons in Hnd. apply NoDup_cons in Hnd as [Hnotin Hnd].
    destruct (IH s w1 Hfail Hnd) as (w' & Hrun & Ht2).
    { intros it Hin. rewrite Ht1; [apply Habs; by right|].
      intros Heq. apply app_inj_1 in Heq as [_ [= Heq]]; [|done].
      apply Hnotin. rewrite Heq. apply list_elem_of_fmap. by exists it. }
    exists w'. split; [done|].
    eapply wr_trans.
    + eapply touches_only_weaken; [|exact Ht1].
      intros q <-. exists item. split; [left|done].
    + eapply touches_only_weaken; [|exact Ht2].
      intros q (it & Hin & ->). exists it. split; [by right|done].
Qed.

(** *** The CoNaLa routine *)

Definition conala_dir : path := BASE_DIR ++ ["conala"].
Definition synthetic_file : path := conala_dir ++ ["conala-synthetic.json"].
Definition synthetic_text : string := dumps_indent2 (JArr synthetic_data).

Lemma grows_None w w' q : grows w w' -> fs w' !! q = None -> fs w !! q = None.
Proof.
  intros Hg Hq. destruct (fs w !! q) eqn:E; [|done].
  destruct (Hg q) as [n' Hn]; [eauto|]. congruence.
Qed.

(** Splits [item ∈ conala_files] into the three files. *)
Ltac each_conala_file H :=
  unfold conala_files in H;
  repeat (apply elem_of_cons in H as [->|H]); [..|by apply elem_of_nil in H].

Lemma conala_routine_present w item :
  item ∈ conala_files ->
  is_Some (fs w !! (conala_dir ++ [item.1])) ->
  exists evs,
    events (download_conala_correct_urls http w).2 = events w ++ evs /\
    forall ev, ev ∈ evs ->
      ev <> EvRequest (HttpGet item.2) /\
      ev <> EvRequest (HttpGet (alt_base +:+ item.1)) /\
      ev <> EvWrite synthetic_file.
Proof.
  intros Hitem Hpres. unfold download_conala_correct_urls.
  rewrite !bind_print'. cbv zeta. fold conala_dir.
  set (w0 := with_output _ (with_output _ (with_output _ w))).
  pose proof (mkdir_logs (fun ev => exists q, ev = EvMkdir q) conala_dir
                (fun q => ex_intro _ q eq_refl) w0) as (evs0 & Hev0 & Hall0).
  pose proof (mkdir_grows conala_dir w0) as Hg0.
  assert (Hmk : forall ev, ev ∈ evs0 ->
            ev <> EvRequest (HttpGet item.2) /\
            ev <> EvRequest (HttpGet (alt_base +:+ item.1)) /\
            ev <> EvWrite synthetic_file).
  { intros ev Hev. rewrite Forall_forall in Hall0.
    destruct (Hall0 ev Hev) as [q ->]. done. }
  destruct (mkdir_parents_exist_ok conala_dir w0) as [[[]|e|c] w1] eqn:Emk;
    simpl in Hev0, Hg0.
  2:{ rewrite (bind_run_Raise _ _ _ _ _ Emk). exists evs0. done. }
  2:{ exfalso. by apply (mkdir_no_exit conala_dir w0 c); rewrite Emk. }
  rewrite (bind_run _ _ _ _ _ Emk).
  destruct (conala_loop_events conala_dir conala_files 0 w1)
    as (s' & w2 & evs & Hloop & Hev & Hfrom & _ & Hcount & _).
  rewrite (bind_run _ _ _ _ _ Hloop).
  assert (Hs : 0 < s') by (apply (Hcount item Hitem); by apply Hg0).
  replace (s' =? 0) with false by (symmetry; apply Z.eqb_neq; lia).
  cbv iota. rewrite bind_print'. unfold ret. cbn [snd events with_output].
  exists (evs0 ++ evs). split; [rewrite Hev, Hev0; by rewrite app_assoc|].
  intros ev Hin. apply elem_of_app in Hin as [Hin|Hin]; [by apply Hmk|].
  destruct (Hfrom ev Hin) as (it & Hit & Hnone & Hce).
  assert (Hne : it <> item).
  { intros ->. apply Hg0 in Hpres. rewrite Hnone in Hpres. by destruct Hpres. }
  unfold conala_events in Hce.
  each_conala_file Hitem; each_conala_file Hit; try done;
    destruct Hce as [-> | [-> | ->]]; vm_compute; split_and!; discriminate.
Qed.

Lemma conala_loop_dirs_kept l s :
  preserves dirs_kept (for_each (conala_loop_body http conala_dir) l s).
Proof. pres. apply conala_body_dirs_kept. Qed.

(** When every request fails and none of the three files is there, the
    routine writes the synthetic file and returns its directory. *)
Lemma conala_routine_all_fail w :
  (forall n url, http_fails (http n url)) ->
  (forall item, item ∈ conala_files -> fs w !! (conala_dir ++ [item.1]) = None) ->
  creatable (fs w) conala_dir ->
  fs w !! synthetic_file <> Some Dir ->
  exists w',
    download_conala_correct_urls http w = (Return conala_dir, w') /\
    fs w' !! synthetic_file = Some (File synthetic_text) /\
    dir_chain (fs w') conala_dir /\
    touches_only (comparable conala_dir) w w'.
Proof.
  intros Hfail Habs Hcreate Hsyn. unfold download_conala_correct_urls.
  rewrite !bind_print'. cbv zeta. fold conala_dir.
  set (w0 := with_output _ (with_output _ (with_output _ w))).
  destruct (mkdir_returns conala_dir w0 Hcreate) as (w1 & Hmk & Hchain).
  pose proof (mkdir_touches_in (fun q => q `prefix_of` conala_dir) conala_dir
                (fun q H => H) w0) as Ht0.
  rewrite Hmk in Ht0. simpl in Ht0.
  rewrite (bind_run _ _ _ _ _ Hmk).
  destruct (conala_loop_all_fail conala_dir conala_files 0 w1 Hfail)
    as (w2 & Hloop & Ht1).
  { vm_compute. repeat constructor; rewrite ?elem_of_cons, ?elem_of_nil;
      intros H; repeat destruct H as [H|H]; try discriminate; done. }
  { intros item Hin. rewrite Ht0; [by apply Habs|].
    each_conala_file Hin; by intros [k [=]]. }
  rewrite (bind_run _ _ _ _ _ Hloop).
  change (0 =? 0) with true. cbv iota.
  rewrite bind_assoc, bind_print'.
  pose proof (conala_loop_dirs_kept conala_files 0 w1) as Hk.
  rewrite Hloop in Hk. simpl in Hk.
  assert (Hchain2 : dir_chain (fs w2) conala_dir).
  { intros q Hq Hne. apply Hk. by apply Hchain. }
  assert (Hsyn2 : fs w2 !! synthetic_file <> Some Dir).
  { rewrite Ht1, Ht0; [done|by intros [k [=]]|].
    intros (item & Hin & Heq). each_conala_file Hin; discriminate. }
  rewrite bind_assoc.
  unfold synthetic_file in *.
  lazymatch goal with
  | |- context [bind (open_write _ ?c) _ ?w3] =>
      rewrite (bind_run _ _ _ _ _
                 (open_write_run conala_dir "conala-synthetic.json" c w3
                    Hchain2 Hsyn2))
  end.
  rewrite bind_print'. unfold ret.
  eexists. split; [reflexivity|]. cbn [fs with_output after_write].
  split; [by rewrite lookup_insert_eq|].
  split.
  - intros q Hq Hne. rewrite lookup_insert_ne; [by apply Hchain2|].
    intros <-. destruct Hq as [k Hk']. by injection Hk'.
  - intros q Hq. cbn [fs with_output after_write].
    rewrite lookup_insert_ne by (intros <-; apply Hq; right; solve_prefix).
    rewrite Ht1, Ht0; [done|..].
    + intros Hp. apply Hq. by left.
    + intros (item & Hin & ->). apply Hq. right. solve_prefix.
Qed.

End CombinedDownload.




(** ** C5, C6: the multi-file CoNaLa fetch *)

Definition net_down : nat -> string -> http_outcome :=
  fun _ _ => HttpError (PyExn "ConnectionError" "network is unreachable").

Definition no_zip : string -> exn + list (path * zip_member) :=
  fun _ => inl (PyExn "BadZipFile" "File is not a zip file").

(** A world in which an old [conala-train.json] is on disk. *)
Definition world_with_stale_file : world :=
  World (<[ ["data"; "raw"; "conala"; "conala-train.json"] := File "stale" ]>
          (<[ ["data"; "raw"; "conala"] := Dir ]>
            (<[ ["data"; "raw"] := Dir ]> (<[ ["data"] := Dir ]> ∅))))
        [] [] [].

(** The number of places of [hay] at which [needle] starts. *)
Fixpoint count_occurrences (needle hay : string) : nat :=
  match hay with
  | EmptyString => 0
  | String _ rest =>
      ((match drop_prefix needle hay with Some _ => 1 | None => 0 end) +
       count_occurrences needle rest)%nat
  end.

(** C5: in the CoNaLa loop, when the destination of a file exists
    (whatever is stored there), the iteration for that file makes no
    request and changes nothing but the console, and it adds one to
    the success counter.  For the routine as a whole: a file present
    when the routine starts has neither its primary nor its alternate
    URL requested, and, being counted as a success, it keeps the
    synthetic dataset from being written. *)
Theorem C5_existing_file_is_skipped_and_counted
    (http : nat -> string -> http_outcome) (w : world)
    (output_dir : path) (success : Z) (filename url : string) :
  is_Some (fs w !! (output_dir ++ [filename])) ->
  conala_loop_body http output_dir success (filename, url) w =
    (Return (success + 1),
     with_output [("✓ Already exists: " +:+ filename) +:+ nl] w) /\
  events (with_output [("✓ Already exists: " +:+ filename) +:+ nl] w) = events w /\
  fs (with_output [("✓ Already exists: " +:+ filename) +:+ nl] w) = fs w /\
  (forall item,
     item ∈ conala_files ->
     is_Some (fs w !! (BASE_DIR ++ ["conala"; item.1])) ->
     exists evs,
       events (download_conala_correct_urls http w).2 = events w ++ evs /\
       forall ev, ev ∈ evs ->
         ev <> EvRequest (HttpGet item.2) /\
         ev <> EvRequest (HttpGet (alt_base +:+ item.1)) /\
         ev <> EvWrite (BASE_DIR ++ ["conala"; "conala-synthetic.json"])).
Proof.
  intros Hp. split; [by apply conala_body_present|].
  split; [reflexivity|]. split; [reflexivity|].
  intros item Hin Hpres. by apply (conala_routine_present http w item).
Qed.

Lemma C5_witness :
  conala_loop_body net_down (BASE_DIR ++ ["conala"]) 0
    ("conala-train.json", "https://raw.githubusercontent.com/conala-corpus/conala-corpus/master/conala-train.json")
    world_with_stale_file =
  (Return 1,
   with_output [("✓ Already exists: " +:+ "conala-train.json") +:+ nl]
     world_with_stale_file).
Proof.
  apply (C5_existing_file_is_skipped_and_counted net_down world_with_stale_file
           (BASE_DIR ++ ["conala"]) 0 "conala-train.json").
  vm_compute. eauto.
Defined.



(** ** The routines of the combined script that write literal files *)

Definition codesearchnet_dir : path := BASE_DIR ++ ["codesearchnet"].
Definition stackoverflow_dir : path := BASE_DIR ++ ["stackoverflow"].
Definition tutorials_dir : path := BASE_DIR ++ ["pytorch_docs"; "tutorials"].
Definition python_docs_dir : path := BASE_DIR ++ ["python_docs"].
Definition combined_dir : path := BASE_DIR ++ ["combined"].

(** Steps through a run that returned: prints, directory creation and
    file writes. *)
Ltac inv_run H :=
  repeat first
    [ rewrite bind_print' in H
    | rewrite bind_assoc in H
    | lazymatch type of H with
      | bind (mkdir_parents_exist_ok _) _ _ = (Return _, _) =>
          let w1 := fresh "w" in
          let Hmk := fresh "Hmk" in
          apply bind_Return_inv in H as ([] & w1 & Hmk & H)
      | bind (open_write _ _) _ _ = (Return _, _) =>
          let w1 := fresh "w" in
          let Hw := fresh "Hw" in
          apply bind_Return_inv in H as ([] & w1 & Hw & H);
          apply open_write_Return_inv in Hw; subst w1
      end ].

Lemma dir_chain_after_write f (d p : path) c :
  dir_chain f d -> f !! p <> Some Dir -> dir_chain (<[p := File c]> f) d.
Proof.
  intros Hd Hp q Hq Hne. rewrite lookup_insert_ne; [by apply Hd|].
  intros <-. apply Hp. by apply Hd.
Qed.

(** Steps forward through directory creation and file writes that
    succeed. *)
Ltac fwd_mkdir Hcreate w1 Hmk Hchain Ht :=
  lazymatch goal with
  | |- context [bind (mkdir_parents_exist_ok ?d) _ ?w0] =>
      destruct (mkdir_returns d w0 Hcreate) as (w1 & Hmk & Hchain);
      pose proof (mkdir_touches_in (fun q => q `prefix_of` d) d
                    (fun q H => H) w0) as Ht;
      rewrite Hmk in Ht; cbn [snd] in Ht;
      rewrite (bind_run _ _ _ _ _ Hmk)
  end.

Ltac fwd_write Hchain Hnd :=
  lazymatch goal with
  | |- context [bind (open_write (?d ++ [?x]) ?c) _ ?w0] =>
      rewrite (bind_run _ _ _ _ _ (open_write_run d x c w0 Hchain Hnd))
  end.

(** Two paths that differ. *)
Ltac path_neq :=
  let H := fresh in intros H; vm_compute in H; discriminate H.

Lemma not_prefix_snoc (d : path) x : ~ (d ++ [x]) `prefix_of` d.
Proof.
  intros Hp. apply prefix_length in Hp. rewrite length_app in Hp. simpl in Hp. lia.
Qed.

Lemma codesearchnet_Return_inv w p w' :
  download_codesearchnet_github w = (Return p, w') ->
  p = codesearchnet_dir /\
  fs w' !! codesearchnet_dir = Some Dir /\
  fs w' !! (codesearchnet_dir ++ ["README.txt"]) = Some (File codesearchnet_readme).
Proof.
  intros H. unfold download_codesearchnet_github in H. cbv zeta in H.
  fold codesearchnet_dir in H. inv_run H.
  injection H as <- <-. apply mkdir_Return_inv in Hmk.
  split; [done|]. cbn [fs with_output after_write]. split.
  - rewrite lookup_insert_ne by path_neq.
    by apply dir_chain_self.
  - by rewrite lookup_insert_eq.
Qed.

Lemma codesearchnet_returns w :
  creatable (fs w) codesearchnet_dir ->
  fs w !! (codesearchnet_dir ++ ["README.txt"]) <> Some Dir ->
  exists w', download_codesearchnet_github w = (Return codesearchnet_dir, w').
Proof.
  intros Hcreate Hnd. unfold download_codesearchnet_github. cbv zeta.
  fold codesearchnet_dir. rewrite !bind_print'.
  fwd_mkdir Hcreate w1 Hmk Hchain Ht. rewrite !bind_print'.
  assert (Hnd1 : fs w1 !! (codesearchnet_dir ++ ["README.txt"]) <> Some Dir).
  { rewrite Ht; [done|apply not_prefix_snoc]. }
  fwd_write Hchain Hnd1. rewrite !bind_print'. eexists. reflexivity.
Qed.

Lemma stackoverflow_Return_inv w p w' :
  download_stackoverflow_csv w = (Return p, w') ->
  p = stackoverflow_dir /\
  fs w' !! stackoverflow_dir = Some Dir /\
  fs w' !! (stackoverflow_dir ++ ["stackoverflow_sample.json"]) =
    Some (File (dumps_indent2 (JArr sample_data))) /\
  fs w' !! (stackoverflow_dir ++ ["DOWNLOAD_OPTIONS.txt"]) =
    Some (File stackoverflow_instructions).
Proof.
  intros H. unfold download_stackoverflow_csv in H. cbv zeta in H.
  fold stackoverflow_dir in H. inv_run H.
  injection H as <- <-. apply mkdir_Return_inv in Hmk.
  split; [done|]. cbn [fs with_output after_write]. split_and!.
  - rewrite !lookup_insert_ne by path_neq.
    by apply dir_chain_self.
  - rewrite lookup_insert_ne by path_neq.
    by rewrite lookup_insert_eq.
  - by rewrite lookup_insert_eq.
Qed.

Lemma stackoverflow_returns w :
  creatable (fs w) stackoverflow_dir ->
  fs w !! (stackoverflow_dir ++ ["stackoverflow_sample.json"]) <> Some Dir ->
  fs w !! (stackoverflow_dir ++ ["DOWNLOAD_OPTIONS.txt"]) <> Some Dir ->
  exists w', download_stackoverflow_csv w = (Return stackoverflow_dir, w').
Proof.
  intros Hcreate Hnd1 Hnd2. unfold download_stackoverflow_csv. cbv zeta.
  fold stackoverflow_dir. rewrite !bind_print'.
  fwd_mkdir Hcreate w1 Hmk Hchain Ht. rewrite !bind_print'.
  assert (Hn1 : fs w1 !! (stackoverflow_dir ++ ["stackoverflow_sample.json"])
                <> Some Dir).
  { rewrite Ht; [done|apply not_prefix_snoc]. }
  assert (Hn2 : fs w1 !! (stackoverflow_dir ++ ["DOWNLOAD_OPTIONS.txt"])
                <> Some Dir).
  { rewrite Ht; [done|apply not_prefix_snoc]. }
  fwd_write Hchain Hn1.
  lazymatch goal with
  | |- context [bind (open_write (?d ++ [?x]) ?c) _ ?w0] =>
      rewrite (bind_run _ _ _ _ _ (open_write_run d x c w0
        (dir_chain_after_write _ _ _ _ Hchain Hn1)
        ltac:(cbn [fs after_write];
              rewrite lookup_insert_ne
                by path_neq;
              exact Hn2)))
  end.
  rewrite !bind_print'. eexists. reflexivity.
Qed.

Lemma combined_Return_inv w w' :
  create_combined_dataset w = (Return tt, w') ->
  fs w' !! combined_dir = Some Dir /\
  fs w' !! (combined_dir ++ ["README.md"]) = Some (File combined_readme).
Proof.
  intros H. unfold create_combined_dataset in H. cbv zeta in H.
  fold combined_dir in H. inv_run H. rewrite !print_run' in H.
  injection H as <-. apply mkdir_Return_inv in Hmk.
  cbn [fs with_output after_write]. split.
  - rewrite lookup_insert_ne by path_neq.
    by apply dir_chain_self.
  - by rewrite lookup_insert_eq.
Qed.

Lemma combined_returns w :
  creatable (fs w) combined_dir ->
  fs w !! (combined_dir ++ ["README.md"]) <> Some Dir ->
  exists w', create_combined_dataset w = (Return tt, w').
Proof.
  intros Hcreate Hnd. unfold create_combined_dataset. cbv zeta.
  fold combined_dir. rewrite !bind_print'.
  fwd_mkdir Hcreate w1 Hmk Hchain Ht.
  assert (Hnd1 : fs w1 !! (combined_dir ++ ["README.md"]) <> Some Dir).
  { rewrite Ht; [done|apply not_prefix_snoc]. }
  fwd_write Hchain Hnd1. rewrite !bind_print', print_run'. eexists. reflexivity.
Qed.

#[global] Hint Resolve never_exits_download download_dirs_kept download_grows
  download_touches download_stdout_extends : pres.

Ltac pres_routine := cbv zeta; pres; eauto 4 with pres.

Section CombinedRoutines.
Context (http : nat -> string -> http_outcome).
Context (unzip : string -> exn + list (path * zip_member)).

Lemma codesearchnet_dirs_kept : preserves dirs_kept download_codesearchnet_github.
Proof. unfold download_codesearchnet_github. pres_routine. Qed.

Lemma codesearchnet_touches :
  preserves (touches_only (comparable codesearchnet_dir)) download_codesearchnet_github.
Proof. unfold download_codesearchnet_github. pres_routine. Qed.

Lemma codesearchnet_no_request :
  preserves (logs_only (fun ev => ~ is_request ev)) download_codesearchnet_github.
Proof. unfold download_codesearchnet_github. pres_routine. Qed.

Lemma stackoverflow_dirs_kept : preserves dirs_kept download_stackoverflow_csv.
Proof. unfold download_stackoverflow_csv. pres_routine. Qed.

Lemma stackoverflow_touches :
  preserves (touches_only (comparable stackoverflow_dir)) download_stackoverflow_csv.
Proof. unfold download_stackoverflow_csv. pres_routine. Qed.

Lemma stackoverflow_no_request :
  preserves (logs_only (fun ev => ~ is_request ev)) download_stackoverflow_csv.
Proof. unfold download_stackoverflow_csv. pres_routine. Qed.

Lemma combined_dirs_kept : preserves dirs_kept create_combined_dataset.
Proof. unfold create_combined_dataset. pres_routine. Qed.

Lemma combined_touches :
  preserves (touches_only (comparable combined_dir)) create_combined_dataset.
Proof. unfold create_combined_dataset. pres_routine. Qed.

Lemma conala_dirs_kept : preserves dirs_kept (download_conala_correct_urls http).
Proof.
  unfold download_conala_correct_urls. pres_routine.
  apply conala_body_dirs_kept.
Qed.

Lemma conala_touches :
  preserves (touches_only (comparable conala_dir)) (download_conala_correct_urls http).
Proof.
  unfold download_conala_correct_urls. pres_routine.
  apply conala_body_touches_in. right. solve_prefix.
Qed.

Lemma pytorch_prints_only : preserves prints_only verify_pytorch_tutorials.
Proof.
  unfold verify_pytorch_tutorials. cbv zeta. pres.
  apply preserves_exists_and_nonempty. apply _.
Qed.

(** *** The Python documentation routine *)

Definition zip_file : path := python_docs_dir ++ ["python-docs.zip"].
Definition extract_dir : path := python_docs_dir ++ ["python-" +:+ version].

Lemma prefix_of_parent (d k u : path) x :
  k <> [] -> d ++ k = u ++ [x] -> d `prefix_of` u.
Proof.
  intros Hk Heq. destruct k as [|y k _] using rev_ind; [done|].
  rewrite app_assoc in Heq. apply app_inj_tail in Heq as [<- _].
  by apply prefix_app_r.
Qed.

Lemma extract_target_parent (san u : path) :
  parent (extract_dir ++ san) = Some u -> python_docs_dir `prefix_of` u.
Proof.
  intros Hp. apply parent_Some in Hp as [x Hx]. unfold extract_dir in Hx.
  rewrite <- app_assoc in Hx. eapply prefix_of_parent; [|exact Hx]. done.
Qed.

Lemma extract_member_preserves (R : world -> world -> Prop) `{!WorldRel R} m :
  (forall p, python_docs_dir `prefix_of` p ->
             preserves R (mkdir_parents_exist_ok p)) ->
  (forall p c, python_docs_dir `prefix_of` p -> preserves R (open_write p c)) ->
  preserves R (extract_member extract_dir m).
Proof.
  intros Hmk Hw. unfold extract_member. destruct m as [name [|data]]; cbv zeta.
  - apply Hmk. unfold extract_dir. solve_prefix.
  - simpl fst. simpl snd. cbv iota.
    destruct (parent (extract_dir ++ sanitize name)) as [u|] eqn:Eu.
    + pres.
      * apply Hmk. by eapply extract_target_parent.
      * apply Hw. unfold extract_dir. solve_prefix.
    + pres. apply Hw. unfold extract_dir. solve_prefix.
Qed.

Lemma extractall_preserves (R : world -> world -> Prop) `{!WorldRel R} :
  (forall p, python_docs_dir `prefix_of` p ->
             preserves R (mkdir_parents_exist_ok p)) ->
  (forall p c, python_docs_dir `prefix_of` p -> preserves R (open_write p c)) ->
  preserves R (extractall unzip zip_file extract_dir).
Proof.
  intros Hmk Hw. unfold extractall. pres. by apply extract_member_preserves.
Qed.

(** What the routine does once its directory is made. *)
Definition python_docs_rest : M path :=
  present <- exists_and_nonempty extract_dir ;;
  if present : bool then
    print ("✓ Python " +:+ version +:+ " docs already exist") ;;
    ret python_docs_dir
  else
    print ("Downloading Python " +:+ version +:+ " documentation...") ;;
    print ("URL: " +:+ python_docs_url) ;;
    ok <- download_file_with_progress http python_docs_url zip_file ;;
    extracted <-
      (if ok : bool then
         print "Extracting..." ;;
         try_except
           (extractall unzip zip_file extract_dir ;;
            unlink zip_file ;;
            print "✓ Python documentation extracted" ;;
            ret true)
           (fun e => print ("✗ Extraction error: " +:+ exn_str e) ;; ret false)
       else ret false) ;;
    if extracted : bool then ret python_docs_dir
    else
      print (nl +:+ "Alternative: Using Python standard library source code") ;;
      print "This is actually BETTER for code examples!" ;;
      open_write (python_docs_dir ++ ["README.txt"]) python_docs_readme ;;
      ret python_docs_dir.

Lemma python_docs_unfold :
  download_python_docs_correct http unzip =
  (print (nl +:+ rule) ;;
   print "5. DOWNLOADING PYTHON DOCUMENTATION" ;;
   print rule ;;
   mkdir_parents_exist_ok python_docs_dir ;;
   python_docs_rest).
Proof. reflexivity. Qed.

Lemma python_docs_rest_preserves (R : world -> world -> Prop) `{!WorldRel R} :
  (forall p, python_docs_dir `prefix_of` p ->
             preserves R (mkdir_parents_exist_ok p)) ->
  (forall p c, python_docs_dir `prefix_of` p -> preserves R (open_write p c)) ->
  (forall p, python_docs_dir `prefix_of` p -> preserves R (unlink p)) ->
  (forall u p, python_docs_dir `prefix_of` p ->
               preserves R (download_file_with_progress http u p)) ->
  preserves R python_docs_rest.
Proof.
  intros Hmk Hw Hu Hd. unfold python_docs_rest.
  pres.
  all: first [ by apply preserves_exists_and_nonempty
             | by apply extractall_preserves
             | apply Hmk; solve_prefix
             | apply Hw; solve_prefix
             | apply Hu; unfold zip_file; solve_prefix
             | apply Hd; unfold zip_file; solve_prefix ].
Qed.

Lemma python_docs_preserves (R : world -> world -> Prop) `{!WorldRel R} :
  (forall p, python_docs_dir `prefix_of` p ->
             preserves R (mkdir_parents_exist_ok p)) ->
  (forall p c, python_docs_dir `prefix_of` p -> preserves R (open_write p c)) ->
  (forall p, python_docs_dir `prefix_of` p -> preserves R (unlink p)) ->
  (forall u p, python_docs_dir `prefix_of` p ->
               preserves R (download_file_with_progress http u p)) ->
  preserves R (download_python_docs_correct http unzip).
Proof.
  intros Hmk Hw Hu Hd. rewrite python_docs_unfold. pres.
  all: first [ by apply python_docs_rest_preserves | apply Hmk; solve_prefix ].
Qed.

Lemma python_docs_dirs_kept :
  preserves dirs_kept (download_python_docs_correct http unzip).
Proof. apply python_docs_preserves; [apply _|..]; intros; auto with pres. Qed.

Lemma python_docs_touches :
  preserves (touches_only (comparable python_docs_dir))
    (download_python_docs_correct http unzip).
Proof. apply python_docs_preserves; [apply _|..]; intros; auto with pres. Qed.

(** A routine that made its directory and returned has left it a
    directory. *)
Lemma mkdir_then_kept {A} (p : path) (k : unit -> M A) (w : world)
    (x : A) (w' : world) :
  p <> [] ->
  (forall a, preserves dirs_kept (k a)) ->
  bind (mkdir_parents_exist_ok p) k w = (Return x, w') ->
  fs w' !! p = Some Dir.
Proof.
  intros Hp Hk Hrun. apply bind_Return_inv in Hrun as ([] & w1 & Hmk & Hrest).
  apply mkdir_Return_inv in Hmk. pose proof (Hk tt w1) as Hkept.
  rewrite Hrest in Hkept. apply Hkept. by apply dir_chain_self.
Qed.

Lemma conala_Return_inv w p w' :
  download_conala_correct_urls http w = (Return p, w') ->
  fs w' !! conala_dir = Some Dir.
Proof.
  intros H. unfold download_conala_correct_urls in H. cbv zeta in H.
  fold conala_dir in H. rewrite !bind_print' in H.
  eapply mkdir_then_kept; [| |exact H]; [done|].
  intros []. pres. apply conala_body_dirs_kept. all: auto with pres.
Qed.

Lemma python_docs_Return_inv w p w' :
  download_python_docs_correct http unzip w = (Return p, w') ->
  fs w' !! python_docs_dir = Some Dir.
Proof.
  intros H. rewrite python_docs_unfold in H. rewrite !bind_print' in H.
  eapply mkdir_then_kept; [| |exact H]; [done|].
  intros []. apply python_docs_rest_preserves; [apply _|..]; intros; auto with pres.
Qed.

Lemma pytorch_Return_inv w x w' :
  verify_pytorch_tutorials w = (Return x, w') ->
  (forall c, fs w !! tutorials_dir <> Some (File c)) /\ fs w' = fs w.
Proof.
  intros H. split.
  - unfold verify_pytorch_tutorials in H. cbv zeta in H. fold tutorials_dir in H.
    rewrite !bind_print' in H.
    apply bind_Return_inv in H as (b & w1 & Hex & _).
    destruct (exists_and_nonempty_cases tutorials_dir
                (with_output [rule +:+ nl]
                   (with_output ["4. VERIFYING PYTORCH TUTORIALS" +:+ nl]
                      (with_output [(nl +:+ rule) +:+ nl] w))))
      as [(c & _ & e & He)|[Hnf _]]; [congruence|exact Hnf].
  - pose proof (pytorch_prints_only w) as (Hfs & _). by rewrite H in Hfs.
Qed.

Lemma pytorch_absent w :
  fs w !! tutorials_dir = None ->
  exists w', verify_pytorch_tutorials w = (Return None, w') /\ fs w' = fs w.
Proof.
  intros Hnone. unfold verify_pytorch_tutorials. cbv zeta. fold tutorials_dir.
  rewrite !bind_print'.
  lazymatch goal with
  | |- context [bind (exists_and_nonempty _) _ ?w0] =>
      destruct (exists_and_nonempty_cases tutorials_dir w0)
        as [(c & Hc & _)|[_ Hrun]]
  end.
  { simpl in Hc. congruence. }
  rewrite (bind_run _ _ _ _ _ Hrun).
  rewrite bool_decide_eq_false_2.
  - rewrite !bind_print'. eexists. split; [reflexivity|done].
  - intros [[n Hn] _]. simpl in Hn. congruence.
Qed.

(** *** No routine exits the process *)

Lemma never_exits_codesearchnet : never_exits download_codesearchnet_github.
Proof. unfold download_codesearchnet_github. cbv zeta. nex. Qed.

Lemma never_exits_stackoverflow : never_exits download_stackoverflow_csv.
Proof. unfold download_stackoverflow_csv. cbv zeta. nex. Qed.

Lemma never_exits_conala : never_exits (download_conala_correct_urls http).
Proof.
  unfold download_conala_correct_urls. cbv zeta. nex.
  apply never_exits_conala_body.
Qed.

Lemma never_exits_pytorch : never_exits verify_pytorch_tutorials.
Proof. unfold verify_pytorch_tutorials. cbv zeta. nex. Qed.

Lemma never_exits_extractall zf d : never_exits (extractall unzip zf d).
Proof. unfold extractall, extract_member. nex. Qed.

Lemma never_exits_python_docs : never_exits (download_python_docs_correct http unzip).
Proof.
  unfold download_python_docs_correct. cbv zeta. nex.
  all: first [ apply never_exits_download | apply never_exits_extractall ].
Qed.

Lemma never_exits_combined : never_exits create_combined_dataset.
Proof. unfold create_combined_dataset. cbv zeta. nex. Qed.

Lemma never_exits_final_verification : never_exits final_verification.
Proof.
  unfold final_verification, verification_loop_body. nex.
Qed.

Lemma never_exits_acquisition : never_exits (acquisition_sequence http unzip).
Proof.
  unfold acquisition_sequence. nex;
    auto using never_exits_codesearchnet, never_exits_stackoverflow,
      never_exits_conala, never_exits_pytorch, never_exits_python_docs,
      never_exits_combined.
Qed.

(** [main] returns normally whenever a line can be read: whatever the
    routines raise is caught by its handler. *)
Lemma main_returns w :
  stdin w <> [] -> exists w', main http unzip w = (Return tt, w').
Proof.
  intros Hin. unfold main. rewrite !bind_print'.
  destruct (stdin w) as [|line rest] eqn:E; [done|].
  lazymatch goal with
  | |- context [bind (input ?p) _ ?w0] =>
      rewrite (bind_run _ _ _ _ _ (input_run p w0 line rest E))
  end.
  lazymatch goal with
  | |- exists w', try_except ?m ?h ?w0 = _ =>
      assert (Hnex : never_exits m);
      [|specialize (Hnex w0); unfold try_except;
        destruct (m w0) as [[[]|e|c] w1]]
  end.
  - nex; auto using never_exits_acquisition, never_exits_final_verification.
  - eauto.
  - rewrite print_run'. eauto.
  - by destruct (Hnex c).
Qed.

End CombinedRoutines.



(** ** C4: after the six routines *)

(** Two concrete paths neither of which is a prefix of the other. *)
Ltac incomparable :=
  let H := fresh in
  let k := fresh in
  intros [[k H]|[k H]]; vm_compute in H; discriminate H.

Lemma available_intro f (d : path) x n :
  f !! d = Some Dir -> f !! (d ++ [x]) = Some n -> available f d.
Proof. intros Hd Hx. split; [eauto|]. exists x. eauto. Qed.

Lemma available_count_three f :
  available f codesearchnet_dir -> available f stackoverflow_dir ->
  available f combined_dir -> 3 <= available_count f datasets.
Proof.
  intros H1 H2 H3. unfold datasets.
  rewrite !available_count_cons. cbn [snd].
  fold codesearchnet_dir stackoverflow_dir combined_dir.
  rewrite (decide_True (P := available f codesearchnet_dir)) by done.
  rewrite (decide_True (P := available f stackoverflow_dir)) by done.
  rewrite (decide_True (P := available f combined_dir)) by done.
  pose proof (available_count_bounds f []).
  repeat match goal with |- context [decide ?P] => destruct (decide P) end; lia.
Qed.

Section AfterAcquisition.
Context (http : nat -> string -> http_outcome).
Context (unzip : string -> exn + list (path * zip_member)).

(** What holds once the six routines have all returned. *)
Lemma acquisition_Return_inv w w' :
  acquisition_sequence http unzip w = (Return tt, w') ->
  fs w' !! codesearchnet_dir = Some Dir /\
  fs w' !! (codesearchnet_dir ++ ["README.txt"]) = Some (File codesearchnet_readme) /\
  fs w' !! stackoverflow_dir = Some Dir /\
  fs w' !! (stackoverflow_dir ++ ["stackoverflow_sample.json"]) =
    Some (File (dumps_indent2 (JArr sample_data))) /\
  fs w' !! (stackoverflow_dir ++ ["DOWNLOAD_OPTIONS.txt"]) =
    Some (File stackoverflow_instructions) /\
  fs w' !! conala_dir = Some Dir /\
  (forall c, fs w' !! tutorials_dir <> Some (File c)) /\
  fs w' !! python_docs_dir = Some Dir /\
  fs w' !! combined_dir = Some Dir /\
  fs w' !! (combined_dir ++ ["README.md"]) = Some (File combined_readme).
Proof.
  intros H. unfold acquisition_sequence in H.
  apply bind_Return_inv in H as (p1 & w1 & H1 & H).
  apply bind_Return_inv in H as (p2 & w2 & H2 & H).
  apply bind_Return_inv in H as (p3 & w3 & H3 & H).
  apply bind_Return_inv in H as (p4 & w4 & H4 & H).
  apply bind_Return_inv in H as (p5 & w5 & H5 & H6).
  (* what each routine keeps *)
  pose proof (stackoverflow_dirs_kept w1) as K2. rewrite H2 in K2.
  pose proof (stackoverflow_touches w1) as T2. rewrite H2 in T2.
  pose proof (conala_dirs_kept http w2) as K3. rewrite H3 in K3.
  pose proof (conala_touches http w2) as T3. rewrite H3 in T3.
  pose proof (pytorch_Return_inv _ _ _ H4) as [F4 E4].
  pose proof (python_docs_dirs_kept http unzip w4) as K5. rewrite H5 in K5.
  pose proof (python_docs_touches http unzip w4) as T5. rewrite H5 in T5.
  pose proof (combined_dirs_kept w5) as K6. rewrite H6 in K6.
  pose proof (combined_touches w5) as T6. rewrite H6 in T6.
  cbn [snd] in *.
  (* what each routine establishes *)
  apply codesearchnet_Return_inv in H1 as (_ & D1 & R1).
  apply stackoverflow_Return_inv in H2 as (_ & D2 & S2 & O2).
  apply conala_Return_inv in H3 as D3.
  apply python_docs_Return_inv in H5 as D5.
  apply combined_Return_inv in H6 as (D6 & R6).
  split_and!.
  - apply K6, K5. rewrite E4. apply K3, K2, D1.
  - rewrite T6, T5, E4, T3, T2 by incomparable. exact R1.
  - apply K6, K5. rewrite E4. apply K3, D2.
  - rewrite T6, T5, E4, T3 by incomparable. exact S2.
  - rewrite T6, T5, E4, T3 by incomparable. exact O2.
  - apply K6, K5. rewrite E4. exact D3.
  - intros c. rewrite T6, T5, E4 by incomparable. apply F4.
  - apply K6, D5.
  - exact D6.
  - exact R6.
Qed.

End AfterAcquisition.

(** C4: once the six routines of the combined script have all
    returned, whatever the network did, the codesearchnet,
    stackoverflow and combined directories each hold a file with its
    literal content; so at least 3 of the listed directories are
    available and the reporter's judgement is success. *)
Theorem C4_three_directories_always_available
    (http : nat -> string -> http_outcome)
    (unzip : string -> exn + list (path * zip_member)) (w w1 : world) :
  acquisition_sequence http unzip w = (Return tt, w1) ->
  fs w1 !! (BASE_DIR ++ ["codesearchnet"; "README.txt"]) =
    Some (File codesearchnet_readme) /\
  fs w1 !! (BASE_DIR ++ ["stackoverflow"; "stackoverflow_sample.json"]) =
    Some (File (dumps_indent2 (JArr sample_data))) /\
  fs w1 !! (BASE_DIR ++ ["stackoverflow"; "DOWNLOAD_OPTIONS.txt"]) =
    Some (File stackoverflow_instructions) /\
  fs w1 !! (BASE_DIR ++ ["combined"; "README.md"]) = Some (File combined_readme) /\
  available (fs w1) (BASE_DIR ++ ["codesearchnet"]) /\
  available (fs w1) (BASE_DIR ++ ["stackoverflow"]) /\
  available (fs w1) (BASE_DIR ++ ["combined"]) /\
  3 <= available_count (fs w1) datasets /\
  exists w2, final_verification w1 = (Return true, w2).
Proof.
  intros H.
  destruct (acquisition_Return_inv http unzip w w1 H)
    as (D1 & R1 & D2 & S2 & O2 & D3 & F4 & D5 & D6 & R6).
  assert (A1 : available (fs w1) codesearchnet_dir) by by eapply available_intro.
  assert (A2 : available (fs w1) stackoverflow_dir) by by eapply available_intro.
  assert (A6 : available (fs w1) combined_dir) by by eapply available_intro.
  pose proof (available_count_three _ A1 A2 A6) as Hcount.
  split; [exact R1|]. split; [exact S2|]. split; [exact O2|]. split; [exact R6|].
  split; [exact A1|]. split; [exact A2|]. split; [exact A6|].
  split; [exact Hcount|].
  eexists. rewrite final_verification_run.
  - apply Z.leb_le in Hcount. rewrite Hcount. reflexivity.
  - intros item c Hin. unfold datasets in Hin.
    repeat (apply elem_of_cons in Hin as [->|Hin]); cbn [snd];
      [..|by apply elem_of_nil in Hin];
      fold codesearchnet_dir stackoverflow_dir conala_dir tutorials_dir
        python_docs_dir combined_dir; first [congruence | apply F4].
Qed.

(** ** C3: a run in which every request fails *)

(** Nothing is stored at or below [d]. *)
Definition nothing_below (f : gmap path node) (d : path) : Prop :=
  forall q, d `prefix_of` q -> f !! q = None.

(** An output root in which none of the six listed directories is
    present, and which exists or can be created. *)
Definition fresh_output_root (f : gmap path node) : Prop :=
  creatable f BASE_DIR /\
  forall item, item ∈ datasets -> nothing_below f item.2.

Lemma nothing_below_kept (d d' : path) w w' :
  touches_only (comparable d) w w' -> ~ comparable d d' ->
  nothing_below (fs w) d' -> nothing_below (fs w') d'.
Proof.
  intros Ht Hnc Hn q Hq. rewrite Ht; [by apply Hn|].
  intros [Hqd|Hdq]; apply Hnc.
  - left. by etrans.
  - destruct (prefix_weak_total _ _ _ Hdq Hq); [by right|by left].
Qed.

Lemma creatable_child f (d : path) x :
  dir_chain f d -> f !! (d ++ [x]) = None -> creatable f (d ++ [x]).
Proof.
  intros Hd Hx q c Hq Hq0 Hf.
  destruct (decide (q = d ++ [x])) as [->|Hneq]; [congruence|].
  assert (Hqd : q `prefix_of` d).
  { destruct Hq as [k Hk]. destruct k as [|y k _] using rev_ind.
    - rewrite app_nil_r in Hk. congruence.
    - rewrite app_assoc in Hk. apply app_inj_tail in Hk as [-> _].
      by apply prefix_app_r. }
  rewrite (Hd q Hqd Hq0) in Hf. discriminate.
Qed.

Lemma nothing_below_self f (d : path) : nothing_below f d -> f !! d = None.
Proof. intros H. by apply H. Qed.

Lemma nothing_below_child f (d : path) x :
  nothing_below f d -> f !! (d ++ [x]) = None.
Proof. intros H. apply H. by apply prefix_app_r. Qed.

Lemma dir_chain_prefix f (d d' : path) :
  d' `prefix_of` d -> dir_chain f d -> dir_chain f d'.
Proof. intros Hp Hd q Hq Hne. apply Hd; [by etrans|done]. Qed.

Lemma dir_chain_kept (d : path) w w' :
  dirs_kept w w' -> dir_chain (fs w) d -> dir_chain (fs w') d.
Proof. intros Hk Hd q Hq Hne. by apply Hk, Hd. Qed.

Lemma dir_chain_snoc f (d : path) x :
  dir_chain f d -> f !! (d ++ [x]) = Some Dir -> dir_chain f (d ++ [x]).
Proof.
  intros Hd Hx q Hq Hne.
  destruct (decide (q = d ++ [x])) as [->|Hneq]; [done|].
  apply Hd; [|done].
  destruct Hq as [k Hk]. destruct k as [|y k _] using rev_ind.
  - rewrite app_nil_r in Hk. congruence.
  - rewrite app_assoc in Hk. apply app_inj_tail in Hk as [-> _].
    by apply prefix_app_r.
Qed.

Section AllRequestsFail.
Context (http : nat -> string -> http_outcome).
Context (unzip : string -> exn + list (path * zip_member)).
Hypothesis Hfail : forall n url, http_fails (http n url).

(** With a failing network and no extracted documentation on disk, the
    routine writes its note. *)
Lemma python_docs_all_fail w :
  creatable (fs w) python_docs_dir ->
  fs w !! extract_dir = None ->
  fs w !! (python_docs_dir ++ ["README.txt"]) <> Some Dir ->
  exists w',
    download_python_docs_correct http unzip w = (Return python_docs_dir, w') /\
    fs w' !! python_docs_dir = Some Dir /\
    fs w' !! (python_docs_dir ++ ["README.txt"]) = Some (File python_docs_readme).
Proof.
  intros Hcreate Hex Hnd. rewrite python_docs_unfold. rewrite !bind_print'.
  fwd_mkdir Hcreate w1 Hmk Hchain Ht.
  assert (Hex1 : fs w1 !! extract_dir = None).
  { rewrite Ht; [done|apply not_prefix_snoc]. }
  assert (Hnd1 : fs w1 !! (python_docs_dir ++ ["README.txt"]) <> Some Dir).
  { rewrite Ht; [done|apply not_prefix_snoc]. }
  unfold python_docs_rest.
  destruct (exists_and_nonempty_cases extract_dir w1) as [(c & Hc & _)|[_ Hrun]];
    [congruence|].
  rewrite (bind_run _ _ _ _ _ Hrun).
  rewrite bool_decide_eq_false_2 by (intros [[n Hn] _]; congruence).
  rewrite !bind_print'.
  lazymatch goal with
  | |- context [bind (download_file_with_progress http ?u ?d) _ ?w0] =>
      destruct (download_returns http u d w0) as (b & w2 & Hd & _ & Hf);
      pose proof (download_dirs_kept http u d w0) as Hk;
      pose proof (download_touches_in http (eq d) u d eq_refl w0) as Ht2;
      rewrite Hd in Hk, Ht2; cbn [snd] in Hk, Ht2
  end.
  rewrite (Hf (Hfail _ _)) in Hd. rewrite (bind_run _ _ _ _ _ Hd).
  cbv beta iota. rewrite bind_ret. rewrite !bind_print'.
  assert (Hchain2 : dir_chain (fs w2) python_docs_dir).
  { intros q Hq Hne. apply Hk. cbn [fs with_output]. by apply Hchain. }
  assert (Hnd2 : fs w2 !! (python_docs_dir ++ ["README.txt"]) <> Some Dir).
  { rewrite Ht2 by path_neq. exact Hnd1. }
  fwd_write Hchain2 Hnd2. unfold ret.
  eexists. split; [reflexivity|]. cbn [fs with_output after_write]. split.
  - rewrite lookup_insert_ne by path_neq. by apply dir_chain_self.
  - by rewrite lookup_insert_eq.
Qed.

Lemma codesearchnet_stdout_extends :
  preserves stdout_extends download_codesearchnet_github.
Proof. unfold download_codesearchnet_github. pres_routine. Qed.

Lemma stackoverflow_stdout_extends :
  preserves stdout_extends download_stackoverflow_csv.
Proof. unfold download_stackoverflow_csv. pres_routine. Qed.

Lemma conala_stdout_extends :
  preserves stdout_extends (download_conala_correct_urls http).
Proof.
  unfold download_conala_correct_urls. pres_routine.
  apply conala_body_stdout_extends.
Qed.

Lemma pytorch_stdout_extends : preserves stdout_extends verify_pytorch_tutorials.
Proof.
  unfold verify_pytorch_tutorials. cbv zeta. pres.
  apply preserves_exists_and_nonempty. apply _.
Qed.

Lemma python_docs_stdout_extends :
  preserves stdout_extends (download_python_docs_correct http unzip).
Proof. apply python_docs_preserves; [apply _|..]; intros; auto with pres. Qed.

Lemma combined_stdout_extends : preserves stdout_extends create_combined_dataset.
Proof. unfold create_combined_dataset. pres_routine. Qed.

Lemma acquisition_stdout_extends :
  preserves stdout_extends (acquisition_sequence http unzip).
Proof.
  unfold acquisition_sequence. pres;
    auto using codesearchnet_stdout_extends, stackoverflow_stdout_extends,
      conala_stdout_extends, pytorch_stdout_extends, python_docs_stdout_extends,
      combined_stdout_extends.
Qed.

End AllRequestsFail.

(** Each of the six listed directories. *)
Lemma listed_dirs (P : path -> Prop) :
  (forall item, item ∈ datasets -> P item.2) <->
  P codesearchnet_dir /\ P stackoverflow_dir /\ P conala_dir /\
  P tutorials_dir /\ P python_docs_dir /\ P combined_dir.
Proof.
  split.
  - intros H. apply (proj2 (Forall_forall (fun item => P item.2) datasets)) in H.
    unfold datasets in H.
    repeat (apply Forall_cons in H as [? H]). cbn [snd] in *. done.
  - intros (H1 & H2 & H3 & H4 & H5 & H6) item Hin. unfold datasets in Hin.
    repeat (apply elem_of_cons in Hin as [->|Hin]); [..|by apply elem_of_nil in Hin];
      done.
Qed.

Lemma dir_chain_base f :
  f !! ["data"] = Some Dir -> f !! ["data"; "raw"] = Some Dir ->
  dir_chain f BASE_DIR.
Proof.
  intros H1 H2 q [k Hk] Hne. unfold BASE_DIR in Hk.
  destruct q as [|a [|b [|c q]]]; simplify_eq/=; done.
Qed.

Lemma nothing_below_mkdir (p d : path) w w' :
  touches_only (fun q => q `prefix_of` p) w w' -> ~ d `prefix_of` p ->
  nothing_below (fs w) d -> nothing_below (fs w') d.
Proof.
  intros Ht Hnp Hn q Hq. rewrite Ht; [by apply Hn|].
  intros Hqp. apply Hnp. by etrans.
Qed.

Lemma creatable_snoc f (d : path) x :
  creatable f d -> f !! (d ++ [x]) = None -> creatable f (d ++ [x]).
Proof.
  intros Hd Hx q c Hq Hq0 Hf.
  destruct (decide (q = d ++ [x])) as [->|Hneq]; [congruence|].
  apply (Hd q c); [|done|done].
  destruct Hq as [k Hk]. destruct k as [|y k _] using rev_ind.
  - rewrite app_nil_r in Hk. congruence.
  - rewrite app_assoc in Hk. apply app_inj_tail in Hk as [-> _].
    by apply prefix_app_r.
Qed.

Section AllFail.
Context (http : nat -> string -> http_outcome).
Context (unzip : string -> exn + list (path * zip_member)).
Hypothesis Hfail : forall n url, http_fails (http n url).

(** The six routines in a root in which none of the listed directories
    is present, with every request failing: they all return; the
    synthetic file and the note on the documentation are written, and
    the tutorials are still absent. *)
Lemma acquisition_all_fail w :
  dir_chain (fs w) BASE_DIR ->
  (forall item, item ∈ datasets -> nothing_below (fs w) item.2) ->
  exists w',
    acquisition_sequence http unzip w = (Return tt, w') /\
    fs w' !! synthetic_file = Some (File synthetic_text) /\
    fs w' !! (python_docs_dir ++ ["README.txt"]) = Some (File python_docs_readme) /\
    fs w' !! tutorials_dir = None.
Proof.
  intros B0 Hfresh.
  apply (listed_dirs (nothing_below (fs w))) in Hfresh
    as (N1 & N2 & N3 & N4 & N5 & N6).
  (* 1 *)
  destruct (codesearchnet_returns w) as (w1 & H1).
  { apply creatable_child; [done|by apply nothing_below_self]. }
  { by rewrite nothing_below_child. }
  pose proof (codesearchnet_dirs_kept w) as K1. rewrite H1 in K1.
  pose proof (codesearchnet_touches w) as T1. rewrite H1 in T1. cbn [snd] in K1, T1.
  pose proof (dir_chain_kept _ _ _ K1 B0) as B1.
  apply (nothing_below_kept _ _ _ _ T1) in N2; [|incomparable].
  apply (nothing_below_kept _ _ _ _ T1) in N3; [|incomparable].
  apply (nothing_below_kept _ _ _ _ T1) in N4; [|incomparable].
  apply (nothing_below_kept _ _ _ _ T1) in N5; [|incomparable].
  apply (nothing_below_kept _ _ _ _ T1) in N6; [|incomparable].
  (* 2 *)
  destruct (stackoverflow_returns w1) as (w2 & H2).
  { apply creatable_child; [done|by apply nothing_below_self]. }
  { by rewrite nothing_below_child. }
  { by rewrite nothing_below_child. }
  pose proof (stackoverflow_dirs_kept w1) as K2. rewrite H2 in K2.
  pose proof (stackoverflow_touches w1) as T2. rewrite H2 in T2. cbn [snd] in K2, T2.
  pose proof (dir_chain_kept _ _ _ K2 B1) as B2.
  apply (nothing_below_kept _ _ _ _ T2) in N3; [|incomparable].
  apply (nothing_below_kept _ _ _ _ T2) in N4; [|incomparable].
  apply (nothing_below_kept _ _ _ _ T2) in N5; [|incomparable].
  apply (nothing_below_kept _ _ _ _ T2) in N6; [|incomparable].
  (* 3 *)
  destruct (conala_routine_all_fail http w2 Hfail) as (w3 & H3 & S3 & _ & T3).
  { intros item _. by apply nothing_below_child. }
  { apply creatable_child; [done|by apply nothing_below_self]. }
  { unfold synthetic_file. by rewrite nothing_below_child. }
  pose proof (conala_dirs_kept http w2) as K3. rewrite H3 in K3. cbn [snd] in K3.
  pose proof (dir_chain_kept _ _ _ K3 B2) as B3.
  apply (nothing_below_kept _ _ _ _ T3) in N4; [|incomparable].
  apply (nothing_below_kept _ _ _ _ T3) in N5; [|incomparable].
  apply (nothing_below_kept _ _ _ _ T3) in N6; [|incomparable].
  (* 4 *)
  destruct (pytorch_absent w3) as (w4 & H4 & E4); [by apply nothing_below_self|].
  rewrite <- E4 in B3, N4, N5, N6, S3.
  (* 5 *)
  destruct (python_docs_all_fail http unzip Hfail w4) as (w5 & H5 & _ & R5).
  { apply creatable_child; [done|by apply nothing_below_self]. }
  { unfold extract_dir. by apply nothing_below_child. }
  { by rewrite nothing_below_child. }
  pose proof (python_docs_dirs_kept http unzip w4) as K5. rewrite H5 in K5.
  pose proof (python_docs_touches http unzip w4) as T5. rewrite H5 in T5.
  cbn [snd] in K5, T5.
  pose proof (dir_chain_kept _ _ _ K5 B3) as B5.
  apply (nothing_below_kept _ _ _ _ T5) in N4; [|incomparable].
  apply (nothing_below_kept _ _ _ _ T5) in N6; [|incomparable].
  (* 6 *)
  destruct (combined_returns w5) as (w6 & H6).
  { apply creatable_child; [done|by apply nothing_below_self]. }
  { by rewrite nothing_below_child. }
  pose proof (combined_touches w5) as T6. rewrite H6 in T6. cbn [snd] in T6.
  apply (nothing_below_kept _ _ _ _ T6) in N4; [|incomparable].
  exists w6. split_and!.
  - unfold acquisition_sequence.
    rewrite (bind_run _ _ _ _ _ H1), (bind_run _ _ _ _ _ H2),
      (bind_run _ _ _ _ _ H3), (bind_run _ _ _ _ _ H4), (bind_run _ _ _ _ _ H5).
    exact H6.
  - rewrite T6, T5 by incomparable. exact S3.
  - rewrite T6 by incomparable. exact R5.
  - by apply nothing_below_self.
Qed.

(** The lines [main] prints once the reporter has judged the data
    sufficient. *)
Definition ready_lines : list string :=
  [ (nl +:+ rule) +:+ nl;
    "✅ SUCCESS! You're ready to start building!" +:+ nl;
    rule +:+ nl;
    (nl +:+ "Next steps:") +:+ nl;
    "  1. Review data/raw/combined/README.md" +:+ nl;
    "  2. Create preprocessing script to combine sources" +:+ nl;
    "  3. Start building your retrieval system!" +:+ nl;
    (nl +:+ "💡 TIP: This approach is BETTER than downloading huge datasets") +:+ nl;
    "   because you fully understand and control your data!" +:+ nl ].

(** What [main] writes before it runs the routines: its banner and
    the prompt. *)
Definition banner_lines : list string :=
  [ rule +:+ nl;
    "TechDoc-QA-CodeGen - Smart Dataset Strategy" +:+ nl;
    rule +:+ nl;
    (nl +:+ "This version uses a BETTER approach:") +:+ nl;
    "  • Curated, high-quality data" +:+ nl;
    "  • No authentication issues" +:+ nl;
    "  • Sufficient for all project requirements" +:+ nl;
    "  • Great for learning!" +:+ nl;
    nl +:+ "Press Enter to proceed..." ].

Lemma available_count_five f :
  available f codesearchnet_dir -> available f stackoverflow_dir ->
  available f conala_dir -> ~ available f tutorials_dir ->
  available f python_docs_dir -> available f combined_dir ->
  available_count f datasets = 5.
Proof.
  intros H1 H2 H3 H4 H5 H6. unfold datasets.
  rewrite !available_count_cons. cbn [snd].
  fold codesearchnet_dir stackoverflow_dir conala_dir tutorials_dir
    python_docs_dir combined_dir.
  rewrite (decide_True (P := available f codesearchnet_dir)) by done.
  rewrite (decide_True (P := available f stackoverflow_dir)) by done.
  rewrite (decide_True (P := available f conala_dir)) by done.
  rewrite (decide_False (P := available f tutorials_dir)) by done.
  rewrite (decide_True (P := available f python_docs_dir)) by done.
  rewrite (decide_True (P := available f combined_dir)) by done.
  reflexivity.
Qed.

(** The whole script in such a root, with a line to read: it returns,
    five of the six listed directories are available at the end, and
    the report says so. *)
Lemma script_all_fail w :
  fresh_output_root (fs w) -> stdin w <> [] ->
  exists w' pre,
    script http unzip w = (Return tt, w') /\
    available_count (fs w') datasets = 5 /\
    stdout w' = stdout w ++ pre ++ verification_report (fs w') ++ ready_lines /\
    ("Total Available: 5/6" +:+ nl) ∈ verification_report (fs w') /\
    fs w' !! tutorials_dir = None.
Proof.
  intros [Hc Hfresh] Hin. unfold script.
  destruct (mkdir_returns BASE_DIR w Hc) as (w0 & Hmk & B0).
  pose proof (mkdir_touches_in (fun q => q `prefix_of` BASE_DIR) BASE_DIR
                (fun q H => H) w) as T0.
  pose proof (mkdir_stdout_extends BASE_DIR w) as [out0 O0].
  pose proof (mkdir_stdin_kept BASE_DIR w) as I0.
  rewrite Hmk in T0, O0, I0. cbn [snd] in T0, O0, I0. unfold stdin_kept in I0.
  rewrite (bind_run _ _ _ _ _ Hmk). unfold main. rewrite !bind_print'.
  destruct (stdin w0) as [|line rest] eqn:E; [congruence|].
  lazymatch goal with
  | |- context [bind (input ?p) _ ?w1] =>
      rewrite (bind_run _ _ _ _ _ (input_run p w1 line rest E))
  end.
  lazymatch goal with
  | |- context [try_except _ _ ?w1] => set (wi := w1)
  end.
  destruct (acquisition_all_fail wi) as (w1 & Hacq & S3 & R5 & N4).
  { exact B0. }
  { intros item Hitem. apply (nothing_below_mkdir BASE_DIR _ w); [exact T0| |by apply Hfresh].
    unfold datasets in Hitem.
    repeat (apply elem_of_cons in Hitem as [->|Hitem]);
      [..|by apply elem_of_nil in Hitem];
      intros [k Hk]; vm_compute in Hk; discriminate Hk. }
  pose proof (acquisition_stdout_extends http unzip wi) as [out1 O1].
  rewrite Hacq in O1. cbn [snd] in O1.
  destruct (acquisition_Return_inv http unzip wi w1 Hacq)
    as (D1 & R1 & D2 & S2 & O2 & D3 & F4 & D5 & D6 & R6).
  assert (Hcount : available_count (fs w1) datasets = 5).
  { apply available_count_five; try by eapply available_intro.
    intros [[n Hn] _]. congruence. }
  assert (Hnf : no_regular_file (fs w1) datasets).
  { intros item c Hitem. unfold datasets in Hitem.
    repeat (apply elem_of_cons in Hitem as [->|Hitem]); cbn [snd];
      [..|by apply elem_of_nil in Hitem];
      fold codesearchnet_dir stackoverflow_dir conala_dir tutorials_dir
        python_docs_dir combined_dir; congruence. }
  rewrite (try_bind_run _ _ _ _ _ _ Hacq).
  rewrite (try_bind_run _ _ _ _ _ _ (final_verification_run w1 Hnf)).
  rewrite Hcount. change (3 <=? 5) with true. cbv iota.
  rewrite !try_bind_print. unfold try_except. rewrite print_run'.
  eexists _, (out0 ++ banner_lines ++ out1). split; [reflexivity|].
  cbn [fs stdout with_output]. split; [exact Hcount|]. split.
  - rewrite O1. subst wi. cbn [stdout with_output]. rewrite O0.
    unfold ready_lines, banner_lines. rewrite <- !app_assoc. reflexivity.
  - split; [|exact N4]. unfold verification_report. rewrite Hcount.
    apply elem_of_app. right. apply elem_of_app. right. apply elem_of_app. left.
    apply list_elem_of_further, list_elem_of_here.
Qed.

End AllFail.

(** A world with one empty line to read and nothing on disk. *)
Definition world_with_enter : world := World ∅ [EmptyString] [] [].

(** A world in which the output root [data/raw] exists and is empty. *)
Definition world_with_output_root : world :=
  World (<[ ["data"; "raw"] := Dir ]> (<[ ["data"] := Dir ]> ∅)) [] [] [].

Lemma fresh_output_root_empty : fresh_output_root ∅.
Proof.
  split.
  - intros q c _ _. rewrite lookup_empty. discriminate.
  - intros item _ q _. apply lookup_empty.
Qed.

Lemma output_root_chain : dir_chain (fs world_with_output_root) BASE_DIR.
Proof. apply dir_chain_base; vm_compute; reflexivity. Qed.

Lemma output_root_fresh item :
  item ∈ datasets -> nothing_below (fs world_with_output_root) item.2.
Proof.
  revert item. apply (listed_dirs (nothing_below (fs world_with_output_root))).
  split_and!; intros q [k ->]; cbn [fs world_with_output_root];
    (rewrite !lookup_insert_ne by (let H := fresh in
                                   intros H; vm_compute in H; discriminate H));
    apply lookup_empty.
Qed.

(** C3, as the code has it: on the combined script, starting from an
    output root with none of the six listed directories present, if
    every request fails (and there is a line to read at the prompt) the
    run terminates normally, and the final summary reports 5 of the 6
    directories as available, not fewer than 3: codesearchnet,
    stackoverflow and combined hold their literal files, conala its
    synthetic file and python_docs its note; only the tutorials are
    missing.  The judgement is success. *)
Theorem C3_all_requests_fail_five_available
    (http : nat -> string -> http_outcome)
    (unzip : string -> exn + list (path * zip_member)) (w : world) :
  (forall n url, http_fails (http n url)) ->
  fresh_output_root (fs w) ->
  stdin w <> [] ->
  exists w' pre,
    script http unzip w = (Return tt, w') /\
    available_count (fs w') datasets = 5 /\
    ~ available_count (fs w') datasets < 3 /\
    stdout w' = stdout w ++ pre ++ verification_report (fs w') ++ ready_lines /\
    ("Total Available: 5/6" +:+ nl) ∈ verification_report (fs w') /\
    fs w' !! (BASE_DIR ++ ["pytorch_docs"; "tutorials"]) = None.
Proof.
  intros Hfail Hfresh Hin.
  destruct (script_all_fail http unzip Hfail w Hfresh Hin)
    as (w' & pre & Hrun & Hcount & Hout & Hline & Hnone).
  exists w', pre. split; [exact Hrun|]. split; [exact Hcount|].
  split; [rewrite Hcount; lia|]. split; [exact Hout|]. split; [exact Hline|].
  exact Hnone.
Qed.

Lemma C3_witness :
  fresh_output_root (fs world_with_enter) /\
  exists w',
    script net_down no_zip world_with_enter = (Return tt, w') /\
    available_count (fs w') datasets = 5.
Proof.
  split; [exact fresh_output_root_empty|].
  destruct (C3_all_requests_fail_five_available net_down no_zip world_with_enter)
    as (w' & pre & Hrun & Hcount & _).
  - intros n url. exact I.
  - exact fresh_output_root_empty.
  - discriminate.
  - exists w'. split; [exact Hrun|exact Hcount].
Defined.

(** C3 as claimed fails: with nothing on disk and the network down, the
    run returns normally and its final summary reports 5 of the 6
    directories as available, which is not fewer than 3. *)
Lemma C3_counterexample :
  (forall n url, http_fails (net_down n url)) /\
  (forall item, item ∈ datasets -> nothing_below (fs world_with_enter) item.2) /\
  exists w',
    script net_down no_zip world_with_enter = (Return tt, w') /\
    ("Total Available: 5/6" +:+ nl) ∈ stdout w' /\
    ~ available_count (fs w') datasets < 3.
Proof.
  split; [intros n url; exact I|].
  split; [apply fresh_output_root_empty|].
  destruct (script_all_fail net_down no_zip (fun _ _ => I) world_with_enter
              fresh_output_root_empty)
    as (w' & pre & Hrun & Hcount & Hout & Hline & _); [discriminate|].
  exists w'. split; [exact Hrun|]. split; [|rewrite Hcount; lia].
  rewrite Hout. apply elem_of_app. right. apply elem_of_app. right.
  apply elem_of_app. left. exact Hline.
Qed.

Lemma C4_witness :
  exists w1,
    acquisition_sequence net_down no_zip world_with_output_root = (Return tt, w1) /\
    3 <= available_count (fs w1) datasets /\
    exists w2, final_verification w1 = (Return true, w2).
Proof.
  destruct (acquisition_all_fail net_down no_zip (fun _ _ => I)
              world_with_output_root output_root_chain output_root_fresh)
    as (w1 & Hrun & _).
  exists w1. split; [exact Hrun|].
  destruct (C4_three_directories_always_available net_down no_zip
              world_with_output_root w1 Hrun)
    as (_ & _ & _ & _ & _ & _ & _ & Hcount & Hfinal).
  split; [exact Hcount|exact Hfinal].
Defined.

(** ** C7, C8: what the routines catch and what they fetch *)

(** A regular file where the last component of a directory is to be
    made. *)
Lemma makedirs_blocked todo : forall pre full x c w,
  (forall t, t `prefix_of` todo -> t <> [] -> fs w !! (pre ++ t) = Some Dir) ->
  fs w !! (pre ++ todo ++ [x]) = Some (File c) ->
  makedirs pre (todo ++ [x]) full w = (Raise (FileExistsError full), w).
Proof.
  induction todo as [|a todo IH]; intros pre full x c w Hd Hf.
  - simpl app. rewrite makedirs_step. simpl in Hf. rewrite Hf. reflexivity.
  - simpl app. rewrite makedirs_step.
    rewrite (Hd [a]); [|by apply prefix_cons, prefix_nil|done].
    apply (IH _ _ _ c).
    + intros t Ht Hne. rewrite <- app_assoc. apply Hd; [by apply prefix_cons|done].
    + by rewrite <- app_assoc.
Qed.

Lemma mkdir_blocked (d : path) x c w :
  dir_chain (fs w) d -> fs w !! (d ++ [x]) = Some (File c) ->
  mkdir_parents_exist_ok (d ++ [x]) w = (Raise (FileExistsError (d ++ [x])), w).
Proof.
  intros Hd Hf. unfold mkdir_parents_exist_ok.
  apply (makedirs_blocked d [] _ x c); [intros t Ht Hne; by apply Hd|exact Hf].
Qed.

(** [m] returns a flag, and [False] comes with the line [line e] for
    some exception [e] as the last one printed. *)
Definition returns_flag (m : M bool) (line : exn -> string) (w : world) : Prop :=
  exists b w',
    m w = (Return b, w') /\
    (b = false -> exists e out, stdout w' = out ++ [line e]).

(** The message of the handlers of the selector script. *)
Definition failed_line (e : exn) : string := ("✗ Failed: " +:+ exn_str e) +:+ nl.

(** [m] returns a flag, and the first effect it logs is the request
    [req], its only one. *)
Definition fetches_once (m : M bool) (req : request) (w : world) : Prop :=
  exists b w' evs,
    m w = (Return b, w') /\
    events w' = events w ++ EvRequest req :: evs /\
    Forall (fun ev => ~ is_request ev) evs.

Lemma routine_returns_flag hub (routine : M bool) req save_path w :
  routine_spec hub routine req save_path -> returns_flag routine failed_line w.
Proof.
  intros Hspec. destruct (Hspec w) as (b & w' & Hrun & _ & Hmsg & _).
  exists b, w'. split; [exact Hrun|exact Hmsg].
Qed.

Lemma routine_fetches_once hub (routine : M bool) req save_path w :
  routine_spec hub routine req save_path -> fetches_once routine req w.
Proof.
  intros Hspec. destruct (Hspec w) as (b & w' & Hrun & (evs & Hev & Hall) & _).
  exists b, w', evs. done.
Qed.

Lemma codesearchnet_blocked w c :
  dir_chain (fs w) BASE_DIR -> fs w !! codesearchnet_dir = Some (File c) ->
  exists w',
    download_codesearchnet_github w = (Raise (FileExistsError codesearchnet_dir), w').
Proof.
  intros Hd Hf. unfold download_codesearchnet_github. cbv zeta.
  fold codesearchnet_dir. rewrite !bind_print'.
  eexists. apply bind_run_Raise. by apply (mkdir_blocked BASE_DIR _ c).
Qed.

Lemma stackoverflow_blocked w c :
  dir_chain (fs w) BASE_DIR -> fs w !! stackoverflow_dir = Some (File c) ->
  exists w',
    download_stackoverflow_csv w = (Raise (FileExistsError stackoverflow_dir), w').
Proof.
  intros Hd Hf. unfold download_stackoverflow_csv. cbv zeta.
  fold stackoverflow_dir. rewrite !bind_print'.
  eexists. apply bind_run_Raise. by apply (mkdir_blocked BASE_DIR _ c).
Qed.

Lemma combined_blocked w c :
  dir_chain (fs w) BASE_DIR -> fs w !! combined_dir = Some (File c) ->
  exists w', create_combined_dataset w = (Raise (FileExistsError combined_dir), w').
Proof.
  intros Hd Hf. unfold create_combined_dataset. cbv zeta.
  fold combined_dir. rewrite !bind_print'.
  eexists. apply bind_run_Raise. by apply (mkdir_blocked BASE_DIR _ c).
Qed.

Lemma combined_no_request :
  preserves (logs_only (fun ev => ~ is_request ev)) create_combined_dataset.
Proof. unfold create_combined_dataset. pres_routine. Qed.

(** A world in which a regular file sits where the Stack Overflow
    directory is to be made. *)
Definition world_with_blocking_file : world :=
  World (<[ ["data"; "raw"; "stackoverflow"] := File "not a directory" ]>
          (<[ ["data"; "raw"] := Dir ]> (<[ ["data"] := Dir ]> ∅)))
        [""] [] [].



(** C8, as the code has it.  Each routine of the selector script
    returns a flag, and the first effect it logs is its one request to
    the hub, so that nothing is persisted before it.  In the combined
    script the routines for CodeSearchNet and Stack Overflow and the
    one that writes the strategy document make no request at all, and
    the tutorials check does nothing but print; the first two return
    the path of their directory, not a flag, once their literal files
    are written. *)
Theorem C8_which_routines_fetch
    (hub : nat -> request -> DownloadDataset.hub_outcome)
    (native_format : DownloadDataset.dataset -> list (string * string))
    (w : world) :
  fetches_once (DownloadDataset.download_code_alpaca hub native_format)
    (HubLoad "sahil2801/CodeAlpaca-20k" None "train") w /\
  fetches_once (DownloadDataset.download_python_instructions hub native_format)
    (HubLoad "Iamtarun/python_code_instructions_18k_alpaca" None "train") w /\
  fetches_once (DownloadDataset.download_mbpp hub native_format)
    (HubLoad "mbpp" (Some "sanitized") "train") w /\
  logs_only (fun ev => ~ is_request ev) w (download_codesearchnet_github w).2 /\
  logs_only (fun ev => ~ is_request ev) w (download_stackoverflow_csv w).2 /\
  logs_only (fun ev => ~ is_request ev) w (create_combined_dataset w).2 /\
  prints_only w (verify_pytorch_tutorials w).2 /\
  (forall p w',
     download_codesearchnet_github w = (Return p, w') ->
     p = BASE_DIR ++ ["codesearchnet"] /\
     fs w' !! (BASE_DIR ++ ["codesearchnet"; "README.txt"]) =
       Some (File codesearchnet_readme)) /\
  (forall p w',
     download_stackoverflow_csv w = (Return p, w') ->
     p = BASE_DIR ++ ["stackoverflow"] /\
     fs w' !! (BASE_DIR ++ ["stackoverflow"; "stackoverflow_sample.json"]) =
       Some (File (dumps_indent2 (JArr sample_data)))).
Proof.
  split; [eapply routine_fetches_once, download_code_alpaca_spec|].
  split; [eapply routine_fetches_once, download_python_instructions_spec|].
  split; [eapply routine_fetches_once, download_mbpp_spec|].
  split; [apply codesearchnet_no_request|].
  split; [apply stackoverflow_no_request|].
  split; [apply combined_no_request|].
  split; [apply pytorch_prints_only|].
  split.
  - intros p w' Hrun. apply codesearchnet_Return_inv in Hrun as (-> & _ & Hr). done.
  - intros p w' Hrun. apply stackoverflow_Return_inv in Hrun as (-> & _ & Hs & _).
    done.
Qed.

(** C8 as claimed fails: the CodeSearchNet routine of the combined
    script persists its file after making three directories, with no
    request at all, and what it returns is a path. *)
Lemma C8_counterexample :
  exists w',
    download_codesearchnet_github empty_world =
      (Return ["data"; "raw"; "codesearchnet"], w') /\
    events w' =
      [ EvMkdir ["data"]; EvMkdir ["data"; "raw"];
        EvMkdir ["data"; "raw"; "codesearchnet"];
        EvWrite ["data"; "raw"; "codesearchnet"; "README.txt"] ] /\
    fs w' !! ["data"; "raw"; "codesearchnet"; "README.txt"] =
      Some (File codesearchnet_readme).
Proof. eexists. split; [vm_compute; reflexivity|]. split; vm_compute; reflexivity. Qed.

(* ================================================================== *)
(** * Further properties of the two scripts                            *)
(* ================================================================== *)

(** ** The download helper of the combined script *)

(** A network on which every response arrives whole, with the same
    body. *)
Definition net_up : nat -> string -> http_outcome :=
  fun _ _ => HttpBody ["<html>"; "</html>"] None.

(** A network on which every response breaks off after its first
    chunk. *)
Definition net_flaky : nat -> string -> http_outcome :=
  fun _ _ => HttpBody ["<html>"]
               (Some (PyExn "ChunkedEncodingError" "Connection broken")).

Lemma makedirs_noop todo : forall pre full w,
  (forall t, t `prefix_of` todo -> t <> [] -> fs w !! (pre ++ t) = Some Dir) ->
  makedirs pre todo full w = (Return tt, w).
Proof.
  induction todo as [|a todo IH]; intros pre full w Hd; [done|].
  rewrite makedirs_step.
  rewrite (Hd [a]); [|by apply prefix_cons, prefix_nil|done].
  apply IH. intros t Ht Hne. rewrite <- app_assoc.
  apply Hd; [by apply prefix_cons|done].
Qed.

(** Making a directory that is there, below directories, changes
    nothing. *)
Lemma mkdir_noop (p : path) w :
  dir_chain (fs w) p -> mkdir_parents_exist_ok p w = (Return tt, w).
Proof. intros Hd. apply makedirs_noop. intros t Ht Hne. by apply Hd. Qed.

Section DownloadHelper.
Context (http : nat -> string -> http_outcome).

Lemma download_whole url (d : path) x chunks w :
  http (length (events w)) url = HttpBody chunks None ->
  dir_chain (fs w) d ->
  fs w !! (d ++ [x]) <> Some Dir ->
  download_file_with_progress http url (d ++ [x]) w =
  (Return true,
   after_write (d ++ [x]) (String.concat "" chunks) (after_request (HttpGet url) w)).
Proof.
  intros Hresp Hd Hnd. unfold download_file_with_progress.
  rewrite (try_bind_run _ _ _ _ _ _ (requests_get_run http url w)).
  rewrite Hresp.
  rewrite (try_bind_run _ _ _ _ _ _
             (open_write_run d x _ (after_request (HttpGet url) w) Hd Hnd)).
  reflexivity.
Qed.

Lemma download_broken url (d : path) x chunks e w :
  http (length (events w)) url = HttpBody chunks (Some e) ->
  dir_chain (fs w) d ->
  fs w !! (d ++ [x]) <> Some Dir ->
  download_file_with_progress http url (d ++ [x]) w =
  (Return false,
   with_output [error_line e]
     (after_write (d ++ [x]) (String.concat "" chunks)
        (after_request (HttpGet url) w))).
Proof.
  intros Hresp Hd Hnd. unfold download_file_with_progress.
  rewrite (try_bind_run _ _ _ _ _ _ (requests_get_run http url w)).
  rewrite Hresp.
  rewrite (try_bind_run _ _ _ _ _ _
             (open_write_run d x _ (after_request (HttpGet url) w) Hd Hnd)).
  reflexivity.
Qed.

Lemma download_refused url dest e w :
  http (length (events w)) url = HttpError e ->
  download_file_with_progress http url dest w =
  (Return false, with_output [error_line e] (after_request (HttpGet url) w)).
Proof.
  intros Hresp. unfold download_file_with_progress.
  rewrite (try_bind_run _ _ _ _ _ _ (requests_get_run http url w)).
  rewrite Hresp. reflexivity.
Qed.

End DownloadHelper.

(** X1: when the response to the request arrives whole and the
    destination can be opened (its directory exists and no directory
    sits at the destination path), the helper returns [True], the
    destination holds the chunks of the body joined in order, one
    request and then one write are logged, and nothing is printed. *)
Theorem download_whole_response_is_stored
    (http : nat -> string -> http_outcome) (url : string) (d : path)
    (x : string) (chunks : list string) (w : world) :
  http (length (events w)) url = HttpBody chunks None ->
  dir_chain (fs w) d ->
  fs w !! (d ++ [x]) <> Some Dir ->
  exists w',
    download_file_with_progress http url (d ++ [x]) w = (Return true, w') /\
    fs w' = <[d ++ [x] := File (String.concat "" chunks)]> (fs w) /\
    fs w' !! (d ++ [x]) = Some (File (String.concat "" chunks)) /\
    events w' = events w ++ [EvRequest (HttpGet url); EvWrite (d ++ [x])] /\
    stdout w' = stdout w.
Proof.
  intros Hresp Hd Hnd. eexists. split; [by apply download_whole|].
  cbn [fs events stdout after_write after_request].
  split; [reflexivity|]. split; [apply lookup_insert_eq|].
  split; [by rewrite <- app_assoc|reflexivity].
Qed.

Lemma download_whole_response_is_stored_witness :
  exists w',
    download_file_with_progress net_up "https://docs.python.org/3.11/"
      (BASE_DIR ++ ["index.html"]) world_with_output_root = (Return true, w') /\
    fs w' !! (BASE_DIR ++ ["index.html"]) = Some (File "<html></html>").
Proof.
  destruct (download_whole_response_is_stored net_up
              "https://docs.python.org/3.11/" BASE_DIR "index.html"
              ["<html>"; "</html>"] world_with_output_root)
    as (w' & Hrun & _ & Hfile & _).
  - reflexivity.
  - exact output_root_chain.
  - vm_compute. discriminate.
  - exists w'. split; [exact Hrun|exact Hfile].
Defined.

(** X2: when the response breaks off while its body is read, the helper
    prints the error and returns [False], and the destination is left
    holding the part that was received: nothing removes the partial
    file. *)
Theorem download_broken_stream_leaves_partial_file
    (http : nat -> string -> http_outcome) (url : string) (d : path)
    (x : string) (chunks : list string) (e : exn) (w : world) :
  http (length (events w)) url = HttpBody chunks (Some e) ->
  dir_chain (fs w) d ->
  fs w !! (d ++ [x]) <> Some Dir ->
  exists w',
    download_file_with_progress http url (d ++ [x]) w = (Return false, w') /\
    fs w' !! (d ++ [x]) = Some (File (String.concat "" chunks)) /\
    events w' = events w ++ [EvRequest (HttpGet url); EvWrite (d ++ [x])] /\
    stdout w' = stdout w ++ [("✗ Error: " +:+ exn_str e) +:+ nl].
Proof.
  intros Hresp Hd Hnd. eexists. split; [by apply download_broken|].
  cbn [fs events stdout after_write after_request with_output].
  split; [apply lookup_insert_eq|].
  split; [by rewrite <- app_assoc|reflexivity].
Qed.

Lemma download_broken_stream_leaves_partial_file_witness :
  exists w',
    download_file_with_progress net_flaky "https://docs.python.org/3.11/"
      (BASE_DIR ++ ["index.html"]) world_with_output_root = (Return false, w') /\
    fs w' !! (BASE_DIR ++ ["index.html"]) = Some (File "<html>").
Proof.
  destruct (download_broken_stream_leaves_partial_file net_flaky
              "https://docs.python.org/3.11/" BASE_DIR "index.html"
              ["<html>"] (PyExn "ChunkedEncodingError" "Connection broken")
              world_with_output_root)
    as (w' & Hrun & Hfile & _).
  - reflexivity.
  - exact output_root_chain.
  - vm_compute. discriminate.
  - exists w'. split; [exact Hrun|exact Hfile].
Defined.

(** X3: when the request itself fails, the helper prints the error and
    returns [False] without opening the destination: the file system is
    unchanged, so a file already at the destination keeps its content,
    and the request is the only effect logged. *)
Theorem download_failed_request_keeps_file_system
    (http : nat -> string -> http_outcome) (url : string) (dest : path)
    (e : exn) (w : world) :
  http (length (events w)) url = HttpError e ->
  exists w',
    download_file_with_progress http url dest w = (Return false, w') /\
    fs w' = fs w /\
    events w' = events w ++ [EvRequest (HttpGet url)] /\
    stdout w' = stdout w ++ [("✗ Error: " +:+ exn_str e) +:+ nl].
Proof.
  intros Hresp. eexists. split; [by apply download_refused|]. done.
Qed.

Lemma download_failed_request_keeps_file_system_witness :
  exists w',
    download_file_with_progress net_down
      "https://docs.python.org/3.11/"
      ["data"; "raw"; "conala"; "conala-train.json"] world_with_stale_file =
      (Return false, w') /\
    fs w' !! ["data"; "raw"; "conala"; "conala-train.json"] = Some (File "stale").
Proof.
  destruct (download_failed_request_keeps_file_system net_down
              "https://docs.python.org/3.11/"
              ["data"; "raw"; "conala"; "conala-train.json"]
              (PyExn "ConnectionError" "network is unreachable")
              world_with_stale_file eq_refl)
    as (w' & Hrun & Hfs & _).
  exists w'. split; [exact Hrun|]. rewrite Hfs. vm_compute. reflexivity.
Defined.

(** ** The CoNaLa loop when downloads succeed *)

Section ConalaDownloads.
Context (http : nat -> string -> http_outcome).

(** The primary URL answers: the iteration ends there. *)
Lemma conala_body_primary (d : path) success filename url chunks w :
  fs w !! (d ++ [filename]) = None ->
  http (length (events w)) url = HttpBody chunks None ->
  dir_chain (fs w) d ->
  conala_loop_body http d success (filename, url) w =
  (Return (success + 1),
   after_write (d ++ [filename]) (String.concat "" chunks)
     (after_request (HttpGet url)
        (with_output [(nl +:+ "Downloading " +:+ filename +:+ "...") +:+ nl] w))).
Proof.
  intros Habs Hresp Hd. unfold conala_loop_body.
  rewrite (bind_run _ _ _ _ _ (path_exists_run _ w)).
  rewrite bool_decide_eq_false_2 by (rewrite Habs; by intros [? ?]).
  rewrite bind_print'.
  lazymatch goal with
  | |- context [bind (download_file_with_progress http _ _) _ ?w0] =>
      rewrite (bind_run _ _ _ _ _
                 (download_whole http url d filename chunks w0 Hresp Hd
                    ltac:(cbn [fs with_output]; congruence)))
  end.
  reflexivity.
Qed.

(** The primary URL refuses and the alternate one answers. *)
Lemma conala_body_alternate (d : path) success filename url e chunks w :
  fs w !! (d ++ [filename]) = None ->
  http (length (events w)) url = HttpError e ->
  http (S (length (events w))) (alt_base +:+ filename) = HttpBody chunks None ->
  dir_chain (fs w) d ->
  conala_loop_body http d success (filename, url) w =
  (Return (success + 1),
   after_write (d ++ [filename]) (String.concat "" chunks)
     (after_request (HttpGet (alt_base +:+ filename))
        (with_output ["Trying alternative URL..." +:+ nl]
           (with_output [error_line e]
              (after_request (HttpGet url)
                 (with_output
                    [(nl +:+ "Downloading " +:+ filename +:+ "...") +:+ nl] w)))))).
Proof.
  intros Habs Hresp Halt Hd. unfold conala_loop_body.
  rewrite (bind_run _ _ _ _ _ (path_exists_run _ w)).
  rewrite bool_decide_eq_false_2 by (rewrite Habs; by intros [? ?]).
  rewrite bind_print'.
  lazymatch goal with
  | |- context [bind (download_file_with_progress http _ ?dest) _ ?w0] =>
      rewrite (bind_run _ _ _ _ _ (download_refused http url dest e w0 Hresp))
  end.
  cbv iota. rewrite bind_print'.
  lazymatch goal with
  | |- context [bind (download_file_with_progress http ?u _) _ ?w0] =>
      rewrite (bind_run _ _ _ _ _ (download_whole http u d filename chunks w0
                 ltac:(cbn [events with_output after_request];
                       rewrite length_app, Nat.add_comm; exact Halt)
                 Hd ltac:(cbn [fs with_output after_request]; congruence)))
  end.
  reflexivity.
Qed.

End ConalaDownloads.

(** X4: in the CoNaLa loop, for a file that is not on disk and whose
    primary URL answers with a whole response, the iteration stores the
    body at the destination and adds one to the counter; the only
    request it makes is the one to the primary URL, the alternate URL
    is not tried. *)
Theorem conala_primary_success_skips_alternate
    (http : nat -> string -> http_outcome) (d : path) (success : Z)
    (filename url : string) (chunks : list string) (w : world) :
  fs w !! (d ++ [filename]) = None ->
  http (length (events w)) url = HttpBody chunks None ->
  dir_chain (fs w) d ->
  exists w',
    conala_loop_body http d success (filename, url) w = (Return (success + 1), w') /\
    fs w' !! (d ++ [filename]) = Some (File (String.concat "" chunks)) /\
    events w' =
      events w ++ [EvRequest (HttpGet url); EvWrite (d ++ [filename])].
Proof.
  intros Habs Hresp Hd. eexists. split; [by apply conala_body_primary|].
  cbn [fs events after_write after_request with_output].
  split; [apply lookup_insert_eq|by rewrite <- app_assoc].
Qed.

Lemma conala_primary_success_skips_alternate_witness :
  exists w',
    conala_loop_body net_up BASE_DIR 0
      ("conala-train.json", "https://raw.githubusercontent.com/conala-corpus/conala-corpus/master/conala-train.json")
      world_with_output_root = (Return 1, w') /\
    fs w' !! (BASE_DIR ++ ["conala-train.json"]) = Some (File "<html></html>").
Proof.
  destruct (conala_primary_success_skips_alternate net_up BASE_DIR 0
              "conala-train.json"
              "https://raw.githubusercontent.com/conala-corpus/conala-corpus/master/conala-train.json"
              ["<html>"; "</html>"] world_with_output_root)
    as (w' & Hrun & Hfile & _).
  - vm_compute. reflexivity.
  - reflexivity.
  - exact output_root_chain.
  - exists w'. split; [exact Hrun|exact Hfile].
Defined.

(** A network on which only the alternate location answers. *)
Definition net_alternate_only : nat -> string -> http_outcome :=
  fun _ url =>
    match drop_prefix alt_base url with
    | Some _ => HttpBody ["[]"] None
    | None => HttpError (PyExn "HTTPError" "404 Client Error")
    end.

(** X5: in the CoNaLa loop, for a file that is not on disk, when the
    request to the primary URL fails and the one to the alternate URL
    (the fixed base followed by the file name) answers whole, the
    iteration stores the body of the alternate response and adds one to
    the counter; the two requests are made in that order. *)
Theorem conala_alternate_used_after_primary_failure
    (http : nat -> string -> http_outcome) (d : path) (success : Z)
    (filename url : string) (e : exn) (chunks : list string) (w : world) :
  fs w !! (d ++ [filename]) = None ->
  http (length (events w)) url = HttpError e ->
  http (S (length (events w))) (alt_base +:+ filename) = HttpBody chunks None ->
  dir_chain (fs w) d ->
  exists w',
    conala_loop_body http d success (filename, url) w = (Return (success + 1), w') /\
    fs w' !! (d ++ [filename]) = Some (File (String.concat "" chunks)) /\
    events w' =
      events w ++ [EvRequest (HttpGet url);
                   EvRequest (HttpGet (alt_base +:+ filename));
                   EvWrite (d ++ [filename])].
Proof.
  intros Habs Hresp Halt Hd. eexists.
  split; [by eapply conala_body_alternate|].
  cbn [fs events after_write after_request with_output].
  split; [apply lookup_insert_eq|by rewrite <- !app_assoc].
Qed.

Lemma conala_alternate_used_after_primary_failure_witness :
  exists w',
    conala_loop_body net_alternate_only BASE_DIR 0
      ("conala-test.json", "https://raw.githubusercontent.com/conala-corpus/conala-corpus/master/conala-test.json")
      world_with_output_root = (Return 1, w') /\
    fs w' !! (BASE_DIR ++ ["conala-test.json"]) = Some (File "[]").
Proof.
  destruct (conala_alternate_used_after_primary_failure net_alternate_only
              BASE_DIR 0 "conala-test.json"
              "https://raw.githubusercontent.com/conala-corpus/conala-corpus/master/conala-test.json"
              (PyExn "HTTPError" "404 Client Error") ["[]"]
              world_with_output_root)
    as (w' & Hrun & Hfile & _).
  - vm_compute. reflexivity.
  - vm_compute. reflexivity.
  - vm_compute. reflexivity.
  - exact output_root_chain.
  - exists w'. split; [exact Hrun|exact Hfile].
Defined.

(** The requests and writes of a loop in which every primary URL
    answers. *)
Definition primary_events (d : path) (l : list (string * string)) : list event :=
  flat_map (fun item => [EvRequest (HttpGet item.2); EvWrite (d ++ [item.1])]) l.

Section ConalaAllAnswered.
Context (http : nat -> string -> http_outcome).
Hypothesis Hup : forall n url, exists chunks, http n url = HttpBody chunks None.

Lemma conala_loop_all_primary (d : path) l : forall s w,
  NoDup l.*1 ->
  (forall item, item ∈ l -> fs w !! (d ++ [item.1]) = None) ->
  dir_chain (fs w) d ->
  exists w',
    for_each (conala_loop_body http d) l s w =
      (Return (s + Z.of_nat (length l)), w') /\
    dir_chain (fs w') d /\
    (forall item, item ∈ l -> exists c, fs w' !! (d ++ [item.1]) = Some (File c)) /\
    touches_only (fun q => exists item, item ∈ l /\ q = d ++ [item.1]) w w' /\
    events w' = events w ++ primary_events d l.
Proof.
  induction l as [|[filename url] l IH]; intros s w Hnd Habs Hd.
  - exists w. split; [simpl; unfold ret; do 2 f_equal; lia|].
    split; [done|]. split; [intros item Hin; by apply elem_of_nil in Hin|].
    split; [by intros q _|]. simpl. by rewrite app_nil_r.
  - rewrite fmap_cons in Hnd. apply NoDup_cons in Hnd as [Hfresh Hnd].
    simpl for_each.
    assert (Hhead : fs w !! (d ++ [filename]) = None)
      by apply (Habs (filename, url)), list_elem_of_here.
    destruct (Hup (length (events w)) url) as [chunks Hresp].
    rewrite (bind_run _ _ _ _ _
               (conala_body_primary http d s filename url chunks w
                  Hhead Hresp Hd)).
    set (w1 := after_write _ _ _).
    destruct (IH (s + 1) w1 Hnd) as (w' & Hrun & Hd' & Hfiles & Ht & Hev).
    { intros item Hin. subst w1. cbn [fs after_write after_request with_output].
      rewrite lookup_insert_ne; [apply Habs; by right|].
      intros Heq. apply app_inj_tail in Heq as [_ Heq]. apply Hfresh.
      rewrite Heq. apply list_elem_of_fmap. by exists item. }
    { subst w1. cbn [fs after_write after_request with_output].
      apply dir_chain_after_write; [exact Hd|].
      rewrite Hhead. discriminate. }
    exists w'. split; [rewrite Hrun; do 2 f_equal; simpl length; lia|].
    split; [exact Hd'|]. split; [|split].
    + intros item Hin. apply elem_of_cons in Hin as [->|Hin]; [|by apply Hfiles].
      exists (String.concat "" chunks). rewrite Ht.
      * subst w1. cbn [fs after_write]. apply lookup_insert_eq.
      * intros (item & Hin & Heq). apply app_inj_tail in Heq as [_ Heq].
        apply Hfresh. simpl in Heq. rewrite Heq. apply list_elem_of_fmap.
        by exists item.
    + intros q Hq. rewrite Ht.
      * subst w1. cbn [fs after_write after_request with_output].
        apply lookup_insert_ne. intros <-. apply Hq.
        exists (filename, url). split; [by left|done].
      * intros (item & Hin & ->). apply Hq. exists item. split; [by right|done].
    + rewrite Hev. subst w1. cbn [events after_write after_request with_output].
      simpl. by rewrite <- !app_assoc.
Qed.

End ConalaAllAnswered.

(** Splits [item ∈ conala_files] into the three files of the table. *)
Ltac conala_file_cases H :=
  unfold conala_files in H;
  repeat (apply elem_of_cons in H as [->|H]); [..|by apply elem_of_nil in H].

(** X6: when none of the three CoNaLa files is on disk and every
    request is answered with a whole response, the routine downloads
    each file from its primary URL, in the order of the table, and
    returns its directory: the three files are on disk, three requests
    were made, and the synthetic file is not written. *)
Theorem conala_downloads_all_three_files
    (http : nat -> string -> http_outcome) (w : world) :
  (forall n url, exists chunks, http n url = HttpBody chunks None) ->
  (forall item, item ∈ conala_files ->
                fs w !! (BASE_DIR ++ ["conala"; item.1]) = None) ->
  creatable (fs w) (BASE_DIR ++ ["conala"]) ->
  exists w' made,
    download_conala_correct_urls http w = (Return (BASE_DIR ++ ["conala"]), w') /\
    (forall item, item ∈ conala_files ->
       exists c, fs w' !! (BASE_DIR ++ ["conala"; item.1]) = Some (File c)) /\
    fs w' !! (BASE_DIR ++ ["conala"; "conala-synthetic.json"]) =
      fs w !! (BASE_DIR ++ ["conala"; "conala-synthetic.json"]) /\
    events w' =
      events w ++ made ++ primary_events (BASE_DIR ++ ["conala"]) conala_files /\
    Forall (fun ev => exists q, ev = EvMkdir q) made /\
    exists out,
      stdout w' = out ++ [(nl +:+ "✓ Downloaded 3/3 CoNaLa files") +:+ nl].
Proof.
  intros Hup Habs Hcreate. unfold download_conala_correct_urls.
  rewrite !bind_print'. cbv zeta. fold conala_dir.
  set (w0 := with_output _ (with_output _ (with_output _ w))).
  destruct (mkdir_returns conala_dir w0 Hcreate) as (w1 & Hmk & Hchain).
  pose proof (mkdir_touches_in (fun q => q `prefix_of` conala_dir) conala_dir
                (fun q H => H) w0) as Ht0.
  pose proof (mkdir_logs (fun ev => exists q, ev = EvMkdir q) conala_dir
                (fun q => ex_intro _ q eq_refl) w0) as (made & Hev0 & Hmade).
  rewrite Hmk in Ht0, Hev0. cbn [snd] in Ht0, Hev0.
  rewrite (bind_run _ _ _ _ _ Hmk).
  destruct (conala_loop_all_primary http Hup conala_dir conala_files 0 w1)
    as (w2 & Hloop & _ & Hfiles & Ht1 & Hev1).
  { vm_compute. repeat constructor; rewrite ?elem_of_cons, ?elem_of_nil;
      intros H; repeat destruct H as [H|H]; try discriminate; done. }
  { intros item Hin. rewrite Ht0; [by apply (Habs item)|].
    conala_file_cases Hin; by intros [k [=]]. }
  { exact Hchain. }
  rewrite (bind_run _ _ _ _ _ Hloop).
  change (0 + Z.of_nat (length conala_files) =? 0) with false. cbv iota.
  rewrite bind_print'. unfold ret.
  exists (with_output
            [(nl +:+ "✓ Downloaded " +:+
              pretty (0 + Z.of_nat (length conala_files)) +:+ "/3 CoNaLa files") +:+ nl]
            w2), made.
  split; [reflexivity|]. cbn [fs events stdout with_output].
  split; [exact Hfiles|]. split; [|split; [|split]].
  - rewrite Ht1, Ht0; [done|by intros [k [=]]|].
    intros (item & Hin & Heq). conala_file_cases Hin; discriminate.
  - rewrite Hev1, Hev0. cbn [events with_output]. by rewrite <- app_assoc.
  - exact Hmade.
  - eexists. reflexivity.
Qed.

Lemma conala_downloads_all_three_files_witness :
  exists w',
    download_conala_correct_urls net_up empty_world =
      (Return (BASE_DIR ++ ["conala"]), w') /\
    fs w' !! (BASE_DIR ++ ["conala"; "conala-synthetic.json"]) = None.
Proof.
  destruct (conala_downloads_all_three_files net_up empty_world)
    as (w' & made & Hrun & _ & Hsyn & _).
  - intros n url. eexists. reflexivity.
  - intros item _. apply lookup_empty.
  - intros q c _ _. simpl. rewrite lookup_empty. discriminate.
  - exists w'. split; [exact Hrun|]. rewrite Hsyn. apply lookup_empty.
Defined.

(** ** The tutorials check and the documentation routine *)

(** A world in which the tutorials are on disk. *)
Definition world_with_tutorials : world :=
  World (<[ ["data"; "raw"; "pytorch_docs"; "tutorials"; "intro.py"] := File "import torch" ]>
          (<[ ["data"; "raw"; "pytorch_docs"; "tutorials"] := Dir ]>
            (<[ ["data"; "raw"; "pytorch_docs"] := Dir ]>
              (<[ ["data"; "raw"] := Dir ]> (<[ ["data"] := Dir ]> ∅)))))
        [] [] [].



Section DocsRoutine.
Context (http : nat -> string -> http_outcome).
Context (unzip : string -> exn + list (path * zip_member)).

Lemma extractall_bad_archive (zf d : path) c e w :
  fs w !! zf = Some (File c) -> unzip c = inl e ->
  extractall unzip zf d w = (Raise e, w).
Proof.
  intros Hf Hz. unfold extractall, read_file. rewrite bind_assoc, bind_get_fs.
  rewrite Hf, bind_ret, Hz. reflexivity.
Qed.

Lemma python_docs_present w :
  dir_chain (fs w) python_docs_dir ->
  available (fs w) extract_dir ->
  (forall c, fs w !! extract_dir <> Some (File c)) ->
  download_python_docs_correct http unzip w =
  (Return python_docs_dir,
   with_output
     [(nl +:+ rule) +:+ nl; "5. DOWNLOADING PYTHON DOCUMENTATION" +:+ nl;
      rule +:+ nl; ("✓ Python " +:+ version +:+ " docs already exist") +:+ nl] w).
Proof.
  intros Hd Ha Hnf. rewrite python_docs_unfold. rewrite !bind_print'.
  lazymatch goal with
  | |- context [bind (mkdir_parents_exist_ok _) _ ?w0] =>
      rewrite (bind_run _ _ _ _ _ (mkdir_noop python_docs_dir w0 Hd))
  end.
  unfold python_docs_rest.
  lazymatch goal with
  | |- context [bind (exists_and_nonempty ?d) _ ?w0] =>
      destruct (exists_and_nonempty_cases d w0) as [(c & Hc & _)|[_ Hrun]]
  end.
  { exfalso. by apply (Hnf c). }
  rewrite (bind_run _ _ _ _ _ Hrun). cbn [fs with_output].
  rewrite bool_decide_eq_true_2 by done.
  rewrite bind_print'. unfold ret. rewrite !with_output_app. reflexivity.
Qed.

Lemma python_docs_bad_archive chunks e w :
  dir_chain (fs w) python_docs_dir ->
  fs w !! extract_dir = None ->
  fs w !! zip_file <> Some Dir ->
  fs w !! (python_docs_dir ++ ["README.txt"]) <> Some Dir ->
  http (length (events w)) python_docs_url = HttpBody chunks None ->
  unzip (String.concat "" chunks) = inl e ->
  exists w',
    download_python_docs_correct http unzip w = (Return python_docs_dir, w') /\
    fs w' = <[python_docs_dir ++ ["README.txt"] := File python_docs_readme]>
              (<[zip_file := File (String.concat "" chunks)]> (fs w)) /\
    events w' = events w ++ [EvRequest (HttpGet python_docs_url); EvWrite zip_file;
                             EvWrite (python_docs_dir ++ ["README.txt"])] /\
    (("✗ Extraction error: " +:+ exn_str e) +:+ nl) ∈ stdout w'.
Proof.
  intros Hd Hex Hz Hr Hresp Hbad. rewrite python_docs_unfold. rewrite !bind_print'.
  lazymatch goal with
  | |- context [bind (mkdir_parents_exist_ok _) _ ?w0] =>
      rewrite (bind_run _ _ _ _ _ (mkdir_noop python_docs_dir w0 Hd))
  end.
  unfold python_docs_rest.
  lazymatch goal with
  | |- context [bind (exists_and_nonempty ?d) _ ?w0] =>
      destruct (exists_and_nonempty_cases d w0) as [(c & Hc & _)|[_ Hrun]]
  end.
  { cbn [fs with_output] in Hc. congruence. }
  rewrite (bind_run _ _ _ _ _ Hrun). cbn [fs with_output].
  rewrite bool_decide_eq_false_2 by (intros [[n Hn] _]; congruence).
  rewrite !bind_print'.
  lazymatch goal with
  | |- context [bind (download_file_with_progress http ?u _) _ ?w0] =>
      rewrite (bind_run _ _ _ _ _
                 (download_whole http u python_docs_dir "python-docs.zip" chunks w0
                    Hresp Hd Hz))
  end.
  cbv iota. rewrite bind_assoc, bind_print'.
  lazymatch goal with
  | |- context [bind (try_except (bind (extractall unzip ?zf ?d) ?k) ?h) _ ?w0] =>
      rewrite (bind_run _ _ _ _ _
                 (eq_trans (try_bind_Raise (extractall unzip zf d) k h w0 e w0
                              (extractall_bad_archive zf d _ e w0
                                 ltac:(cbn [fs after_write]; apply lookup_insert_eq)
                                 Hbad))
                           (eq_refl : h e w0 = (Return false, _))))
  end.
  cbv iota. rewrite !bind_print'.
  lazymatch goal with
  | |- context [bind (open_write _ ?c) _ ?w0] =>
      rewrite (bind_run _ _ _ _ _
                 (open_write_run python_docs_dir "README.txt" c w0
                    ltac:(cbn [fs with_output after_write after_request];
                          apply dir_chain_after_write; [exact Hd|exact Hz])
                    ltac:(cbn [fs with_output after_write after_request];
                          rewrite lookup_insert_ne by path_neq; exact Hr)))
  end.
  unfold ret. eexists. split; [reflexivity|].
  cbn [fs events stdout with_output after_write after_request].
  split; [reflexivity|]. split; [by rewrite <- !app_assoc|].
  apply elem_of_app. left. apply elem_of_app. left. apply elem_of_app. right.
  apply list_elem_of_here.
Qed.

End DocsRoutine.

(** Settles that every non-empty prefix of a path of literals is a
    directory in a file system of literals. *)
Ltac concrete_chain_go q Hk :=
  destruct q as [|? q];
  [ first [congruence | vm_compute; reflexivity]
  | simpl in Hk;
    first [ discriminate Hk | injection Hk as <- Hk; concrete_chain_go q Hk ] ].

Ltac concrete_chain :=
  let q := fresh "q" in
  let k := fresh "k" in
  let Hk := fresh "Hk" in
  intros q [k Hk] ?; cbv [python_docs_dir BASE_DIR] in Hk;
  concrete_chain_go q Hk.

(** A world in which the documentation has been extracted. *)
Definition world_with_python_docs : world :=
  World (<[ ["data"; "raw"; "python_docs"; "python-3.11"; "index.html"] := File "<html>" ]>
          (<[ ["data"; "raw"; "python_docs"; "python-3.11"] := Dir ]>
            (<[ ["data"; "raw"; "python_docs"] := Dir ]>
              (<[ ["data"; "raw"] := Dir ]> (<[ ["data"] := Dir ]> ∅)))))
        [] [] [].

(** A world in which the documentation directory is there and empty. *)
Definition world_with_docs_dir : world :=
  World (<[ ["data"; "raw"; "python_docs"] := Dir ]>
          (<[ ["data"; "raw"] := Dir ]> (<[ ["data"] := Dir ]> ∅)))
        [] [] [].

Lemma python_docs_chain : dir_chain (fs world_with_python_docs) python_docs_dir.
Proof. concrete_chain. Qed.

Lemma docs_dir_chain : dir_chain (fs world_with_docs_dir) python_docs_dir.
Proof. concrete_chain. Qed.

(** X8: when the directory of the extracted documentation exists and
    has an entry, the documentation routine returns its directory at
    once: no request is made and the file system is unchanged (its own
    directory being there already). *)
Theorem python_docs_skips_download_when_extracted
    (http : nat -> string -> http_outcome)
    (unzip : string -> exn + list (path * zip_member)) (w : world) :
  dir_chain (fs w) (BASE_DIR ++ ["python_docs"]) ->
  available (fs w) (BASE_DIR ++ ["python_docs"; "python-3.11"]) ->
  (forall c, fs w !! (BASE_DIR ++ ["python_docs"; "python-3.11"]) <> Some (File c)) ->
  exists w' out,
    download_python_docs_correct http unzip w =
      (Return (BASE_DIR ++ ["python_docs"]), w') /\
    fs w' = fs w /\
    events w' = events w /\
    stdout w' = stdout w ++ out ++ ["✓ Python 3.11 docs already exist" +:+ nl].
Proof.
  intros Hd Ha Hnf. eexists _, _.
  split; [by apply python_docs_present|].
  cbn [fs events stdout with_output]. split; [reflexivity|].
  split; [reflexivity|].
  change ([(nl +:+ rule) +:+ nl; "5. DOWNLOADING PYTHON DOCUMENTATION" +:+ nl;
           rule +:+ nl; ("✓ Python " +:+ version +:+ " docs already exist") +:+ nl])
    with ([(nl +:+ rule) +:+ nl; "5. DOWNLOADING PYTHON DOCUMENTATION" +:+ nl;
           rule +:+ nl] ++ ["✓ Python 3.11 docs already exist" +:+ nl]).
  reflexivity.
Qed.

Lemma python_docs_skips_download_when_extracted_witness :
  exists w',
    download_python_docs_correct net_up no_zip world_with_python_docs =
      (Return (BASE_DIR ++ ["python_docs"]), w') /\
    events w' = [].
Proof.
  destruct (python_docs_skips_download_when_extracted net_up no_zip
              world_with_python_docs)
    as (w' & out & Hrun & _ & Hev & _).
  - exact python_docs_chain.
  - split.
    + exists Dir. vm_compute. reflexivity.
    + exists "index.html", (File "<html>"). vm_compute. reflexivity.
  - intros c. vm_compute. discriminate.
  - exists w'. split; [exact Hrun|exact Hev].
Defined.

(** X9: when the archive is downloaded whole and cannot be read as a
    zip file, the extraction error is caught and printed and the
    routine falls back to its note: it returns its directory with
    [README.txt] written, and the file it downloaded stays on disk as
    [python-docs.zip] (it is removed only after an extraction that
    succeeded). *)
Theorem python_docs_bad_archive_is_kept
    (http : nat -> string -> http_outcome)
    (unzip : string -> exn + list (path * zip_member))
    (chunks : list string) (e : exn) (w : world) :
  dir_chain (fs w) (BASE_DIR ++ ["python_docs"]) ->
  fs w !! (BASE_DIR ++ ["python_docs"; "python-3.11"]) = None ->
  fs w !! (BASE_DIR ++ ["python_docs"; "python-docs.zip"]) <> Some Dir ->
  fs w !! (BASE_DIR ++ ["python_docs"; "README.txt"]) <> Some Dir ->
  http (length (events w))
       "https://docs.python.org/3.11/archives/python-311-docs-html.zip" =
    HttpBody chunks None ->
  unzip (String.concat "" chunks) = inl e ->
  exists w',
    download_python_docs_correct http unzip w =
      (Return (BASE_DIR ++ ["python_docs"]), w') /\
    fs w' !! (BASE_DIR ++ ["python_docs"; "python-docs.zip"]) =
      Some (File (String.concat "" chunks)) /\
    fs w' !! (BASE_DIR ++ ["python_docs"; "README.txt"]) =
      Some (File python_docs_readme) /\
    fs w' !! (BASE_DIR ++ ["python_docs"; "python-3.11"]) = None /\
    events w' =
      events w ++
      [ EvRequest (HttpGet "https://docs.python.org/3.11/archives/python-311-docs-html.zip");
        EvWrite (BASE_DIR ++ ["python_docs"; "python-docs.zip"]);
        EvWrite (BASE_DIR ++ ["python_docs"; "README.txt"]) ] /\
    (("✗ Extraction error: " +:+ exn_str e) +:+ nl) ∈ stdout w'.
Proof.
  intros Hd Hex Hz Hr Hresp Hbad.
  destruct (python_docs_bad_archive http unzip chunks e w Hd Hex Hz Hr Hresp Hbad)
    as (w' & Hrun & Hfs & Hev & Hout).
  exists w'. split; [exact Hrun|]. rewrite Hfs.
  split; [rewrite lookup_insert_ne by path_neq; apply lookup_insert_eq|].
  split; [apply lookup_insert_eq|].
  split; [by rewrite !lookup_insert_ne by path_neq|].
  split; [exact Hev|exact Hout].
Qed.

Lemma python_docs_bad_archive_is_kept_witness :
  exists w',
    download_python_docs_correct net_up no_zip world_with_docs_dir =
      (Return (BASE_DIR ++ ["python_docs"]), w') /\
    fs w' !! (BASE_DIR ++ ["python_docs"; "python-docs.zip"]) =
      Some (File "<html></html>").
Proof.
  destruct (python_docs_bad_archive_is_kept net_up no_zip ["<html>"; "</html>"]
              (PyExn "BadZipFile" "File is not a zip file") world_with_docs_dir)
    as (w' & Hrun & Hzip & _).
  - exact docs_dir_chain.
  - vm_compute. reflexivity.
  - vm_compute. discriminate.
  - vm_compute. discriminate.
  - reflexivity.
  - reflexivity.
  - exists w'. split; [exact Hrun|exact Hzip].
Defined.

(** ** Running a literal-file routine again *)

Lemma dir_chain_after_entry f (d : path) x c :
  dir_chain f d -> dir_chain (<[d ++ [x] := File c]> f) d.
Proof.
  intros Hd q Hq Hne. rewrite lookup_insert_ne; [by apply Hd|].
  intros <-. by apply not_prefix_snoc in Hq.
Qed.

(** Steps over a write whose target is shown not to be a directory by
    [tac]. *)
Ltac fwd_write_by Hchain tac :=
  lazymatch goal with
  | |- context [bind (open_write (?d ++ [?x]) ?c) _ ?w0] =>
      let Hnd := fresh in
      assert (Hnd : fs w0 !! (d ++ [x]) <> Some Dir) by tac;
      rewrite (bind_run _ _ _ _ _ (open_write_run d x c w0 Hchain Hnd));
      clear Hnd
  end.

Lemma codesearchnet_settled w :
  dir_chain (fs w) codesearchnet_dir ->
  fs w !! (codesearchnet_dir ++ ["README.txt"]) = Some (File codesearchnet_readme) ->
  exists w',
    download_codesearchnet_github w = (Return codesearchnet_dir, w') /\
    fs w' = fs w.
Proof.
  intros Hd Hf. unfold download_codesearchnet_github. cbv zeta.
  fold codesearchnet_dir. rewrite !bind_print'.
  lazymatch goal with
  | |- context [bind (mkdir_parents_exist_ok _) _ ?w0] =>
      rewrite (bind_run _ _ _ _ _ (mkdir_noop codesearchnet_dir w0 Hd))
  end.
  rewrite !bind_print'.
  fwd_write_by Hd ltac:(cbn [fs with_output]; rewrite Hf; discriminate).
  rewrite !bind_print'. eexists. split; [reflexivity|].
  cbn [fs with_output after_write]. by apply insert_id.
Qed.

Lemma codesearchnet_Return_chain w p w' :
  download_codesearchnet_github w = (Return p, w') ->
  dir_chain (fs w') codesearchnet_dir.
Proof.
  intros H. unfold download_codesearchnet_github in H. cbv zeta in H.
  fold codesearchnet_dir in H. inv_run H.
  injection H as <- <-. apply mkdir_Return_inv in Hmk.
  cbn [fs with_output after_write].
  by apply (dir_chain_after_entry _ codesearchnet_dir "README.txt").
Qed.

Lemma stackoverflow_settled w :
  dir_chain (fs w) stackoverflow_dir ->
  fs w !! (stackoverflow_dir ++ ["stackoverflow_sample.json"]) =
    Some (File (dumps_indent2 (JArr sample_data))) ->
  fs w !! (stackoverflow_dir ++ ["DOWNLOAD_OPTIONS.txt"]) =
    Some (File stackoverflow_instructions) ->
  exists w',
    download_stackoverflow_csv w = (Return stackoverflow_dir, w') /\
    fs w' = fs w.
Proof.
  intros Hd Hs Ho. unfold download_stackoverflow_csv. cbv zeta.
  fold stackoverflow_dir. rewrite !bind_print'.
  lazymatch goal with
  | |- context [bind (mkdir_parents_exist_ok _) _ ?w0] =>
      rewrite (bind_run _ _ _ _ _ (mkdir_noop stackoverflow_dir w0 Hd))
  end.
  rewrite !bind_print'.
  fwd_write_by Hd ltac:(cbn [fs with_output]; rewrite Hs; discriminate).
  lazymatch goal with
  | |- context [bind (open_write (?d ++ [?x]) ?c) _ ?w0] =>
      rewrite (bind_run _ _ _ _ _ (open_write_run d x c w0
        ltac:(cbn [fs with_output after_write]; by apply dir_chain_after_entry)
        ltac:(cbn [fs with_output after_write];
              rewrite lookup_insert_ne by path_neq; rewrite Ho; discriminate)))
  end.
  rewrite !bind_print'. eexists. split; [reflexivity|].
  cbn [fs with_output after_write].
  rewrite (insert_id (fs w) _ _ Hs). by apply insert_id.
Qed.

Lemma stackoverflow_Return_chain w p w' :
  download_stackoverflow_csv w = (Return p, w') ->
  dir_chain (fs w') stackoverflow_dir.
Proof.
  intros H. unfold download_stackoverflow_csv in H. cbv zeta in H.
  fold stackoverflow_dir in H. inv_run H.
  injection H as <- <-. apply mkdir_Return_inv in Hmk.
  cbn [fs with_output after_write].
  apply (dir_chain_after_entry _ stackoverflow_dir "DOWNLOAD_OPTIONS.txt").
  by apply (dir_chain_after_entry _ stackoverflow_dir "stackoverflow_sample.json").
Qed.

Lemma combined_settled w :
  dir_chain (fs w) combined_dir ->
  fs w !! (combined_dir ++ ["README.md"]) = Some (File combined_readme) ->
  exists w', create_combined_dataset w = (Return tt, w') /\ fs w' = fs w.
Proof.
  intros Hd Hf. unfold create_combined_dataset. cbv zeta.
  fold combined_dir. rewrite !bind_print'.
  lazymatch goal with
  | |- context [bind (mkdir_parents_exist_ok _) _ ?w0] =>
      rewrite (bind_run _ _ _ _ _ (mkdir_noop combined_dir w0 Hd))
  end.
  fwd_write_by Hd ltac:(cbn [fs with_output]; rewrite Hf; discriminate).
  rewrite !bind_print', print_run'. eexists. split; [reflexivity|].
  cbn [fs with_output after_write]. by apply insert_id.
Qed.

Lemma combined_Return_chain w w' :
  create_combined_dataset w = (Return tt, w') -> dir_chain (fs w') combined_dir.
Proof.
  intros H. unfold create_combined_dataset in H. cbv zeta in H.
  fold combined_dir in H. inv_run H. rewrite !print_run' in H.
  injection H as <-. apply mkdir_Return_inv in Hmk.
  cbn [fs with_output after_write].
  by apply (dir_chain_after_entry _ combined_dir "README.md").
Qed.

(** X10: the three routines of the combined script that write literal
    files can be run again: once such a routine has returned, running
    it again returns the same result and leaves the file system as it
    is (its directory is there, and its files are rewritten with the
    same content). *)
Theorem literal_routines_can_be_rerun (w w1 : world) (p : path) :
  (download_codesearchnet_github w = (Return p, w1) ->
   exists w2, download_codesearchnet_github w1 = (Return p, w2) /\ fs w2 = fs w1) /\
  (download_stackoverflow_csv w = (Return p, w1) ->
   exists w2, download_stackoverflow_csv w1 = (Return p, w2) /\ fs w2 = fs w1) /\
  (create_combined_dataset w = (Return tt, w1) ->
   exists w2, create_combined_dataset w1 = (Return tt, w2) /\ fs w2 = fs w1).
Proof.
  split_and!.
  - intros H. pose proof (codesearchnet_Return_chain _ _ _ H) as Hd.
    apply codesearchnet_Return_inv in H as (-> & _ & Hf).
    by apply codesearchnet_settled.
  - intros H. pose proof (stackoverflow_Return_chain _ _ _ H) as Hd.
    apply stackoverflow_Return_inv in H as (-> & _ & Hs & Ho).
    by apply stackoverflow_settled.
  - intros H. pose proof (combined_Return_chain _ _ H) as Hd.
    apply combined_Return_inv in H as (_ & Hf).
    by apply combined_settled.
Qed.

Lemma literal_routines_can_be_rerun_witness :
  exists w1 w2,
    download_codesearchnet_github empty_world = (Return codesearchnet_dir, w1) /\
    download_codesearchnet_github w1 = (Return codesearchnet_dir, w2) /\
    fs w2 = fs w1.
Proof.
  destruct (codesearchnet_returns empty_world) as (w1 & H1).
  - intros q c _ _. simpl. rewrite lookup_empty. discriminate.
  - simpl. rewrite lookup_empty. discriminate.
  - destruct (literal_routines_can_be_rerun empty_world w1 codesearchnet_dir)
      as (Hrerun & _).
    destruct (Hrerun H1) as (w2 & H2 & Hfs).
    exists w1, w2. split; [exact H1|]. split; [exact H2|exact Hfs].
Defined.

(** ** What a run of the combined script leaves alone *)

Lemma input_eof p w :
  stdin w = [] ->
  input p w = (Raise (PyExn "EOFError" "EOF when reading a line"), with_output [p] w).
Proof.
  intros H. unfold input, bind, write_stdout, with_output. simpl.
  by rewrite H.
Qed.

Lemma preserves_input (R : world -> world -> Prop) `{!WorldRel R} p :
  (forall w l rest, stdin w = l :: rest ->
     R w {| fs := fs w; stdin := rest; stdout := stdout w; events := events w |}) ->
  preserves R (input p).
Proof.
  intros Hread w. destruct (stdin w) as [|l rest] eqn:E.
  - rewrite (input_eof p w E). apply wr_stdout.
  - rewrite (input_run p w l rest E). cbn [snd].
    eapply wr_trans; [apply (wr_stdout w [p])|].
    apply (Hread (with_output [p] w) l rest E).
Qed.

Lemma comparable_below_base (d q : path) :
  BASE_DIR `prefix_of` d -> comparable d q -> comparable BASE_DIR q.
Proof.
  intros Hb [Hq|Hq].
  - by apply (comparable_of_prefixes _ d).
  - right. by etrans.
Qed.

(** The events that are not the removal of a file other than the
    downloaded archive. *)
Definition removes_only_archive (ev : event) : Prop :=
  forall p, ev = EvUnlink p -> p = BASE_DIR ++ ["python_docs"; "python-docs.zip"].

Section CombinedScriptFrame.
Context (http : nat -> string -> http_outcome).
Context (unzip : string -> exn + list (path * zip_member)).

Lemma final_verification_preserves (R : world -> world -> Prop) `{!WorldRel R} :
  preserves R final_verification.
Proof.
  unfold final_verification, verification_loop_body. pres.
  all: apply preserves_exists_and_nonempty; apply _.
Qed.

Lemma pytorch_preserves (R : world -> world -> Prop) `{!WorldRel R} :
  preserves R verify_pytorch_tutorials.
Proof.
  unfold verify_pytorch_tutorials. cbv zeta. pres.
  apply preserves_exists_and_nonempty; apply _.
Qed.

Lemma script_preserves (R : world -> world -> Prop) `{!WorldRel R} :
  (forall w l rest, stdin w = l :: rest ->
     R w {| fs := fs w; stdin := rest; stdout := stdout w; events := events w |}) ->
  preserves R (mkdir_parents_exist_ok BASE_DIR) ->
  preserves R download_codesearchnet_github ->
  preserves R download_stackoverflow_csv ->
  preserves R (download_conala_correct_urls http) ->
  preserves R (download_python_docs_correct http unzip) ->
  preserves R create_combined_dataset ->
  preserves R (script http unzip).
Proof.
  intros Hin H0 H1 H2 H3 H5 H6. unfold script, main, acquisition_sequence. pres.
  all: first [ by apply preserves_input | apply pytorch_preserves
             | apply final_verification_preserves ]; apply _.
Qed.

Lemma script_touches :
  preserves (touches_only (comparable BASE_DIR)) (script http unzip).
Proof.
  assert (Hw : forall (d : path) {A} (m : M A),
            BASE_DIR `prefix_of` d ->
            preserves (touches_only (comparable d)) m ->
            preserves (touches_only (comparable BASE_DIR)) m).
  { intros d A m Hb Hm. eapply preserves_weaken; [|exact Hm].
    intros w w'. apply touches_only_weaken. intros q.
    by apply comparable_below_base. }
  apply script_preserves; [apply _|by intros w l rest _ q _|..].
  - apply mkdir_touches_in. intros q Hq. by left.
  - apply (Hw codesearchnet_dir); [solve_prefix|apply codesearchnet_touches].
  - apply (Hw stackoverflow_dir); [solve_prefix|apply stackoverflow_touches].
  - apply (Hw conala_dir); [solve_prefix|apply conala_touches].
  - apply (Hw python_docs_dir); [solve_prefix|apply python_docs_touches].
  - apply (Hw combined_dir); [solve_prefix|apply combined_touches].
Qed.

Lemma script_dirs_kept : preserves dirs_kept (script http unzip).
Proof.
  apply script_preserves; [apply _|by intros w l rest _ q|..].
  - apply mkdir_dirs_kept.
  - apply codesearchnet_dirs_kept.
  - apply stackoverflow_dirs_kept.
  - apply conala_dirs_kept.
  - apply python_docs_dirs_kept.
  - apply combined_dirs_kept.
Qed.

Lemma script_removals :
  preserves (logs_only removes_only_archive) (script http unzip).
Proof.
  assert (Hmk : forall p, preserves (logs_only removes_only_archive)
                            (mkdir_parents_exist_ok p)).
  { intros p. apply mkdir_logs. by intros q p' [=]. }
  assert (Hwr : forall p c, preserves (logs_only removes_only_archive)
                              (open_write p c)).
  { intros p c. apply open_write_logs. by intros p' [=]. }
  assert (Hdl : forall u p, preserves (logs_only removes_only_archive)
                              (download_file_with_progress http u p)).
  { intros u p. apply download_logs; by intros p' [=]. }
  apply script_preserves; [apply _| |..].
  - intros w l rest _. exists []. simpl. by rewrite app_nil_r.
  - apply Hmk.
  - unfold download_codesearchnet_github. cbv zeta. pres.
  - unfold download_stackoverflow_csv. cbv zeta. pres.
  - unfold download_conala_correct_urls. cbv zeta. pres.
    apply conala_body_preserves; [apply _|..]; auto.
  - rewrite python_docs_unfold. unfold python_docs_rest. pres.
    all: first [ apply preserves_exists_and_nonempty; apply _
               | apply extractall_preserves; [apply _|..]; intros; auto
               | apply unlink_logs; intros p' [= <-]; reflexivity ].
  - unfold create_combined_dataset. cbv zeta. pres.
Qed.

End CombinedScriptFrame.

(** X11: whatever the network and the archive do, and however it ends,
    a run of the combined script changes nothing outside its output
    root: a path that is neither at or below [data/raw] nor above it
    holds what it held; no directory is removed or replaced; and the
    only file the script ever removes is the archive it downloaded,
    [python-docs.zip]. *)
Theorem combined_script_stays_within_output_root
    (http : nat -> string -> http_outcome)
    (unzip : string -> exn + list (path * zip_member)) (w : world) :
  (forall q, ~ (q `prefix_of` BASE_DIR \/ BASE_DIR `prefix_of` q) ->
             fs (script http unzip w).2 !! q = fs w !! q) /\
  (forall q, fs w !! q = Some Dir -> fs (script http unzip w).2 !! q = Some Dir) /\
  exists evs,
    events (script http unzip w).2 = events w ++ evs /\
    Forall (fun ev => forall p, ev = EvUnlink p ->
                        p = BASE_DIR ++ ["python_docs"; "python-docs.zip"]) evs.
Proof.
  split; [apply (script_touches http unzip w)|].
  split; [apply (script_dirs_kept http unzip w)|].
  apply (script_removals http unzip w).
Qed.

(** ** The reporter and [main] at the edges *)

(** A world in which a regular file sits where the CoNaLa directory is
    looked for. *)
Definition world_with_conala_file : world :=
  World (<[ ["data"; "raw"; "conala"] := File "not a directory" ]>
          (<[ ["data"; "raw"] := Dir ]> (<[ ["data"] := Dir ]> ∅)))
        [""] [] [].

(** A world in which [data] is a regular file. *)
Definition world_with_data_file : world :=
  World (<[ ["data"] := File "not a directory" ]> ∅) [""] [] [].

(** A world in which a regular file sits where the CodeSearchNet
    directory is to be made. *)
Definition world_with_blocked_codesearchnet : world :=
  World (<[ ["data"; "raw"; "codesearchnet"] := File "not a directory" ]>
          (<[ ["data"; "raw"] := Dir ]> (<[ ["data"] := Dir ]> ∅)))
        [""] [] [].

(** X12: the verification reporter only reads and prints: however it
    ends, the file system, the input and the log of effects are as
    before.  It returns its judgement exactly when none of the six
    listed paths is a regular file; when one is, listing it as a
    directory fails and the reporter raises. *)
Theorem reporter_reads_only_and_returns_iff_no_regular_file (w : world) :
  prints_only w (final_verification w).2 /\
  ((exists b w', final_verification w = (Return b, w')) <->
   (forall item c, item ∈ datasets -> fs w !! item.2 <> Some (File c))) /\
  (forall item c, item ∈ datasets -> fs w !! item.2 = Some (File c) ->
     exists e w', final_verification w = (Raise e, w')).
Proof.
  split; [apply (final_verification_preserves prints_only)|]. split.
  - split.
    + intros (b & w' & Hrun). by eapply final_verification_Return_inv.
    + intros Hnf. eexists _, _. by apply final_verification_run.
  - intros item c Hin Hc. unfold final_verification. rewrite !bind_print'.
    lazymatch goal with
    | |- context [bind (for_each _ _ _) _ ?w0] =>
        destruct (verification_loop_raises datasets (0, 0) w0 item c Hin Hc)
          as (e & w1 & He)
    end.
    rewrite (bind_run_Raise _ _ _ _ _ He). eauto.
Qed.

Lemma reporter_reads_only_and_returns_iff_no_regular_file_witness :
  exists e w', final_verification world_with_conala_file = (Raise e, w').
Proof.
  destruct (reporter_reads_only_and_returns_iff_no_regular_file
              world_with_conala_file) as (_ & _ & Hraise).
  apply (Hraise ("CoNaLa", BASE_DIR ++ ["conala"]) "not a directory").
  - unfold datasets. do 2 apply list_elem_of_further. apply list_elem_of_here.
  - vm_compute. reflexivity.
Defined.

(** X13: [main] reads its line outside the [try]: at end of input the
    [EOFError] of [input] propagates out of [main] once the banner and
    the prompt are written; no routine has run, nothing is created and
    no request is made. *)
Theorem main_raises_at_end_of_input
    (http : nat -> string -> http_outcome)
    (unzip : string -> exn + list (path * zip_member)) (w : world) :
  stdin w = [] ->
  exists w',
    main http unzip w = (Raise (PyExn "EOFError" "EOF when reading a line"), w') /\
    fs w' = fs w /\
    events w' = events w /\
    stdout w' = stdout w ++ banner_lines.
Proof.
  intros Hin. unfold main. rewrite !bind_print'.
  lazymatch goal with
  | |- context [bind (input ?p) _ ?w0] =>
      rewrite (bind_run_Raise _ _ _ _ _ (input_eof p w0 Hin))
  end.
  eexists. split; [reflexivity|]. cbn [fs events stdout with_output].
  split; [reflexivity|]. split; [reflexivity|].
  unfold banner_lines. rewrite <- !app_assoc. reflexivity.
Qed.

Lemma main_raises_at_end_of_input_witness :
  exists w',
    main net_down no_zip empty_world =
      (Raise (PyExn "EOFError" "EOF when reading a line"), w') /\
    fs w' = ∅.
Proof.
  destruct (main_raises_at_end_of_input net_down no_zip empty_world eq_refl)
    as (w' & Hrun & Hfs & _).
  exists w'. split; [exact Hrun|exact Hfs].
Defined.

(** X14: the output root is made when the script is loaded, before
    [main] is called.  When [data] is a regular file that [mkdir] fails
    with [NotADirectoryError] for [data/raw], and the script ends there:
    nothing is printed, read, created or requested. *)
Theorem combined_script_needs_its_output_root
    (http : nat -> string -> http_outcome)
    (unzip : string -> exn + list (path * zip_member)) (w : world) (c : string) :
  fs w !! ["data"] = Some (File c) ->
  script http unzip w =
  (Raise (PyExn "NotADirectoryError" "[Errno 20] Not a directory: 'data/raw'"), w).
Proof.
  intros Hf. unfold script. apply bind_run_Raise.
  unfold mkdir_parents_exist_ok, BASE_DIR. rewrite makedirs_step.
  change ([] ++ ["data"]) with ["data"]. rewrite Hf. reflexivity.
Qed.

Lemma combined_script_needs_its_output_root_witness :
  script net_down no_zip world_with_data_file =
  (Raise (PyExn "NotADirectoryError" "[Errno 20] Not a directory: 'data/raw'"),
   world_with_data_file).
Proof.
  apply (combined_script_needs_its_output_root net_down no_zip
           world_with_data_file "not a directory").
  vm_compute. reflexivity.
Defined.

Lemma codesearchnet_blocked_run w c :
  dir_chain (fs w) BASE_DIR -> fs w !! codesearchnet_dir = Some (File c) ->
  download_codesearchnet_github w =
  (Raise (FileExistsError codesearchnet_dir),
   with_output [(nl +:+ rule) +:+ nl;
                "1. DOWNLOADING CODESEARCHNET (Python)" +:+ nl;
                rule +:+ nl] w).
Proof.
  intros Hd Hf. unfold download_codesearchnet_github. cbv zeta.
  fold codesearchnet_dir. rewrite !bind_print'.
  lazymatch goal with
  | |- bind (mkdir_parents_exist_ok _) _ ?w0 = _ =>
      rewrite (bind_run_Raise _ _ _ _ _ (mkdir_blocked BASE_DIR "codesearchnet" c w0 Hd Hf))
  end.
  by rewrite !with_output_app.
Qed.

(** X15: the six routines run inside one [try]: when the first of them
    raises (a regular file sits where its directory is to be made), the
    handler of [main] prints the error and [main] returns normally, and
    none of the other routines nor the reporter has run: the file
    system is unchanged, no request is made, and the error line is the
    last one printed. *)
Theorem first_failure_skips_the_rest
    (http : nat -> string -> http_outcome)
    (unzip : string -> exn + list (path * zip_member))
    (w : world) (c line : string) (rest : list string) :
  stdin w = line :: rest ->
  dir_chain (fs w) BASE_DIR ->
  fs w !! (BASE_DIR ++ ["codesearchnet"]) = Some (File c) ->
  exists w',
    main http unzip w = (Return tt, w') /\
    fs w' = fs w /\
    events w' = events w /\
    stdout w' =
      stdout w ++ banner_lines ++
      [ (nl +:+ rule) +:+ nl;
        "1. DOWNLOADING CODESEARCHNET (Python)" +:+ nl;
        rule +:+ nl;
        (nl +:+ "✗ Error: " +:+
         "[Errno 17] File exists: 'data/raw/codesearchnet'") +:+ nl ].
Proof.
  intros Hin Hd Hf. unfold main. rewrite !bind_print'.
  lazymatch goal with
  | |- context [bind (input ?p) _ ?w0] =>
      rewrite (bind_run _ _ _ _ _ (input_run p w0 line rest Hin))
  end.
  lazymatch goal with
  | |- context [try_except (bind (acquisition_sequence http unzip) ?k) ?h ?w0] =>
      rewrite (try_bind_Raise (acquisition_sequence http unzip) k h w0 _ _
                 (bind_run_Raise _ _ _ _ _ (codesearchnet_blocked_run w0 c Hd Hf)))
  end.
  rewrite print_run'. eexists. split; [reflexivity|].
  cbn [fs events stdout with_output].
  split; [reflexivity|]. split; [reflexivity|].
  unfold banner_lines. rewrite <- !app_assoc. reflexivity.
Qed.

Lemma first_failure_skips_the_rest_witness :
  exists w',
    main net_down no_zip world_with_blocked_codesearchnet = (Return tt, w') /\
    events w' = [].
Proof.
  destruct (first_failure_skips_the_rest net_down no_zip
              world_with_blocked_codesearchnet "not a directory" "" [] eq_refl)
    as (w' & Hrun & _ & Hev & _).
  - apply dir_chain_base; vm_compute; reflexivity.
  - vm_compute. reflexivity.
  - exists w'. split; [exact Hrun|exact Hev].
Defined.

(** ** The selector script *)

(** A hub that answers every request with an empty dataset. *)
Definition hub_empty : nat -> request -> DownloadDataset.hub_outcome :=
  fun _ _ => DownloadDataset.HubData [].

(** X16: when the [datasets] package cannot be imported the selector
    script prints that it is required and how to install it, and exits
    with code 1 before the menu is shown: no line is read, nothing is
    created and no request is made. *)
Theorem selector_script_needs_datasets_package
    (hub : nat -> request -> DownloadDataset.hub_outcome)
    (native_format : DownloadDataset.dataset -> list (string * string))
    (w : world) :
  exists w' out,
    DownloadDataset.script hub native_format None w = (Exit 1, w') /\
    fs w' = fs w /\ stdin w' = stdin w /\ events w' = events w /\
    stdout w' =
      stdout w ++ out ++ [ "✗ datasets package required" +:+ nl;
                           "Install: pip install datasets" +:+ nl ] /\
    (DownloadDataset.prompt ∉ out).
Proof.
  unfold DownloadDataset.script, DownloadDataset.header.
  repeat first [rewrite bind_print' | rewrite bind_assoc].
  eexists _, [DownloadDataset.rule +:+ nl; "WORKING DATASET DOWNLOADER" +:+ nl;
              "Using verified, working datasets" +:+ nl;
              DownloadDataset.rule +:+ nl; "" +:+ nl].
  split; [reflexivity|]. cbn [fs stdin events stdout with_output].
  split; [reflexivity|]. split; [reflexivity|]. split; [reflexivity|].
  split; [by rewrite <- !app_assoc|].
  intros Hin. refute_line Hin.
Qed.

Section SelectorRuns.
Import DownloadDataset.
Context (hub : nat -> request -> hub_outcome).
Context (native_format : dataset -> list (string * string)).

Lemma dispatch_4_unfold :
  dispatch hub native_format "4" =
  (r1 <- download_code_alpaca hub native_format ;;
   r2 <- download_python_instructions hub native_format ;;
   r3 <- download_mbpp hub native_format ;;
   ret [("Code Alpaca", r1); ("Python Instructions", r2); ("MBPP", r3)]).
Proof. reflexivity. Qed.

Lemma dispatch_choice_run choice w :
  choice ∈ ["1"; "2"; "3"; "4"] ->
  exists results w',
    dispatch hub native_format choice w = (Return results, w') /\
    ((forall n r, exists e, hub n r = HubError e) ->
     fs w' = fs w /\ successful_count results = 0).
Proof.
  intros Hc.
  repeat (apply elem_of_cons in Hc as [->|Hc]); [..|by apply elem_of_nil in Hc].
  - destruct (download_code_alpaca_spec hub native_format w)
      as (b & w' & Hrun & _ & _ & Herr & _).
    exists [("Code Alpaca", b)], w'. split.
    + change (dispatch hub native_format "1") with
        (r <- download_code_alpaca hub native_format ;;
         ret (dict_set [] "Code Alpaca" r)).
      by rewrite (bind_run _ _ _ _ _ Hrun).
    + intros Hdown. destruct (Hdown (length (events w))
        (HubLoad "sahil2801/CodeAlpaca-20k" None "train")) as [e He].
      destruct (Herr e He) as [-> Hfs]. done.
  - destruct (download_python_instructions_spec hub native_format w)
      as (b & w' & Hrun & _ & _ & Herr & _).
    exists [("Python Instructions", b)], w'. split.
    + change (dispatch hub native_format "2") with
        (r <- download_python_instructions hub native_format ;;
         ret (dict_set [] "Python Instructions" r)).
      by rewrite (bind_run _ _ _ _ _ Hrun).
    + intros Hdown. destruct (Hdown (length (events w))
        (HubLoad "Iamtarun/python_code_instructions_18k_alpaca" None "train"))
        as [e He].
      destruct (Herr e He) as [-> Hfs]. done.
  - destruct (download_mbpp_spec hub native_format w)
      as (b & w' & Hrun & _ & _ & Herr & _).
    exists [("MBPP", b)], w'. split.
    + change (dispatch hub native_format "3") with
        (r <- download_mbpp hub native_format ;; ret (dict_set [] "MBPP" r)).
      by rewrite (bind_run _ _ _ _ _ Hrun).
    + intros Hdown. destruct (Hdown (length (events w))
        (HubLoad "mbpp" (Some "sanitized") "train")) as [e He].
      destruct (Herr e He) as [-> Hfs]. done.
  - destruct (download_code_alpaca_spec hub native_format w)
      as (b1 & w1 & H1 & _ & _ & Herr1 & _).
    destruct (download_python_instructions_spec hub native_format w1)
      as (b2 & w2 & H2 & _ & _ & Herr2 & _).
    destruct (download_mbpp_spec hub native_format w2)
      as (b3 & w3 & H3 & _ & _ & Herr3 & _).
    exists [("Code Alpaca", b1); ("Python Instructions", b2); ("MBPP", b3)], w3.
    split.
    + rewrite dispatch_4_unfold.
      by rewrite (bind_run _ _ _ _ _ H1), (bind_run _ _ _ _ _ H2),
        (bind_run _ _ _ _ _ H3).
    + intros Hdown.
      destruct (Hdown (length (events w))
        (HubLoad "sahil2801/CodeAlpaca-20k" None "train")) as [e1 He1].
      destruct (Hdown (length (events w1))
        (HubLoad "Iamtarun/python_code_instructions_18k_alpaca" None "train"))
        as [e2 He2].
      destruct (Hdown (length (events w2))
        (HubLoad "mbpp" (Some "sanitized") "train")) as [e3 He3].
      destruct (Herr1 e1 He1) as [-> Hfs1].
      destruct (Herr2 e2 He2) as [-> Hfs2].
      destruct (Herr3 e3 He3) as [-> Hfs3].
      split; [congruence|done].
Qed.

Lemma selector_script_run v w line rest :
  stdin w = line :: rest ->
  strip line ∈ ["1"; "2"; "3"; "4"] ->
  exists results w1 out,
    script hub native_format (Some v) w = (Return tt, with_output out w1) /\
    ((success_banner +:+ nl) ∈ out <-> 3 <= 2 + successful_count results) /\
    (too_few_line (2 + successful_count results) ∈ out <->
     2 + successful_count results < 3) /\
    ((forall n r, exists e, hub n r = HubError e) ->
     fs w1 = fs w /\ successful_count results = 0).
Proof.
  intros Hin Hc. unfold script.
  rewrite <- bind_assoc.
  rewrite (bind_run _ _ _ _ _ (header_menu_run v w)).
  rewrite (bind_run _ _ _ _ _
             (input_run prompt (with_output (menu_text v) w) line rest Hin)).
  cbv zeta.
  lazymatch goal with
  | |- context [bind (dispatch hub native_format ?c) _ ?w2] =>
      destruct (dispatch_choice_run c w2 Hc) as (results & w3 & Hd & Hdown)
  end.
  rewrite (bind_run _ _ _ _ _ Hd).
  destruct (summary_run results w3) as (out & Hsum & Hbanner & Hfew).
  exists results, w3, out. split; [exact Hsum|]. split; [exact Hbanner|].
  split; [exact Hfew|]. intros Hall. destruct (Hdown Hall) as [Hfs Hs].
  split; [rewrite Hfs; reflexivity|exact Hs].
Qed.

End SelectorRuns.


Section EmptyDataset.
Import DownloadDataset.
Context (hub : nat -> request -> hub_outcome).
Context (native_format : dataset -> list (string * string)).

Lemma mbpp_empty_dataset w :
  hub (length (events w)) (HubLoad "mbpp" (Some "sanitized") "train") = HubData [] ->
  creatable (fs w) ["data"; "raw"; "mbpp"] ->
  exists e w1,
    download_mbpp hub native_format w =
      (Return false, with_output [failed_line e] w1) /\
    fs w1 !! ["data"; "raw"; "mbpp"] = Some Dir /\
    (e = PyExn "IndexError" "Invalid key: 0 is out of bounds for size 0" \/
     exists w0, save_to_disk native_format [] ["data"; "raw"; "mbpp"] w0 = (Raise e, w1)).
Proof.
  intros Hhub Hcreate. unfold download_mbpp. rewrite !bind_print'.
  rewrite try_bind_print.
  lazymatch goal with
  | |- context [try_except (bind (load_dataset hub ?n ?c ?s) _) _ ?w0] =>
      pose proof (load_dataset_run hub n c s w0) as Hload;
      cbn [events with_output] in Hload; rewrite Hhub in Hload;
      rewrite (try_bind_run _ _ _ _ _ _ Hload)
  end.
  rewrite try_bind_print. cbv zeta.
  lazymatch goal with
  | |- context [try_except (bind (mkdir_parents_exist_ok ?p) _) _ ?w0] =>
      destruct (mkdir_returns p w0 Hcreate) as (w2 & Hmk & Hchain);
      rewrite (try_bind_run _ _ _ _ _ _ Hmk)
  end.
  rewrite try_bind_print.
  set (w3 := with_output _ w2).
  assert (Hdir3 : fs w3 !! ["data"; "raw"; "mbpp"] = Some Dir)
    by by apply dir_chain_self.
  pose proof (save_to_disk_dirs_kept native_format [] ["data"; "raw"; "mbpp"] w3)
    as Hkept.
  pose proof (never_exits_save_to_disk native_format [] ["data"; "raw"; "mbpp"] w3)
    as Hnex.
  destruct (save_to_disk native_format [] ["data"; "raw"; "mbpp"] w3)
    as [[[]|e|c] w4] eqn:Hsave; cbn [snd fst] in Hkept, Hnex.
  - rewrite (try_bind_run _ _ _ _ _ _ Hsave).
    exists (PyExn "IndexError" "Invalid key: 0 is out of bounds for size 0"), w4.
    split; [reflexivity|]. split; [by apply Hkept|by left].
  - rewrite (try_bind_Raise _ _ _ _ _ _ Hsave).
    exists e, w4. split; [reflexivity|]. split; [by apply Hkept|].
    right. by exists w3.
  - by destruct (Hnex c).
Qed.

End EmptyDataset.

(** X18: when the hub answers the MBPP request with a dataset that has
    no example, the routine makes its directory and saves the dataset,
    and then fails on [dataset[0]]: the exception is caught and the
    routine returns [False] with the failure line, although its
    directory is on disk.  (The exception printed is the [IndexError]
    of [dataset[0]], unless saving itself raised.) *)
Theorem empty_dataset_is_saved_and_reported_as_failed
    (hub : nat -> request -> DownloadDataset.hub_outcome)
    (native_format : DownloadDataset.dataset -> list (string * string))
    (w : world) :
  hub (length (events w)) (HubLoad "mbpp" (Some "sanitized") "train") =
    DownloadDataset.HubData [] ->
  creatable (fs w) ["data"; "raw"; "mbpp"] ->
  exists e w' out,
    DownloadDataset.download_mbpp hub native_format w = (Return false, w') /\
    fs w' !! ["data"; "raw"; "mbpp"] = Some Dir /\
    stdout w' = out ++ [("✗ Failed: " +:+ exn_str e) +:+ nl] /\
    (e = PyExn "IndexError" "Invalid key: 0 is out of bounds for size 0" \/
     exists w0 w1,
       DownloadDataset.save_to_disk native_format [] ["data"; "raw"; "mbpp"] w0 =
         (Raise e, w1)).
Proof.
  intros Hhub Hcreate.
  destruct (mbpp_empty_dataset hub native_format w Hhub Hcreate)
    as (e & w1 & Hrun & Hdir & He).
  exists e, (with_output [failed_line e] w1), (stdout w1).
  split; [exact Hrun|]. split; [exact Hdir|]. split; [reflexivity|].
  destruct He as [He|[w0 He]]; [by left|right; eauto].
Qed.

Lemma empty_dataset_is_saved_and_reported_as_failed_witness :
  exists w',
    DownloadDataset.download_mbpp hub_empty two_files empty_world =
      (Return false, w') /\
    fs w' !! ["data"; "raw"; "mbpp"] = Some Dir.
Proof.
  destruct (empty_dataset_is_saved_and_reported_as_failed hub_empty two_files
              empty_world eq_refl)
    as (e & w' & out & Hrun & Hdir & _).
  - intros q c _ _. simpl. rewrite lookup_empty. discriminate.
  - exists w'. split; [exact Hrun|exact Hdir].
Defined.





(** ** The documentation routine when the archive is extracted *)

(** An archive with one page at its top level and one page in a
    folder. *)
Definition small_archive : string -> exn + list (path * zip_member) :=
  fun _ => inr [ (["index.html"], ZipFile "<html>");
                 (["library"], ZipDir);
                 (["library"; "os.html"], ZipFile "<os>") ].

Section DocsExtraction.
Context (http : nat -> string -> http_outcome).
Context (unzip : string -> exn + list (path * zip_member)).

(** Extraction changes nothing but paths at, below or above its
    target. *)
Lemma extract_member_touches (target : path) m :
  preserves (touches_only (comparable target)) (extract_member target m).
Proof.
  unfold extract_member. destruct m as [name [|data]]; cbv zeta;
    cbn [fst snd]; cbv iota.
  - apply mkdir_touches. by apply prefix_app_r.
  - destruct (parent (target ++ sanitize name)) as [u|] eqn:Eu.
    + pres.
      * apply mkdir_touches_in. intros q Hq.
        apply parent_Some in Eu as [x Hx].
        apply (comparable_of_prefixes _ (target ++ sanitize name));
          [by apply prefix_app_r|].
        rewrite Hx. etrans; [exact Hq|]. by apply prefix_app_r.
      * apply open_write_touches_in. right. by apply prefix_app_r.
    + pres. apply open_write_touches_in. right. by apply prefix_app_r.
Qed.

Lemma extractall_touches (zf target : path) :
  preserves (touches_only (comparable target)) (extractall unzip zf target).
Proof. unfold extractall. pres. apply extract_member_touches. Qed.

(** The world in which the extraction starts: the archive is stored
    and the request logged. *)
Definition docs_downloaded (chunks : list string) (w : world) : world :=
  with_output
    [ (nl +:+ rule) +:+ nl; "5. DOWNLOADING PYTHON DOCUMENTATION" +:+ nl;
      rule +:+ nl;
      ("Downloading Python " +:+ version +:+ " documentation...") +:+ nl;
      ("URL: " +:+ python_docs_url) +:+ nl;
      "Extracting..." +:+ nl ]
    (after_write zip_file (String.concat "" chunks)
       (after_request (HttpGet python_docs_url) w)).

Lemma python_docs_extracted chunks w w3 :
  dir_chain (fs w) python_docs_dir ->
  fs w !! extract_dir = None ->
  fs w !! zip_file <> Some Dir ->
  http (length (events w)) python_docs_url = HttpBody chunks None ->
  extractall unzip zip_file extract_dir (docs_downloaded chunks w) = (Return tt, w3) ->
  download_python_docs_correct http unzip w =
  (Return python_docs_dir,
   with_output ["✓ Python documentation extracted" +:+ nl] (after_unlink zip_file w3)) /\
  fs w3 !! zip_file = Some (File (String.concat "" chunks)) /\
  touches_only (comparable extract_dir) (docs_downloaded chunks w) w3.
Proof.
  intros Hd Hex Hz Hresp Hext.
  pose proof (extractall_touches zip_file extract_dir (docs_downloaded chunks w))
    as Ht. rewrite Hext in Ht. cbn [snd] in Ht.
  assert (Hzip : fs w3 !! zip_file = Some (File (String.concat "" chunks))).
  { rewrite Ht by incomparable.
    unfold docs_downloaded. cbn [fs with_output after_write].
    apply lookup_insert_eq. }
  split; [|by split].
  rewrite python_docs_unfold. rewrite !bind_print'.
  lazymatch goal with
  | |- context [bind (mkdir_parents_exist_ok _) _ ?w0] =>
      rewrite (bind_run _ _ _ _ _ (mkdir_noop python_docs_dir w0 Hd))
  end.
  unfold python_docs_rest.
  lazymatch goal with
  | |- context [bind (exists_and_nonempty ?d) _ ?w0] =>
      destruct (exists_and_nonempty_cases d w0) as [(c & Hc & _)|[_ Hrun]]
  end.
  { cbn [fs with_output] in Hc. congruence. }
  rewrite (bind_run _ _ _ _ _ Hrun). cbn [fs with_output].
  rewrite bool_decide_eq_false_2 by (intros [[n Hn] _]; congruence).
  rewrite !bind_print'.
  lazymatch goal with
  | |- context [bind (download_file_with_progress http ?u _) _ ?w0] =>
      rewrite (bind_run _ _ _ _ _
                 (download_whole http u python_docs_dir "python-docs.zip" chunks w0
                    Hresp Hd Hz))
  end.
  cbv iota. rewrite bind_assoc, bind_print'.
  assert (Hstart : forall w0, fs w0 = fs (docs_downloaded chunks w) ->
            events w0 = events (docs_downloaded chunks w) ->
            stdin w0 = stdin (docs_downloaded chunks w) ->
            stdout w0 = stdout (docs_downloaded chunks w) ->
            w0 = docs_downloaded chunks w).
  { intros [f0 i0 o0 e0]. simpl. by intros -> -> -> ->. }
  lazymatch goal with
  | |- context [bind (try_except (bind (extractall unzip ?zf ?d) ?k) ?h) _ ?w0] =>
      replace w0 with (docs_downloaded chunks w)
        by (symmetry; apply Hstart; unfold docs_downloaded;
            cbn [fs events stdin stdout with_output after_write after_request];
            rewrite <- ?app_assoc; reflexivity)
  end.
  unfold bind at 1.
  rewrite (try_bind_run _ _ _ _ _ _ Hext).
  destruct (unlink_cases zip_file w3) as [[e He]|(c & _ & Hu)].
  { exfalso. unfold unlink in He. rewrite bind_get_fs, Hzip in He. discriminate. }
  rewrite (try_bind_run _ _ _ _ _ _ Hu).
  rewrite try_bind_print. unfold try_except, ret. reflexivity.
Qed.

End DocsExtraction.

(** X21: when the archive is downloaded whole and its extraction into
    [python-3.11] returns normally, the documentation routine removes
    the downloaded archive, prints that the documentation is extracted
    and returns its directory; the fallback note is not written, and
    outside the extraction directory the file system is as before. *)
Theorem python_docs_archive_is_extracted_and_removed
    (http : nat -> string -> http_outcome)
    (unzip : string -> exn + list (path * zip_member))
    (chunks : list string) (w w3 : world) :
  dir_chain (fs w) (BASE_DIR ++ ["python_docs"]) ->
  fs w !! (BASE_DIR ++ ["python_docs"; "python-3.11"]) = None ->
  fs w !! (BASE_DIR ++ ["python_docs"; "python-docs.zip"]) <> Some Dir ->
  http (length (events w))
       "https://docs.python.org/3.11/archives/python-311-docs-html.zip" =
    HttpBody chunks None ->
  extractall unzip (BASE_DIR ++ ["python_docs"; "python-docs.zip"])
    (BASE_DIR ++ ["python_docs"; "python-3.11"]) (docs_downloaded chunks w) =
    (Return tt, w3) ->
  exists w' out,
    download_python_docs_correct http unzip w =
      (Return (BASE_DIR ++ ["python_docs"]), w') /\
    fs w' = delete (BASE_DIR ++ ["python_docs"; "python-docs.zip"]) (fs w3) /\
    fs w' !! (BASE_DIR ++ ["python_docs"; "python-docs.zip"]) = None /\
    fs w' !! (BASE_DIR ++ ["python_docs"; "README.txt"]) =
      fs w !! (BASE_DIR ++ ["python_docs"; "README.txt"]) /\
    (forall q,
       ~ comparable (BASE_DIR ++ ["python_docs"; "python-3.11"]) q ->
       q <> BASE_DIR ++ ["python_docs"; "python-docs.zip"] ->
       fs w' !! q = fs w !! q) /\
    stdout w' = out ++ ["✓ Python documentation extracted" +:+ nl].
Proof.
  intros Hd Hex Hz Hresp Hext.
  destruct (python_docs_extracted http unzip chunks w w3 Hd Hex Hz Hresp Hext)
    as (Hrun & Hzip & Ht).
  assert (Hframe : forall q,
            ~ comparable extract_dir q -> q <> zip_file ->
            delete zip_file (fs w3) !! q = fs w !! q).
  { intros q Hq Hne. rewrite lookup_delete_ne by done. rewrite (Ht q Hq).
    unfold docs_downloaded. cbn [fs with_output after_write after_request].
    by rewrite lookup_insert_ne. }
  eexists _, _. split; [exact Hrun|].
  cbn [fs stdout with_output after_unlink]. split; [reflexivity|].
  split; [apply lookup_delete_eq|].
  split; [apply Hframe; [incomparable|path_neq]|].
  split; [exact Hframe|reflexivity].
Qed.

Lemma python_docs_archive_is_extracted_and_removed_witness :
  exists w',
    download_python_docs_correct net_up small_archive world_with_docs_dir =
      (Return (BASE_DIR ++ ["python_docs"]), w') /\
    fs w' !! (BASE_DIR ++ ["python_docs"; "python-docs.zip"]) = None /\
    fs w' !! (BASE_DIR ++ ["python_docs"; "python-3.11"; "library"; "os.html"]) =
      Some (File "<os>").
Proof.
  assert (Hext : exists w3,
            extractall small_archive (BASE_DIR ++ ["python_docs"; "python-docs.zip"])
              (BASE_DIR ++ ["python_docs"; "python-3.11"])
              (docs_downloaded ["<html>"; "</html>"] world_with_docs_dir) =
              (Return tt, w3) /\
            fs w3 !! (BASE_DIR ++ ["python_docs"; "python-3.11"; "library"; "os.html"]) =
              Some (File "<os>")).
  { eexists. split; vm_compute; reflexivity. }
  destruct Hext as (w3 & Hext & Hfile).
  destruct (python_docs_archive_is_extracted_and_removed net_up small_archive
              ["<html>"; "</html>"] world_with_docs_dir w3)
    as (w' & out & Hrun & Hfs & Hzip & _).
  - exact docs_dir_chain.
  - vm_compute. reflexivity.
  - vm_compute. discriminate.
  - reflexivity.
  - exact Hext.
  - exists w'. split; [exact Hrun|]. split; [exact Hzip|].
    rewrite Hfs. rewrite lookup_delete_ne by path_neq. exact Hfile.
Defined.

(** ** A download of the selector script that succeeds *)

(** A hub that answers every request with one MBPP problem. *)
Definition hub_one_problem : nat -> request -> DownloadDataset.hub_outcome :=
  fun _ _ =>
    DownloadDataset.HubData
      [ [ ("text", DownloadDataset.VStr "Write a function to add two numbers.");
          ("code", DownloadDataset.VStr "def add(a, b): return a + b");
          ("task_id", DownloadDataset.VInt 1) ] ].

Section SelectorSuccess.
Import DownloadDataset.
Context (hub : nat -> request -> hub_outcome).
Context (native_format : dataset -> list (string * string)).

Lemma save_files_run (p : path) files : forall w,
  dir_chain (fs w) p ->
  NoDup files.*1 ->
  (forall file, file ∈ files -> fs w !! (p ++ [file.1]) <> Some Dir) ->
  exists w',
    for_each (fun (_ : unit) file => open_write (p ++ [file.1]) file.2) files tt w =
      (Return tt, w') /\
    dir_chain (fs w') p /\
    (forall file, file ∈ files -> fs w' !! (p ++ [file.1]) = Some (File file.2)) /\
    touches_only (fun q => exists file, file ∈ files /\ q = p ++ [file.1]) w w' /\
    stdout w' = stdout w.
Proof.
  induction files as [|[name content] files IH]; intros w Hd Hnd Hfree.
  - exists w. split; [done|]. split; [done|].
    split; [intros file Hin; by apply elem_of_nil in Hin|].
    split; [by intros q _|done].
  - rewrite fmap_cons in Hnd. apply NoDup_cons in Hnd as [Hfresh Hnd].
    simpl for_each.
    assert (Hhead : fs w !! (p ++ [name]) <> Some Dir)
      by apply (Hfree (name, content)), list_elem_of_here.
    rewrite (bind_run _ _ _ _ _ (open_write_run p name content w Hd Hhead)).
    destruct (IH (after_write (p ++ [name]) content w))
      as (w' & Hrun & Hd' & Hfiles & Ht & Hout).
    { cbn [fs after_write]. by apply dir_chain_after_entry. }
    { exact Hnd. }
    { intros file Hin. cbn [fs after_write].
      rewrite lookup_insert_ne; [apply Hfree; by right|].
      intros Heq. apply app_inj_tail in Heq as [_ Heq]. apply Hfresh.
      rewrite Heq. apply list_elem_of_fmap. by exists file. }
    exists w'. split; [exact Hrun|]. split; [exact Hd'|]. split; [|split].
    + intros file Hin. apply elem_of_cons in Hin as [->|Hin]; [|by apply Hfiles].
      rewrite Ht.
      * cbn [fs after_write fst snd]. apply lookup_insert_eq.
      * intros (file & Hin & Heq). apply app_inj_tail in Heq as [_ Heq].
        apply Hfresh. simpl in Heq. rewrite Heq. apply list_elem_of_fmap.
        by exists file.
    + intros q Hq. rewrite Ht.
      * cbn [fs after_write]. apply lookup_insert_ne. intros <-. apply Hq.
        exists (name, content). split; [by left|done].
      * intros (file & Hin & ->). apply Hq. exists file. split; [by right|done].
    + exact Hout.
Qed.

Lemma mbpp_saved d ex text code w :
  hub (length (events w)) (HubLoad "mbpp" (Some "sanitized") "train") =
    HubData (ex :: d) ->
  dict_get ex "text" (VStr "") = VStr text ->
  dict_get ex "code" (VStr "") = VStr code ->
  creatable (fs w) ["data"; "raw"; "mbpp"] ->
  NoDup (native_format (ex :: d)).*1 ->
  (forall file, file ∈ native_format (ex :: d) ->
     fs w !! (["data"; "raw"; "mbpp"] ++ [file.1]) <> Some Dir) ->
  exists w',
    download_mbpp hub native_format w = (Return true, w') /\
    fs w' !! ["data"; "raw"; "mbpp"] = Some Dir /\
    (forall file, file ∈ native_format (ex :: d) ->
       fs w' !! (["data"; "raw"; "mbpp"] ++ [file.1]) = Some (File file.2)) /\
    exists out,
      stdout w' = out ++ [(nl +:+ "✓ MBPP downloaded successfully!") +:+ nl].
Proof.
  intros Hhub Htext Hcode Hcreate Hnd Hfree.
  unfold download_mbpp. rewrite !bind_print'. rewrite try_bind_print.
  lazymatch goal with
  | |- context [try_except (bind (load_dataset hub ?n ?c ?s) _) _ ?w0] =>
      pose proof (load_dataset_run hub n c s w0) as Hload;
      cbn [events with_output] in Hload; rewrite Hhub in Hload;
      rewrite (try_bind_run _ _ _ _ _ _ Hload)
  end.
  rewrite try_bind_print. cbv zeta.
  lazymatch goal with
  | |- context [try_except (bind (mkdir_parents_exist_ok ?p) _) _ ?w0] =>
      destruct (mkdir_returns p w0 Hcreate) as (w2 & Hmk & Hchain);
      pose proof (mkdir_touches_in (fun q => q `prefix_of` p) p
                    (fun q H => H) w0) as Ht;
      rewrite Hmk in Ht; cbn [snd] in Ht;
      rewrite (try_bind_run _ _ _ _ _ _ Hmk)
  end.
  rewrite try_bind_print.
  set (w3 := with_output _ w2).
  destruct (save_files_run ["data"; "raw"; "mbpp"] (native_format (ex :: d)) w3)
    as (w4 & Hsave & Hchain4 & Hfiles & _ & _).
  { exact Hchain. }
  { exact Hnd. }
  { intros file Hin. subst w3. cbn [fs with_output]. rewrite Ht.
    - cbn [fs with_output after_request]. by apply Hfree.
    - apply (not_prefix_snoc ["data"; "raw"; "mbpp"]). }
  assert (Hsave' : save_to_disk native_format (ex :: d) ["data"; "raw"; "mbpp"] w3 =
                   (Return tt, w4)).
  { unfold save_to_disk.
    rewrite (bind_run _ _ _ _ _ (mkdir_noop ["data"; "raw"; "mbpp"] w3 Hchain)).
    exact Hsave. }
  rewrite (try_bind_run _ _ _ _ _ _ Hsave').
  unfold first_example. unfold try_except. rewrite bind_ret, bind_print'.
  rewrite Htext. unfold slice_100. rewrite bind_ret, bind_print'.
  rewrite Hcode. rewrite bind_ret, !bind_print'. unfold ret.
  eexists. split; [reflexivity|]. cbn [fs stdout with_output].
  split; [by apply dir_chain_self|]. split; [exact Hfiles|].
  eexists. reflexivity.
Qed.

End SelectorSuccess.

(** X22: when the hub answers the MBPP request with a dataset whose
    first example has a text and a code that are strings, and the files
    of the dataset can be written (the directory can be created, the
    file names are distinct and no directory sits at one of them), then
    [download_mbpp] returns [True], the directory [data/raw/mbpp] holds
    every file of the dataset with its content, and the last line
    printed is the success message. *)
Theorem mbpp_download_saves_the_dataset
    (hub : nat -> request -> DownloadDataset.hub_outcome)
    (native_format : DownloadDataset.dataset -> list (string * string))
    (d : DownloadDataset.dataset) (ex : DownloadDataset.example)
    (text code : string) (w : world) :
  hub (length (events w)) (HubLoad "mbpp" (Some "sanitized") "train") =
    DownloadDataset.HubData (ex :: d) ->
  DownloadDataset.dict_get ex "text" (DownloadDataset.VStr "") =
    DownloadDataset.VStr text ->
  DownloadDataset.dict_get ex "code" (DownloadDataset.VStr "") =
    DownloadDataset.VStr code ->
  creatable (fs w) ["data"; "raw"; "mbpp"] ->
  NoDup (native_format (ex :: d)).*1 ->
  (forall file, file ∈ native_format (ex :: d) ->
     fs w !! ["data"; "raw"; "mbpp"; file.1] <> Some Dir) ->
  exists w',
    DownloadDataset.download_mbpp hub native_format w = (Return true, w') /\
    fs w' !! ["data"; "raw"; "mbpp"] = Some Dir /\
    (forall file, file ∈ native_format (ex :: d) ->
       fs w' !! ["data"; "raw"; "mbpp"; file.1] = Some (File file.2)) /\
    exists out,
      stdout w' = out ++ [(nl +:+ "✓ MBPP downloaded successfully!") +:+ nl].
Proof.
  intros Hhub Htext Hcode Hcreate Hnd Hfree.
  by apply (mbpp_saved hub native_format d ex text code w).
Qed.

Lemma mbpp_download_saves_the_dataset_witness :
  exists w',
    DownloadDataset.download_mbpp hub_one_problem two_files empty_world =
      (Return true, w') /\
    fs w' !! ["data"; "raw"; "mbpp"; "state.json"] = Some (File "{}").
Proof.
  destruct (mbpp_download_saves_the_dataset hub_one_problem two_files []
              [ ("text", DownloadDataset.VStr "Write a function to add two numbers.");
                ("code", DownloadDataset.VStr "def add(a, b): return a + b");
                ("task_id", DownloadDataset.VInt 1) ]
              "Write a function to add two numbers."
              "def add(a, b): return a + b" empty_world)
    as (w' & Hrun & _ & Hfiles & _).
  - reflexivity.
  - reflexivity.
  - reflexivity.
  - intros q c _ _. simpl. rewrite lookup_empty. discriminate.
  - vm_compute. repeat constructor; rewrite ?elem_of_cons, ?elem_of_nil;
      intros H; repeat destruct H as [H|H]; try discriminate; done.
  - intros file _. simpl. rewrite lookup_empty. discriminate.
  - exists w'. split; [exact Hrun|].
    apply (Hfiles ("state.json", "{}")).
    unfold two_files. apply list_elem_of_further, list_elem_of_here.
Defined.
